(** * Credentialing helpdesk: ticket lifecycle and SLA deadlines

    A shallow embedding of [app.py] and [models.py] (Flask, SQLAlchemy) and the
    properties of the ticket lifecycle proved about it.

    Modelling conventions.
    - Python [str] values are Rocq strings whose characters are code points
      below 256; [lower] and [strip] follow Python on that range.
    - A [datetime] is a wall-clock reading in microseconds together with an
      optional UTC offset ([tzinfo]); a [timedelta] is a number of
      microseconds.  Instants are counted from 1970-01-01T00:00:00Z.  The
      zone [Asia/Karachi] is taken at the offset it has had since its last
      daylight-saving period ended in November 2009, UTC+5: the statements
      about conversions of stored or submitted datetimes are made for the
      instants of [pkt_era].
    - [Query.get_or_404] is a lookup in the table.  An identifier that does
      not fit a signed 64-bit integer cannot be bound as a query parameter:
      the lookup raises and the request ends in a server error.  No row has
      such an identifier.
    - The relational store is a record of finite maps keyed by primary key;
      a request handler is a function from the store to the store after the
      request and the reply sent to the browser.  One request reads the clock
      once.
    - [flash] messages are returned with the reply; e-mails handed to
      [send_email] are appended to an outbox. *)

From Stdlib Require Import ZArith String Ascii List Bool Lia DecimalString.
From stdpp Require Import base decidable option list gmap strings sorting fin_maps.

Open Scope string_scope.
Open Scope Z_scope.

(* ================================================================= *)
(** ** Python built-ins used by the application *)

Module Py.

(** [str.isspace] on one character (code points below 256). *)
Definition is_space (c : ascii) : bool :=
  let n := N_of_ascii c in
  (((9 <=? n) && (n <=? 13)) || ((28 <=? n) && (n <=? 32))
   || (n =? 133) || (n =? 160))%N.

(** [str.lower] on one character: A-Z and the Latin-1 capitals. *)
Definition lower_char (c : ascii) : ascii :=
  let n := N_of_ascii c in
  if (((65 <=? n) && (n <=? 90))
      || ((192 <=? n) && (n <=? 222) && negb (n =? 215)))%N
  then ascii_of_N (n + 32) else c.

Fixpoint lower (s : string) : string :=
  match s with
  | EmptyString => EmptyString
  | String c r => String (lower_char c) (lower r)
  end.

Fixpoint lstrip (s : string) : string :=
  match s with
  | EmptyString => EmptyString
  | String c r => if is_space c then lstrip r else s
  end.

Fixpoint rstrip (s : string) : string :=
  match s with
  | EmptyString => EmptyString
  | String c r =>
      match rstrip r with
      | EmptyString => if is_space c then EmptyString else String c EmptyString
      | r' => String c r'
      end
  end.

(** [s.strip()] *)
Definition strip (s : string) : string := rstrip (lstrip s).

(** [c in s] for a one-character string [c]. *)
Fixpoint contains (c : ascii) (s : string) : bool :=
  match s with
  | EmptyString => false
  | String d r => Ascii.eqb d c || contains c r
  end.

(** [s.rsplit(sep, 1)]: split once, at the last occurrence of [sep]. *)
Fixpoint rsplit1 (sep : ascii) (s : string) : list string :=
  match s with
  | EmptyString => [EmptyString]
  | String c r =>
      match rsplit1 sep r with
      | [a; b] => [String c a; b]
      | _ => if Ascii.eqb c sep then [EmptyString; r] else [s]
      end
  end.

(** Truth value of a string. *)
Definition nonempty (s : string) : bool := negb (String.eqb s "").

(** Truth value of an optional string ([None] and [""] are false). *)
Definition truthy (o : option string) : bool :=
  match o with
  | Some s => nonempty s
  | None => false
  end.

(** [x in [a, b, ...]] on strings. *)
Definition str_in (x : string) (l : list string) : bool :=
  existsb (String.eqb x) l.

(** [str(n)] / [f"{n}"] for an integer. *)
Definition str_of_int (n : Z) : string := NilZero.string_of_int (Z.to_int n).

(** The line break written [\n] in the source. *)
Definition nl : string := String (ascii_of_nat 10) EmptyString.

(** Nothing but white space (true of the empty string too). *)
Fixpoint all_space (s : string) : bool :=
  match s with
  | EmptyString => true
  | String c r => is_space c && all_space r
  end.

End Py.

(* ================================================================= *)
(** ** [datetime] and [timedelta] *)

Module DT.

Record datetime : Type := mk {
  wall : Z;            (* wall-clock reading, microseconds *)
  tzinfo : option Z    (* UTC offset in microseconds; [None] = naive *)
}.

#[global] Instance datetime_eq_dec : EqDecision datetime.
Proof. solve_decision. Defined.

Definition timedelta_hours (h : Z) : Z := h * 3600 * 1000000.
Definition timedelta_days (d : Z) : Z := d * 86400 * 1000000.

(** [pytz.utc] and [pytz.timezone("Asia/Karachi")] as UTC offsets.  Karachi
    has been at UTC+5 at every instant since 2009-10-31T18:00:00Z, when its
    last daylight-saving period ended; in the summers of 2002, 2008 and 2009
    it was at UTC+6, and before 1971 the zone had other offsets. *)
Definition UTC : Z := 0.
Definition PK_TZ : Z := timedelta_hours 5.

(** The instants from 2010-01-01T00:00:00Z to 9999-12-31T00:00:00Z: at
    each of them [PK_TZ] is Karachi's offset, and the Karachi reading of the
    instant is not beyond [datetime.max]. *)
Definition PKT_SINCE : Z := 1262304000 * 1000000.
Definition PKT_UNTIL : Z := 253402214400 * 1000000.

Definition pkt_era (instant : Z) : Prop := PKT_SINCE ≤ instant ≤ PKT_UNTIL.

(** [dt + delta] *)
Definition add (dt : datetime) (delta : Z) : datetime :=
  {| wall := wall dt + delta; tzinfo := tzinfo dt |}.

(** [dt.replace(tzinfo=tz)] *)
Definition replace_tzinfo (dt : datetime) (tz : option Z) : datetime :=
  {| wall := wall dt; tzinfo := tz |}.

(** [dt.astimezone(tz)] for an aware [dt] whose offset is [off]. *)
Definition astimezone (w off tz : Z) : datetime :=
  {| wall := w - off + tz; tzinfo := Some tz |}.

(** [datetime.now(tz)] when the clock shows the instant [clock]
    (microseconds, UTC). *)
Definition now (tz : Z) (clock : Z) : datetime :=
  {| wall := clock + tz; tzinfo := Some tz |}.

(** [datetime.utcnow()]: naive, UTC wall clock. *)
Definition utcnow (clock : Z) : datetime :=
  {| wall := clock; tzinfo := None |}.

(** Comparison of two naive datetimes. *)
Definition ltb (a b : datetime) : bool := wall a <? wall b.
Definition leb (a b : datetime) : bool := wall a <=? wall b.

(** What a [DateTime] column keeps of a value: the wall clock, no zone. *)
Definition stored (dt : datetime) : datetime := replace_tzinfo dt None.

End DT.

Import DT.

(* ================================================================= *)
(** ** The data model ([models.py]) *)

Module User.
Record t : Type := mk {
  id : Z;
  username : string;
  email : string;
  password_hash : string;
  role : string                      (* 'staff' or 'admin' *)
}.
End User.

Module Ticket.
Record t : Type := mk {
  id : Z;
  staff_id : Z;
  practice_name : string;
  provider_name : string;
  subject : string;
  description : string;
  priority : string;
  status : string;
  attachment_filename : option string;
  assigned_to : string;
  created_at : datetime;
  updated_at : datetime;
  due_time : datetime                (* nullable=False *)
}.

#[global] Instance eq_dec : EqDecision t.
Proof. solve_decision. Defined.

Definition set_status (x : t) (s : string) : t :=
  mk (id x) (staff_id x) (practice_name x) (provider_name x) (subject x)
     (description x) (priority x) s (attachment_filename x) (assigned_to x)
     (created_at x) (updated_at x) (due_time x).

Definition set_assigned_to (x : t) (a : string) : t :=
  mk (id x) (staff_id x) (practice_name x) (provider_name x) (subject x)
     (description x) (priority x) (status x) (attachment_filename x) a
     (created_at x) (updated_at x) (due_time x).

Definition set_created_at (x : t) (d : datetime) : t :=
  mk (id x) (staff_id x) (practice_name x) (provider_name x) (subject x)
     (description x) (priority x) (status x) (attachment_filename x)
     (assigned_to x) d (updated_at x) (due_time x).

Definition set_updated_at (x : t) (d : datetime) : t :=
  mk (id x) (staff_id x) (practice_name x) (provider_name x) (subject x)
     (description x) (priority x) (status x) (attachment_filename x)
     (assigned_to x) (created_at x) d (due_time x).

Definition set_due_time (x : t) (d : datetime) : t :=
  mk (id x) (staff_id x) (practice_name x) (provider_name x) (subject x)
     (description x) (priority x) (status x) (attachment_filename x)
     (assigned_to x) (created_at x) (updated_at x) d.
End Ticket.

Module Comment.
Record t : Type := mk {
  id : Z;
  ticket_id : Z;
  user_id : Z;
  message : string;
  created_at : datetime
}.
End Comment.

(** A message handed to the mail transport. *)
Record Email : Type := mkEmail {
  mail_subject : string;
  mail_recipients : list string;
  mail_body : string
}.

(** The persistent world of the application: the three tables, the upload
    folder (file name to content) and the mails handed to [send_email]. *)
Record World : Type := mkWorld {
  users : gmap Z User.t;
  tickets : gmap Z Ticket.t;
  comments : gmap Z Comment.t;
  uploads : gmap string string;
  outbox : list Email
}.

Definition with_tickets (w : World) (m : gmap Z Ticket.t) : World :=
  mkWorld (users w) m (comments w) (uploads w) (outbox w).

Definition with_comments (w : World) (m : gmap Z Comment.t) : World :=
  mkWorld (users w) (tickets w) m (uploads w) (outbox w).

Definition with_uploads (w : World) (m : gmap string string) : World :=
  mkWorld (users w) (tickets w) (comments w) m (outbox w).

Definition with_outbox (w : World) (o : list Email) : World :=
  mkWorld (users w) (tickets w) (comments w) (uploads w) o.

(** The rows of a table. *)
Definition rows {A : Type} (m : gmap Z A) : list A := (map_to_list m).*2.

(** The rows of a table as a query without [ORDER BY] returns them from
    SQLite: by ascending primary key. *)
Definition by_key {A : Type} (a b : Z * A) : Prop := a.1 ≤ b.1.

#[global] Instance by_key_dec {A : Type} : RelDecision (@by_key A).
Proof. intros a b. unfold by_key. apply _. Defined.

Definition rows_by_id {A : Type} (m : gmap Z A) : list A :=
  (merge_sort by_key (map_to_list m)).*2.

(** The key an integer primary key column gives to a new row: one more than
    the largest key in use, 1 in an empty table. *)
Definition next_id {A : Type} (m : gmap Z A) : Z :=
  1 + foldr Z.max 0 (map_to_list m).*1.

(* ================================================================= *)
(** ** Requests and replies *)

(** An uploaded file part. *)
Record FileStorage : Type := mkFile {
  filename : string;
  content : string
}.

Record Request : Type := mkRequest {
  method : string;
  form : gmap string string;
  files : gmap string FileStorage;
  args : gmap string string
}.

(** The figures a dashboard shows above its ticket list. *)
Record Dashboard : Type := mkDashboard {
  dash_tickets : list Ticket.t;
  selected_status : string;
  dash_now : datetime;
  total_tickets : Z;
  closed_tickets : Z;
  overdue_tickets : Z
}.

Inductive Response : Type :=
| Redirect (endpoint : string) (values : list (string * string))
| RenderTicket (t : Ticket.t)                 (* view_ticket.html *)
| RenderStaffDashboard (d : Dashboard) (flashed : option string)
                                              (* staff_dashboard.html *)
| RenderAdminDashboard (d : Dashboard)        (* admin_dashboard.html *)
| RenderCreateTicket                          (* create_ticket.html *)
| SendFile (name : string)                    (* send_from_directory *)
| Abort404                                    (* no such row, no such file *)
| ServerError.                                (* an uncaught exception *)

(** What the browser receives: the messages flashed, each with its
    category, and the response. *)
Record Reply : Type := mkReply {
  flashes : list (string * string);
  response : Response
}.

Definition flash_redirect (msg category endpoint : string)
  (values : list (string * string)) : Reply :=
  mkReply [(msg, category)] (Redirect endpoint values).

(** What [Query.get_or_404 ident] answers when no row has the key [ident]:
    404, unless [ident] does not fit a signed 64-bit integer; binding it to
    the query then raises [OverflowError]. *)
Definition no_such_row (ident : Z) : Response :=
  if 2 ^ 63 <=? ident then ServerError else Abort404.

(* ================================================================= *)
(** ** The application ([app.py]) *)

Definition ALLOWED_EXTENSIONS : gset string :=
  {[ "pdf"; "png"; "jpg"; "jpeg"; "doc"; "docx"; "xls"; "xlsx" ]}.

(** An f-string: its pieces, concatenated. *)
Definition fstr (pieces : list string) : string := String.concat "" pieces.

Section App.

(** [Config.MAIL_USERNAME], read from the environment at start-up. *)
Variable MAIL_USERNAME : string.

(** [werkzeug.utils.secure_filename]. *)
Variable secure_filename : string -> string.

(** [astimezone(PK_TZ)] puts the instant on Karachi's wall clock, at the
    offset [PK_TZ]: see the note at [PK_TZ] for the instants this holds at. *)
Definition make_naive (dt : datetime) : datetime :=
  match tzinfo dt with
  | Some off => replace_tzinfo (astimezone (wall dt) off PK_TZ) None
  | None => dt
  end.

Definition allowed_file (filename : string) : bool :=
  Py.contains "." filename &&
  match Py.rsplit1 "." filename !! 1%nat with
  | Some ext => bool_decide (Py.lower ext ∈ ALLOWED_EXTENSIONS)
  | None => false
  end.

Definition calculate_due_time (priority : string) (clock : Z) : datetime :=
  let now := replace_tzinfo (DT.now PK_TZ clock) None in
  if String.eqb priority "Urgent" then DT.add now (timedelta_hours 2)
  else if String.eqb priority "7 Days" then DT.add now (timedelta_days 7)
  else if String.eqb priority "15 Days" then DT.add now (timedelta_days 15)
  else DT.add now (timedelta_days 7).

Definition ensure_pk_time (dt : datetime) : datetime :=
  match tzinfo dt with
  | None => astimezone (wall dt) UTC PK_TZ
  | Some off => astimezone (wall dt) off PK_TZ
  end.

(** Delivery errors are caught and printed, so the caller sees no
    difference; the outbox records what was handed to the transport. *)
Definition send_email (subject : string) (recipients : list string)
  (body : string) (w : World) : World :=
  match recipients with
  | [] => w
  | _ => with_outbox w (outbox w ++ [mkEmail subject recipients body])
  end.

(** *** The reminder job *)

(** The filter of the reminder query, on one row. *)
Definition reminder_due (now : datetime) (t : Ticket.t) : bool :=
  Py.str_in (Ticket.status t) ["Open"; "In Progress"; "Solved"]
  && DT.leb (Ticket.due_time t) now.

Definition reminder_subject (t : Ticket.t) : string :=
  fstr ["[Reminder] Ticket #"; Py.str_of_int (Ticket.id t); " overdue (";
        Ticket.priority t; ")"].

Definition reminder_body (t : Ticket.t) (staff : User.t) : string :=
  fstr ["Hello,"; Py.nl; Py.nl;
        "Ticket #"; Py.str_of_int (Ticket.id t); " is still '";
        Ticket.status t; "' and has passed its SLA."; Py.nl; Py.nl;
        "Staff: "; User.username staff; " ("; User.email staff; ")"; Py.nl;
        "Practice: "; Ticket.practice_name t; Py.nl;
        "Provider: "; Ticket.provider_name t; Py.nl;
        "Subject: "; Ticket.subject t; Py.nl;
        "Priority: "; Ticket.priority t; Py.nl; Py.nl;
        "Please log in to the Credentialing Helpdesk Portal."; Py.nl; Py.nl;
        "Regards,"; Py.nl; "Credentialing Helpdesk System"].

(** The loop over the overdue rows; a row whose staff account is missing
    raises and ends the run. *)
Fixpoint send_reminders (overdue : list Ticket.t) (w : World) : World :=
  match overdue with
  | [] => w
  | t :: rest =>
      match users w !! Ticket.staff_id t with
      | Some staff =>
          send_reminders rest
            (send_email (reminder_subject t)
               [User.email staff; MAIL_USERNAME] (reminder_body t staff) w)
      | None => w
      end
  end.

Definition check_ticket_deadlines (clock : Z) (w : World) : World :=
  let now := utcnow clock in
  let overdue := List.filter (reminder_due now) (rows_by_id (tickets w)) in
  send_reminders overdue w.

(** *** Dashboards *)

(** The condition under which a dashboard counts a row as closed. *)
Definition counts_closed (t : Ticket.t) : bool :=
  Py.str_in (Py.lower (Ticket.status t)) ["closed"; "approved"].

(** The condition under which a dashboard counts a row as overdue
    ([t.due_time] is never null, so its truth test always passes). *)
Definition counts_overdue (now : datetime) (t : Ticket.t) : bool :=
  DT.ltb (make_naive (Ticket.due_time t)) now
  && negb (Py.str_in (Py.lower (Ticket.status t)) ["closed"; "approved"]).

(** [order_by(Ticket.created_at.desc())] *)
Definition not_older (a b : Ticket.t) : Prop :=
  wall (Ticket.created_at b) ≤ wall (Ticket.created_at a).

#[local] Instance not_older_dec : RelDecision not_older.
Proof. intros a b. unfold not_older. apply _. Defined.

Definition newest_first (l : list Ticket.t) : list Ticket.t :=
  merge_sort not_older l.

Definition dashboard (sel : string) (tickets : list Ticket.t) (clock : Z)
  : Dashboard :=
  let now := make_naive (DT.now PK_TZ clock) in
  mkDashboard tickets sel now
    (Z.of_nat (length tickets))
    (Z.of_nat (length (List.filter counts_closed tickets)))
    (Z.of_nat (length (List.filter (counts_overdue now) tickets))).

Definition by_status (sel : string) (l : list Ticket.t) : list Ticket.t :=
  if String.eqb sel "All" then l
  else List.filter (λ t, String.eqb (Ticket.status t) sel) l.

Definition staff_dashboard (current_user : User.t) (request : Request)
  (clock : Z) (w : World) : Reply :=
  if negb (String.eqb (User.role current_user) "staff") then
    mkReply [] (Redirect "admin_dashboard" [])
  else
    let selected := default "All" (args request !! "status") in
    let query :=
      List.filter (λ t, Ticket.staff_id t =? User.id current_user)
        (rows (tickets w)) in
    let tickets := newest_first (by_status selected query) in
    let flashed := args request !! "new_ticket" in
    mkReply []
      (RenderStaffDashboard (dashboard selected tickets clock) flashed).

Definition admin_dashboard (current_user : User.t) (request : Request)
  (clock : Z) (w : World) : Reply :=
  if negb (String.eqb (User.role current_user) "admin") then
    mkReply [] (Redirect "staff_dashboard" [])
  else
    let status_filter := default "All" (args request !! "status") in
    let tickets := newest_first (by_status status_filter (rows (tickets w))) in
    mkReply [] (RenderAdminDashboard (dashboard status_filter tickets clock)).

(** *** Writing a changed ticket back *)

(** [db.session.commit()] after attribute assignments that turned the row
    [old] into [new]: an UPDATE is issued only when some column changed,
    and it then also sets [updated_at] (its [onupdate] default). *)
Definition commit_ticket (clock : Z) (old new : Ticket.t) (w : World) : World :=
  if decide (new = old) then w
  else
    with_tickets w
      (<[Ticket.id old :=
           Ticket.set_updated_at new
             (replace_tzinfo (DT.now PK_TZ clock) None)]> (tickets w)).

(** [form.get(name) == value] and [form.get(name) in values]. *)
Definition field_is (o : option string) (v : string) : bool :=
  match o with
  | Some s => String.eqb s v
  | None => false
  end.

Definition field_in (o : option string) (l : list string) : bool :=
  match o with
  | Some s => Py.str_in s l
  | None => false
  end.

Definition ticket_url (endpoint : string) (ticket_id : Z) : Response :=
  Redirect endpoint [("ticket_id", Py.str_of_int ticket_id)].

(** *** Staff: create a ticket *)

Definition new_ticket_admin_body (ticket_id : Z) (current_user : User.t)
  (practice_name provider_name priority subject_text : string) : string :=
  fstr ["Hello Credentialing Team,"; Py.nl; Py.nl;
        "A new ticket has been submitted."; Py.nl; Py.nl;
        "Ticket ID: #"; Py.str_of_int ticket_id; Py.nl;
        "Staff: "; User.username current_user; " (";
        User.email current_user; ")"; Py.nl;
        "Practice: "; practice_name; Py.nl;
        "Provider: "; provider_name; Py.nl;
        "Priority: "; priority; Py.nl;
        "Subject: "; subject_text; Py.nl; Py.nl;
        "Regards,"; Py.nl; "Credentialing Helpdesk System"].

Definition new_ticket_staff_body (ticket_id : Z) (current_user : User.t)
  (priority subject_text : string) : string :=
  fstr ["Hello "; User.username current_user; ","; Py.nl; Py.nl;
        "Your ticket #"; Py.str_of_int ticket_id; " has been submitted.";
        Py.nl; Py.nl;
        "Priority: "; priority; Py.nl;
        "Subject: "; subject_text; Py.nl; Py.nl;
        "Regards,"; Py.nl; "Credentialing Helpdesk System"].

Definition create_ticket (current_user : User.t) (request : Request)
  (clock : Z) (w : World) : World * Reply :=
  if negb (String.eqb (User.role current_user) "staff") then
    (w, flash_redirect "Only staff can create tickets." "danger"
          "staff_dashboard" [])
  else if String.eqb (method request) "POST" then
    let practice_name := form request !! "practice_name" in
    let provider_name := form request !! "provider_name" in
    let subject_text := form request !! "subject" in
    let description := form request !! "description" in
    let priority := form request !! "priority" in
    if negb (forallb Py.truthy
               [practice_name; provider_name; subject_text; description;
                priority]) then
      (w, flash_redirect "All fields including priority are required."
            "danger" "create_ticket" [])
    else
      (* all five are present from here on *)
      let practice_name := default "" practice_name in
      let provider_name := default "" provider_name in
      let subject_text := default "" subject_text in
      let description := default "" description in
      let priority := default "" priority in
      let created_at := DT.now PK_TZ clock in
      let due_time :=
        if String.eqb priority "Urgent" then
          DT.add created_at (timedelta_hours 2)
        else if String.eqb priority "7 Days" then
          DT.add created_at (timedelta_days 7)
        else
          DT.add created_at (timedelta_days 3) in
      let attachment_file := files request !! "attachment" in
      (* [None]: the attachment was refused; otherwise the stored file name
         (if any) and the world after saving the file *)
      let saved : option (option string * World) :=
        match attachment_file with
        | Some f =>
            if Py.nonempty (filename f) then
              if allowed_file (filename f) then
                let name := secure_filename (filename f) in
                Some (Some name,
                      with_uploads w (<[name := content f]> (uploads w)))
              else None
            else Some (None, w)
        | None => Some (None, w)
        end in
      match saved with
      | None =>
          (w, flash_redirect "Invalid attachment type." "danger"
                "create_ticket" [])
      | Some (name, w) =>
          let ticket :=
            Ticket.mk (next_id (tickets w)) (User.id current_user)
              practice_name provider_name subject_text description priority
              "Open" name ""
              (stored created_at)
              (replace_tzinfo (DT.now PK_TZ clock) None)
              (stored due_time) in
          let w := with_tickets w (<[Ticket.id ticket := ticket]> (tickets w)) in
          let w :=
            send_email
              (fstr ["[New Ticket Created] #"; Py.str_of_int (Ticket.id ticket);
                     " | Priority: "; priority])
              [MAIL_USERNAME]
              (new_ticket_admin_body (Ticket.id ticket) current_user
                 practice_name provider_name priority subject_text) w in
          let w :=
            send_email
              (fstr ["[Ticket Confirmation] Ticket #";
                     Py.str_of_int (Ticket.id ticket); " Submitted"])
              [User.email current_user]
              (new_ticket_staff_body (Ticket.id ticket) current_user
                 priority subject_text) w in
          (w, mkReply
                [(fstr ["Ticket #"; Py.str_of_int (Ticket.id ticket);
                        " created successfully."], "success")]
                (Redirect "staff_dashboard" [("new_ticket", "True")]))
      end
  else
    (w, mkReply [] RenderCreateTicket).

(** *** Admin: change the status *)

Definition status_update_body (ticket : Ticket.t) (staff : User.t)
  (new_status : string) : string :=
  fstr ["Hello "; User.username staff; ","; Py.nl; Py.nl;
        "Your ticket #"; Py.str_of_int (Ticket.id ticket);
        " status is now: "; new_status; "."; Py.nl; Py.nl;
        "Subject: "; Ticket.subject ticket; Py.nl;
        "Priority: "; Ticket.priority ticket; Py.nl; Py.nl;
        "Regards,"; Py.nl; "Credentialing Helpdesk System"].

Definition admin_update_status (current_user : User.t) (ticket_id : Z)
  (request : Request) (clock : Z) (w : World) : World * Reply :=
  if negb (String.eqb (User.role current_user) "admin") then
    (w, flash_redirect "Not authorized." "danger" "index" [])
  else
    match tickets w !! ticket_id with
    | None => (w, mkReply [] (no_such_row ticket_id))
    | Some ticket =>
        let new_status := form request !! "status" in
        if negb (field_in new_status ["Open"; "In Progress"; "Solved"]) then
          (w, flash_redirect "Invalid status." "danger" "admin_dashboard" [])
        else
          let new_status := default "" new_status in
          let w := commit_ticket clock ticket
                     (Ticket.set_status ticket new_status) w in
          (* Notify staff *)
          match users w !! Ticket.staff_id ticket with
          | None => (w, mkReply [] ServerError)
          | Some staff =>
              let w :=
                send_email
                  (fstr ["[Ticket Update] Ticket #";
                         Py.str_of_int (Ticket.id ticket); " is now ";
                         new_status])
                  [User.email staff; MAIL_USERNAME]
                  (status_update_body ticket staff new_status) w in
              (w, flash_redirect "Ticket status updated." "success"
                    "admin_dashboard" [])
          end
    end.

(** *** Shared ticket views *)

(** The conversions are made on the loaded object only: nothing is
    committed, so the store is not an output of this handler.  The stored
    wall clock is read as UTC and moved to Karachi's offset [PK_TZ]. *)
Definition view_ticket (current_user : User.t) (ticket_id : Z) (w : World)
  : Reply :=
  match tickets w !! ticket_id with
  | None => mkReply [] (no_such_row ticket_id)
  | Some ticket =>
      (* PKT conversion for consistency *)
      let ticket :=
        Ticket.set_created_at ticket
          (astimezone (wall (Ticket.created_at ticket)) UTC PK_TZ) in
      let ticket :=
        Ticket.set_due_time ticket
          match tzinfo (Ticket.due_time ticket) with
          | None => astimezone (wall (Ticket.due_time ticket)) UTC PK_TZ
          | Some off => astimezone (wall (Ticket.due_time ticket)) off PK_TZ
          end in
      if String.eqb (User.role current_user) "staff"
         && negb (Ticket.staff_id ticket =? User.id current_user) then
        flash_redirect "You are not allowed to view this ticket." "danger"
          "staff_dashboard" []
      else
        mkReply [] (RenderTicket ticket)
  end.

Definition download_attachment (current_user : User.t) (ticket_id : Z)
  (w : World) : Reply :=
  match tickets w !! ticket_id with
  | None => mkReply [] (no_such_row ticket_id)
  | Some ticket =>
      if negb (Py.truthy (Ticket.attachment_filename ticket)) then
        mkReply [("No attachment for this ticket.", "info")]
          (ticket_url "view_ticket" ticket_id)
      else if String.eqb (User.role current_user) "staff"
              && negb (Ticket.staff_id ticket =? User.id current_user) then
        flash_redirect "Not authorized." "danger" "staff_dashboard" []
      else
        (* send_from_directory: 404 when the folder has no such file *)
        let name := default "" (Ticket.attachment_filename ticket) in
        match uploads w !! name with
        | Some _ => mkReply [] (SendFile name)
        | None => mkReply [] Abort404
        end
  end.

(** *** Comments *)

Definition add_comment (current_user : User.t) (ticket_id : Z)
  (request : Request) (clock : Z) (w : World) : World * Reply :=
  match tickets w !! ticket_id with
  | None => (w, mkReply [] (no_such_row ticket_id))
  | Some ticket =>
      let message := Py.strip (default "" (form request !! "message")) in
      if negb (Py.nonempty message) then
        (w, mkReply [("Comment cannot be empty.", "danger")]
              (ticket_url "view_ticket" ticket_id))
      else
        let comment :=
          Comment.mk (next_id (comments w)) (Ticket.id ticket)
            (User.id current_user) message (stored (DT.now PK_TZ clock)) in
        (with_comments w (<[Comment.id comment := comment]> (comments w)),
         mkReply [("Comment posted successfully.", "success")]
           (ticket_url "view_ticket" (Ticket.id ticket)))
  end.

(** *** Staff: approve and close, or reopen *)

Definition closed_body (ticket : Ticket.t) (current_user : User.t) : string :=
  fstr ["Hello Credentialing Team,"; Py.nl; Py.nl;
        "Ticket #"; Py.str_of_int (Ticket.id ticket);
        " has been approved & closed by "; User.username current_user; ".";
        Py.nl; Py.nl;
        "Subject: "; Ticket.subject ticket; Py.nl;
        "Priority: "; Ticket.priority ticket; Py.nl; Py.nl;
        "Regards,"; Py.nl; "Credentialing Helpdesk System"].

Definition reopened_body (ticket : Ticket.t) (current_user : User.t) : string :=
  fstr ["Hello Credentialing Team,"; Py.nl; Py.nl;
        "Ticket #"; Py.str_of_int (Ticket.id ticket);
        " has been reopened by "; User.username current_user; ".";
        Py.nl; Py.nl;
        "Subject: "; Ticket.subject ticket; Py.nl;
        "Priority: "; Ticket.priority ticket; Py.nl; Py.nl;
        "Regards,"; Py.nl; "Credentialing Helpdesk System"].

Definition staff_action (current_user : User.t) (ticket_id : Z)
  (request : Request) (clock : Z) (w : World) : World * Reply :=
  match tickets w !! ticket_id with
  | None => (w, mkReply [] (no_such_row ticket_id))
  | Some ticket =>
      if negb (String.eqb (User.role current_user) "staff")
         || negb (Ticket.staff_id ticket =? User.id current_user) then
        (w, flash_redirect "Not authorized." "danger" "index" [])
      else
        let action := form request !! "action" in
        let cred_email := MAIL_USERNAME in
        if field_is action "approve_close"
           && Py.str_in (Ticket.status ticket)
                ["Solved"; "In Progress"; "Open"] then
          let w := commit_ticket clock ticket
                     (Ticket.set_status ticket "Closed") w in
          let w :=
            send_email
              (fstr ["[Ticket Closed] #"; Py.str_of_int (Ticket.id ticket);
                     " Approved & Closed"])
              [cred_email] (closed_body ticket current_user) w in
          (w, mkReply [("Ticket closed.", "success")]
                (ticket_url "view_ticket" (Ticket.id ticket)))
        else if field_is action "reopen"
                && Py.str_in (Ticket.status ticket) ["Solved"; "Closed"] then
          let w := commit_ticket clock ticket
                     (Ticket.set_due_time
                        (Ticket.set_status ticket "In Progress")
                        (calculate_due_time (Ticket.priority ticket) clock))
                     w in
          let w :=
            send_email
              (fstr ["[Ticket Reopened] #"; Py.str_of_int (Ticket.id ticket)])
              [cred_email] (reopened_body ticket current_user) w in
          (w, mkReply [("Ticket reopened and set to In Progress.", "success")]
                (ticket_url "view_ticket" (Ticket.id ticket)))
        else
          (w, mkReply [("Invalid action for current status.", "danger")]
                (ticket_url "view_ticket" (Ticket.id ticket)))
  end.

(** *** Admin: assign *)

Definition admin_update_assigned (current_user : User.t) (ticket_id : Z)
  (request : Request) (clock : Z) (w : World) : World * Reply :=
  if negb (String.eqb (User.role current_user) "admin") then
    (w, flash_redirect "Not authorized." "danger" "index" [])
  else
    match tickets w !! ticket_id with
    | None => (w, mkReply [] (no_such_row ticket_id))
    | Some ticket =>
        let assigned_to :=
          Py.strip (default "" (form request !! "assigned_to")) in
        let w := commit_ticket clock ticket
                   (Ticket.set_assigned_to ticket assigned_to) w in
        (w, mkReply
              [(fstr ["Ticket #"; Py.str_of_int (Ticket.id ticket);
                      " assigned to '"; assigned_to; "'."], "success")]
              (Redirect "admin_dashboard"
                 [("status", default "All" (args request !! "status"))]))
    end.

End App.

(* ================================================================= *)
(** ** Accounts ([app.py], [models.py]) *)

Definition with_users (w : World) (m : gmap Z User.t) : World :=
  mkWorld m (tickets w) (comments w) (uploads w) (outbox w).

(** What the account routes answer. *)
Inductive AuthResponse : Type :=
| AuthRedirect (endpoint : string)
| RenderLogin                                 (* login.html *)
| RenderRegister                              (* register.html *)
| RenderForgotPassword                        (* forgot_password.html *)
| AuthServerError.                            (* an uncaught exception *)

Record AuthReply : Type := mkAuthReply {
  auth_flashes : list (string * string);
  auth_response : AuthResponse
}.

Section Accounts.

(** [werkzeug.security.generate_password_hash]; the salt it draws at
    random is its first argument here. *)
Variable generate_password_hash : string -> string -> string.

(** [werkzeug.security.check_password_hash pwhash password]. *)
Variable check_password_hash : string -> string -> bool.

(** [User.set_password] *)
Definition set_password (u : User.t) (salt password : string) : User.t :=
  User.mk (User.id u) (User.username u) (User.email u)
    (generate_password_hash salt password) (User.role u).

(** [User.check_password] *)
Definition check_password (u : User.t) (password : string) : bool :=
  check_password_hash (User.password_hash u) password.

(** [User.query.filter_by(email=email).first()] *)
Definition first_by_email (email : string) (w : World) : option User.t :=
  List.find (λ u, String.eqb (User.email u) email) (rows (users w)).

(** [index]; [current_user] is [None] for an anonymous visitor. *)
Definition index (current_user : option User.t) : AuthReply :=
  match current_user with
  | Some u =>
      if String.eqb (User.role u) "admin" then
        mkAuthReply [] (AuthRedirect "admin_dashboard")
      else mkAuthReply [] (AuthRedirect "staff_dashboard")
  | None => mkAuthReply [] (AuthRedirect "login")
  end.

Definition register (request : Request) (salt : string) (w : World)
  : World * AuthReply :=
  if String.eqb (method request) "POST" then
    let email := Py.strip (default "" (form request !! "email")) in
    let username := Py.strip (default "" (form request !! "username")) in
    let password := form request !! "password" in
    let confirm := form request !! "confirm" in
    if negb (Py.nonempty email) || negb (Py.nonempty username)
       || negb (Py.truthy password) then
      (w, mkAuthReply [("All fields are required.", "danger")]
            (AuthRedirect "register"))
    else if negb (bool_decide (password = confirm)) then
      (w, mkAuthReply [("Passwords do not match.", "danger")]
            (AuthRedirect "register"))
    else
      match first_by_email email w with
      | Some _ =>
          (w, mkAuthReply [("Email already registered.", "danger")]
                (AuthRedirect "register"))
      | None =>
          let user := User.mk (next_id (users w)) username email "" "staff" in
          let user := set_password user salt (default "" password) in
          (with_users w (<[User.id user := user]> (users w)),
           mkAuthReply [("Registration successful. Please login.", "success")]
             (AuthRedirect "login"))
      end
  else
    (w, mkAuthReply [] RenderRegister).

(** [login]: the account logged in by the request, if any, and the reply.
    A form without a password field makes [check_password] raise. *)
Definition login (request : Request) (w : World)
  : option User.t * AuthReply :=
  if String.eqb (method request) "POST" then
    let email := form request !! "email" in
    let password := form request !! "password" in
    let user :=
      match email with
      | Some e => first_by_email e w
      | None => None
      end in
    match user with
    | Some u =>
        match password with
        | None => (None, mkAuthReply [] AuthServerError)
        | Some p =>
            if check_password u p then
              (* login_user(user) *)
              if String.eqb (User.role u) "admin" then
                (Some u, mkAuthReply [] (AuthRedirect "admin_dashboard"))
              else
                (Some u, mkAuthReply [] (AuthRedirect "staff_dashboard"))
            else
              (None, mkAuthReply [("Invalid email or password.", "danger")]
                       RenderLogin)
        end
    | None =>
        (None, mkAuthReply [("Invalid email or password.", "danger")]
                 RenderLogin)
    end
  else
    (None, mkAuthReply [] RenderLogin).

(** [logout]: nobody is logged in afterwards. *)
Definition logout : option User.t * AuthReply :=
  (None, mkAuthReply [("Logged out successfully.", "success")]
           (AuthRedirect "login")).

Definition forgot_password (request : Request) (w : World)
  : World * AuthReply :=
  if String.eqb (method request) "POST" then
    let email := form request !! "email" in
    let user :=
      match email with
      | Some e => first_by_email e w
      | None => None
      end in
    let w :=
      match user with
      | Some u =>
          send_email "[Credentialing Helpdesk] Password Reset Instructions"
            [User.email u]
            (fstr ["Hello "; User.username u; ","; Py.nl; Py.nl;
                   "Please contact your administrator to reset your password.";
                   Py.nl; Py.nl;
                   "Regards,"; Py.nl; "Credentialing Helpdesk"]) w
      | None => w
      end in
    (w, mkAuthReply
          [("If that email exists, reset instructions have been sent.", "info")]
          (AuthRedirect "login"))
  else
    (w, mkAuthReply [] RenderForgotPassword).

(** The [init-db] command; [admin_email] and [admin_password] are the
    values of [ADMIN_EMAIL] and [ADMIN_PASSWORD]. *)
Definition init_db (admin_email admin_password salt : string) (w : World)
  : World :=
  match first_by_email admin_email w with
  | Some _ => w
  | None =>
      let admin :=
        User.mk (next_id (users w)) "CredentialingAdmin" admin_email ""
          "admin" in
      let admin := set_password admin salt admin_password in
      with_users w (<[User.id admin := admin]> (users w))
  end.

End Accounts.

(* ================================================================= *)
(** ** The vocabulary of the statements *)

(** *** The store *)

(** Every ticket sits under its own [id]. *)
Definition keyed (w : World) : Prop :=
  ∀ k t, tickets w !! k = Some t → Ticket.id t = k.

(** *** Replies, by the names the specification gives the outcomes *)

Definition NotAuthorized : Reply :=
  flash_redirect "Not authorized." "danger" "index" [].

Definition NotFound : Reply := mkReply [] Abort404.

(** The answer to a request whose handler raised. *)
Definition InternalError : Reply := mkReply [] ServerError.

Definition InvalidStatus : Reply :=
  flash_redirect "Invalid status." "danger" "admin_dashboard" [].

Definition StatusUpdated : Reply :=
  flash_redirect "Ticket status updated." "success" "admin_dashboard" [].

(** The reply to a refused attachment. *)
Definition InvalidAttachment : Reply :=
  flash_redirect "Invalid attachment type." "danger" "create_ticket" [].

Definition TicketClosed (ticket_id : Z) : Reply :=
  mkReply [("Ticket closed.", "success")] (ticket_url "view_ticket" ticket_id).

Definition TicketReopened (ticket_id : Z) : Reply :=
  mkReply [("Ticket reopened and set to In Progress.", "success")]
    (ticket_url "view_ticket" ticket_id).

Definition InvalidAction (ticket_id : Z) : Reply :=
  mkReply [("Invalid action for current status.", "danger")]
    (ticket_url "view_ticket" ticket_id).

Definition ViewRefused : Reply :=
  flash_redirect "You are not allowed to view this ticket." "danger"
    "staff_dashboard" [].

Definition CommentPosted (ticket_id : Z) : Reply :=
  mkReply [("Comment posted successfully.", "success")]
    (ticket_url "view_ticket" ticket_id).

(** The replies of the account routes. *)
Definition Registered : AuthReply :=
  mkAuthReply [("Registration successful. Please login.", "success")]
    (AuthRedirect "login").

Definition LoginFailed : AuthReply :=
  mkAuthReply [("Invalid email or password.", "danger")] RenderLogin.

Definition ResetRequested : AuthReply :=
  mkAuthReply
    [("If that email exists, reset instructions have been sent.", "info")]
    (AuthRedirect "login").

(** *** Creating a ticket *)

(** The names of the form fields [create_ticket] requires. *)
Definition REQUIRED_FIELDS : list string :=
  ["practice_name"; "provider_name"; "subject"; "description"; "priority"].

(** Every required field was submitted with a non-empty value. *)
Definition fields_present (request : Request) : Prop :=
  ∀ name, name ∈ REQUIRED_FIELDS →
    ∃ v, form request !! name = Some v ∧ v ≠ "".

(** The request carries no attachment, or one the handler accepts. *)
Definition attachment_accepted (request : Request) : Prop :=
  match files request !! "attachment" with
  | Some f => filename f = "" ∨ allowed_file (filename f) = true
  | None => True
  end.

(** A submitted form value. *)
Definition submitted (request : Request) (name : string) : string :=
  default "" (form request !! name).

(** The SLA a priority receives when the ticket is created. *)
Definition creation_offset (priority : string) : Z :=
  if String.eqb priority "Urgent" then timedelta_hours 2
  else if String.eqb priority "7 Days" then timedelta_days 7
  else timedelta_days 3.

(** The file name recorded on the ticket. *)
Definition recorded_name (secure_filename : string -> string)
  (request : Request) : option string :=
  match files request !! "attachment" with
  | Some f =>
      if Py.nonempty (filename f) then Some (secure_filename (filename f))
      else None
  | None => None
  end.

(** The row [create_ticket] inserts. *)
Definition created_row (secure_filename : string -> string)
  (current_user : User.t) (request : Request) (clock : Z) (w : World)
  : Ticket.t :=
  Ticket.mk (next_id (tickets w)) (User.id current_user)
    (submitted request "practice_name") (submitted request "provider_name")
    (submitted request "subject") (submitted request "description")
    (submitted request "priority") "Open" (recorded_name secure_filename request) ""
    (replace_tzinfo (DT.now PK_TZ clock) None)
    (replace_tzinfo (DT.now PK_TZ clock) None)
    (replace_tzinfo
       (DT.add (DT.now PK_TZ clock)
          (creation_offset (submitted request "priority"))) None).

(** *** The owner's two moves *)

(** Approve-and-close is asked for, from a status that allows it. *)
Definition may_close (request : Request) (t : Ticket.t) : Prop :=
  form request !! "action" = Some "approve_close"
  ∧ Ticket.status t ∈ ["Open"; "In Progress"; "Solved"].

(** Reopen is asked for, from a status that allows it. *)
Definition may_reopen (request : Request) (t : Ticket.t) : Prop :=
  form request !! "action" = Some "reopen"
  ∧ Ticket.status t ∈ ["Solved"; "Closed"].

(** *** Overdue tickets *)

(** Overdue, in the words of the specification: the status, compared
    without regard to case, is neither Closed nor Approved, and the due
    time lies strictly before [now]. *)
Definition spec_overdue (now : datetime) (t : Ticket.t) : Prop :=
  (Py.lower (Ticket.status t) ∉ ["closed"; "approved"])
  ∧ (wall (make_naive (Ticket.due_time t)) < wall now).

(** The reminder about one ticket, when its staff account exists. *)
Definition reminder_for (MAIL_USERNAME : string) (us : gmap Z User.t)
  (t : Ticket.t) : option Email :=
  match us !! Ticket.staff_id t with
  | Some staff =>
      Some (mkEmail (reminder_subject t) [User.email staff; MAIL_USERNAME]
              (reminder_body t staff))
  | None => None
  end.

(** *** Sample data for the worked examples *)

(** The operational mailbox. *)
Definition OPS : string := "credentialing@example.org".

(** Two staff members and an admin. *)
Definition alice : User.t := User.mk 1 "alice" "alice@example.org" "x" "staff".
Definition bob : User.t := User.mk 2 "bob" "bob@example.org" "x" "staff".
Definition carol : User.t := User.mk 3 "carol" "carol@example.org" "x" "admin".

(** Ticket 1, owned by alice. *)
Definition sample_ticket (status priority : string) : Ticket.t :=
  Ticket.mk 1 1 "Practice" "Provider" "Subject" "Description" priority status
    None "dave" (DT.mk 0 None) (DT.mk 0 None) (DT.mk (timedelta_days 3) None).

(** A world holding the three accounts and one ticket. *)
Definition sample_world (t : Ticket.t) : World :=
  mkWorld (<[1 := alice]> (<[2 := bob]> (<[3 := carol]> ∅)))
    (<[Ticket.id t := t]> ∅) ∅ ∅ [].

(** The three accounts and no ticket. *)
Definition empty_world : World :=
  mkWorld (<[1 := alice]> (<[2 := bob]> (<[3 := carol]> ∅))) ∅ ∅ ∅ [].

(** A POST request with the given form fields and file parts. *)
Definition post (fields : list (string * string))
  (parts : list (string * FileStorage)) : Request :=
  mkRequest "POST" (list_to_map fields) (list_to_map parts) ∅.

(** A complete ticket form. *)
Definition ticket_form (priority : string) : list (string * string) :=
  [("practice_name", "Practice"); ("provider_name", "Provider");
   ("subject", "Subject"); ("description", "Description");
   ("priority", priority)].

(** A stand-in for [secure_filename] that keeps the name. *)
Definition keep_name (name : string) : string := name.

(** *** The life of the store *)

(** The statuses the handlers write. *)
Definition STATUSES : list string := ["Open"; "In Progress"; "Solved"; "Closed"].

(** Every ticket sits under its own id, has one of the four statuses and
    carries naive timestamps. *)
Definition well_formed (w : World) : Prop :=
  ∀ k t, tickets w !! k = Some t →
    Ticket.id t = k
    ∧ Ticket.status t ∈ STATUSES
    ∧ tzinfo (Ticket.created_at t) = None
    ∧ tzinfo (Ticket.updated_at t) = None
    ∧ tzinfo (Ticket.due_time t) = None.

(** Two versions of a ticket that agree on everything a ticket is created
    with, apart from status, deadline, assignee and update time. *)
Definition same_origin (t t' : Ticket.t) : Prop :=
  Ticket.id t' = Ticket.id t
  ∧ Ticket.staff_id t' = Ticket.staff_id t
  ∧ Ticket.practice_name t' = Ticket.practice_name t
  ∧ Ticket.provider_name t' = Ticket.provider_name t
  ∧ Ticket.subject t' = Ticket.subject t
  ∧ Ticket.description t' = Ticket.description t
  ∧ Ticket.priority t' = Ticket.priority t
  ∧ Ticket.attachment_filename t' = Ticket.attachment_filename t
  ∧ Ticket.created_at t' = Ticket.created_at t.

(** What a request may make of an existing ticket: the same ticket, with
    possibly another of the four statuses, another naive deadline, another
    assignee and another naive update time. *)
Definition evolves (t t' : Ticket.t) : Prop :=
  same_origin t t'
  ∧ (Ticket.status t' = Ticket.status t ∨ Ticket.status t' ∈ STATUSES)
  ∧ (Ticket.due_time t' = Ticket.due_time t
     ∨ tzinfo (Ticket.due_time t') = None)
  ∧ (Ticket.updated_at t' = Ticket.updated_at t
     ∨ tzinfo (Ticket.updated_at t') = None).

(** How one request may change the ticket table: every ticket stays, under
    its key, and evolves; a ticket that was not there before is an Open one
    under its own id, with naive timestamps. *)
Definition tickets_delta (w w' : World) : Prop :=
  (∀ k t, tickets w !! k = Some t →
          ∃ t', tickets w' !! k = Some t' ∧ evolves t t')
  ∧ (∀ k t', tickets w' !! k = Some t' → tickets w !! k = None →
             Ticket.id t' = k ∧ Ticket.status t' = "Open"
             ∧ tzinfo (Ticket.created_at t') = None
             ∧ tzinfo (Ticket.updated_at t') = None
             ∧ tzinfo (Ticket.due_time t') = None).

(** No two accounts share an e-mail address, and each sits under its id. *)
Definition accounts_ok (w : World) : Prop :=
  (∀ k u, users w !! k = Some u → User.id u = k)
  ∧ (∀ k1 k2 u1 u2, users w !! k1 = Some u1 → users w !! k2 = Some u2 →
                    User.email u1 = User.email u2 → k1 = k2).

(** The rows of the account and comment tables that a step keeps. *)
Definition keeps_rows (w w' : World) : Prop :=
  (∀ k u, users w !! k = Some u → users w' !! k = Some u)
  ∧ (∀ k c, comments w !! k = Some c → comments w' !! k = Some c).

(** One request, or one run of the reminder job or of [init-db], that
    can change the world. *)
Inductive step (MAIL_USERNAME : string) (secure_filename : string -> string)
  (generate_password_hash : string -> string -> string)
  : World → World → Prop :=
| step_create_ticket cu request clock w :
    step MAIL_USERNAME secure_filename generate_password_hash w
      (create_ticket MAIL_USERNAME secure_filename cu request clock w).1
| step_admin_update_status cu ticket_id request clock w :
    step MAIL_USERNAME secure_filename generate_password_hash w
      (admin_update_status MAIL_USERNAME cu ticket_id request clock w).1
| step_staff_action cu ticket_id request clock w :
    step MAIL_USERNAME secure_filename generate_password_hash w
      (staff_action MAIL_USERNAME cu ticket_id request clock w).1
| step_admin_update_assigned cu ticket_id request clock w :
    step MAIL_USERNAME secure_filename generate_password_hash w
      (admin_update_assigned cu ticket_id request clock w).1
| step_add_comment cu ticket_id request clock w :
    step MAIL_USERNAME secure_filename generate_password_hash w
      (add_comment cu ticket_id request clock w).1
| step_check_ticket_deadlines clock w :
    step MAIL_USERNAME secure_filename generate_password_hash w
      (check_ticket_deadlines MAIL_USERNAME clock w)
| step_register request salt w :
    step MAIL_USERNAME secure_filename generate_password_hash w
      (register generate_password_hash request salt w).1
| step_forgot_password request w :
    step MAIL_USERNAME secure_filename generate_password_hash w
      (forgot_password request w).1
| step_init_db admin_email admin_password salt w :
    step MAIL_USERNAME secure_filename generate_password_hash w
      (init_db generate_password_hash admin_email admin_password salt w).

(** *** More sample data *)

(** A stand-in for the password hash, which keeps the password and
    ignores the salt, and its check. *)
Definition sample_hash (salt password : string) : string := password.

Definition sample_check (pwhash password : string) : bool :=
  String.eqb pwhash password.

(** Ticket 2, also alice's, created later than ticket 1. *)
Definition newer_ticket : Ticket.t :=
  Ticket.mk 2 1 "Practice" "Provider" "Later" "Description" "7 Days" "Solved"
    None "" (DT.mk 1000 None) (DT.mk 1000 None)
    (DT.mk (timedelta_days 7) None).

(** The three accounts and tickets 1 and 2. *)
Definition two_tickets_world : World :=
  with_tickets (sample_world (sample_ticket "Open" "Urgent"))
    (<[2 := newer_ticket]>
       (tickets (sample_world (sample_ticket "Open" "Urgent")))).

(** A registration form. *)
Definition signup_form : list (string * string) :=
  [("email", " dora@example.org "); ("username", "dora");
   ("password", "secret"); ("confirm", "secret")].

(** A GET request with the given query string. *)
Definition get (query : list (string * string)) : Request :=
  mkRequest "GET" ∅ ∅ (list_to_map query).

(** 2024-01-01T00:00:00Z. *)
Definition NEW_YEAR_2024 : Z := 1704067200 * 1000000.

(** Ticket 1, alice's, opened that day at 10:00 Karachi time with priority
    Urgent, so due at 12:00 Karachi time, with a scan attached. *)
Definition urgent_ticket : Ticket.t :=
  Ticket.mk 1 1 "Practice" "Provider" "Subject" "Description" "Urgent" "Open"
    (Some "scan.pdf") ""
    (DT.mk (NEW_YEAR_2024 + timedelta_hours 10) None)
    (DT.mk (NEW_YEAR_2024 + timedelta_hours 10) None)
    (DT.mk (NEW_YEAR_2024 + timedelta_hours 12) None).

(** The three accounts, that ticket and its file in the upload folder. *)
Definition office_world : World :=
  with_uploads (sample_world urgent_ticket) (<["scan.pdf" := "%PDF-1.7"]> ∅).

(** The same, after the file was removed from the folder. *)
Definition office_world_no_file : World := sample_world urgent_ticket.

(** 13:00 in Karachi on that day: 08:00 UTC. *)
Definition ONE_PM_KARACHI : Z := NEW_YEAR_2024 + timedelta_hours 8.

(* ================================================================= *)
(** * Properties *)

(** ** The Python string functions *)

Module PyFacts.
Import Py.

Lemma eqb_refl_str (s : string) : String.eqb s s = true.
Proof. apply String.eqb_eq. reflexivity. Qed.

Lemma eqb_neq_str (a b : string) : a ≠ b → String.eqb a b = false.
Proof. intros H. apply String.eqb_neq. exact H. Qed.

Lemma app_nil_l (b : string) : "" +:+ b = b.
Proof. reflexivity. Qed.

Lemma app_cons (c : ascii) (a b : string) :
  String c a +:+ b = String c (a +:+ b).
Proof. reflexivity. Qed.

Lemma nonempty_true (s : string) : nonempty s = true ↔ s ≠ "".
Proof.
  unfold nonempty. rewrite negb_true_iff. apply String.eqb_neq.
Qed.

Lemma str_in_elem_of (x : string) (l : list string) :
  str_in x l = true ↔ x ∈ l.
Proof.
  unfold str_in. rewrite existsb_exists. split.
  - intros (y & Hy & E). apply String.eqb_eq in E. subst y.
    apply list_elem_of_In. exact Hy.
  - intros Hx. exists x. split.
    + apply list_elem_of_In. exact Hx.
    + apply eqb_refl_str.
Qed.

Lemma str_in_false (x : string) (l : list string) :
  str_in x l = false ↔ x ∉ l.
Proof.
  rewrite <- str_in_elem_of. destruct (str_in x l); split; congruence.
Qed.

(** [rsplit1] cuts at the last separator, and only there. *)
Lemma rsplit1_cases (sep : ascii) (s : string) :
  (contains sep s = false ∧ rsplit1 sep s = [s])
  ∨ (∃ a b, contains sep s = true ∧ rsplit1 sep s = [a; b]
            ∧ s = a +:+ String sep b ∧ contains sep b = false).
Proof.
  induction s as [|c r IH].
  - left. split; reflexivity.
  - destruct IH as [[Hno Hr] | (a & b & Hyes & Hr & Hs & Hb)].
    + simpl. rewrite Hr, Hno.
      destruct (Ascii.eqb c sep) eqn:E.
      * right. exists "", r. apply Ascii.eqb_eq in E. subst c.
        repeat split; auto.
      * left. split; reflexivity.
    + right. exists (String c a), b. simpl. rewrite Hr, Hyes.
      repeat split; auto using orb_true_r.
      rewrite Hs at 1. reflexivity.
Qed.

Lemma rsplit1_no_sep (sep : ascii) (s : string) :
  contains sep s = false → rsplit1 sep s = [s].
Proof.
  intros H. destruct (rsplit1_cases sep s) as [[_ E] | (a & b & C & _)];
    [exact E | congruence].
Qed.

Lemma contains_app (sep : ascii) (a b : string) :
  contains sep (a +:+ String sep b) = true.
Proof.
  induction a as [|c a IH]; rewrite ?app_nil_l, ?app_cons; simpl.
  - rewrite (proj2 (Ascii.eqb_eq sep sep) eq_refl). reflexivity.
  - rewrite IH. apply orb_true_r.
Qed.

(** The part after the last separator is determined by the string. *)
Lemma rsplit1_unique (sep : ascii) (a b : string) :
  contains sep b = false → rsplit1 sep (a +:+ String sep b) = [a; b].
Proof.
  intros Hb. induction a as [|c a IH]; rewrite ?app_nil_l, ?app_cons; simpl.
  - rewrite (rsplit1_no_sep _ _ Hb).
    rewrite (proj2 (Ascii.eqb_eq sep sep) eq_refl). reflexivity.
  - rewrite IH. reflexivity.
Qed.

Lemma lstrip_blank (s : string) : all_space s = true → lstrip s = "".
Proof.
  induction s as [|c r IH]; simpl; [reflexivity|].
  intros H. apply andb_true_iff in H as [Hc Hr]. rewrite Hc. auto.
Qed.

Lemma strip_blank (s : string) : all_space s = true → strip s = "".
Proof. intros H. unfold strip. rewrite lstrip_blank; auto. Qed.

Lemma lstrip_split (s : string) :
  ∃ a, s = a +:+ lstrip s ∧ all_space a = true.
Proof.
  induction s as [|c r (a & E & Ha)]; simpl.
  - exists "". split; reflexivity.
  - destruct (is_space c) eqn:Hc.
    + exists (String c a). simpl. rewrite Hc, Ha, app_cons, <- E.
      split; reflexivity.
    + exists "". split; reflexivity.
Qed.

Lemma rstrip_split (s : string) :
  ∃ b, s = rstrip s +:+ b ∧ all_space b = true.
Proof.
  induction s as [|c r (b & E & Hb)]; simpl.
  - exists "". split; reflexivity.
  - destruct (rstrip r) as [|d r'] eqn:Hr.
    + rewrite app_nil_l in E. subst b. destruct (is_space c) eqn:Hc.
      * exists (String c r). simpl. rewrite Hc, Hb. split; reflexivity.
      * exists r. split; [reflexivity | exact Hb].
    + exists b. rewrite app_cons, <- E. split; [reflexivity | exact Hb].
Qed.

(** [strip] removes a run of white space at each end ... *)
Lemma strip_split (s : string) :
  ∃ a b, s = a +:+ strip s +:+ b ∧ all_space a = true ∧ all_space b = true.
Proof.
  destruct (lstrip_split s) as (a & Ea & Ha).
  destruct (rstrip_split (lstrip s)) as (b & Eb & Hb).
  exists a, b. unfold strip. rewrite <- Eb. auto.
Qed.

Lemma lstrip_head (s : string) (c : ascii) (r : string) :
  lstrip s = String c r → is_space c = false.
Proof.
  induction s as [|d s IH]; simpl; [discriminate|].
  destruct (is_space d) eqn:Hd; [exact IH|].
  intros E. injection E as -> _. exact Hd.
Qed.

Lemma rstrip_head (s : string) (c : ascii) (r : string) :
  rstrip s = String c r → ∃ r0, s = String c r0.
Proof.
  destruct s as [|d s]; simpl; [discriminate|].
  destruct (rstrip s); [destruct (is_space d)|]; intros E;
    try discriminate; injection E as -> _; eauto.
Qed.

(** ... and what is left neither starts nor ends with white space. *)
Lemma strip_head (s : string) (c : ascii) (r : string) :
  strip s = String c r → is_space c = false.
Proof.
  unfold strip. intros E. apply rstrip_head in E as (r0 & E).
  eapply lstrip_head, E.
Qed.

Lemma rstrip_last (s a : string) (c : ascii) :
  rstrip s = a +:+ String c "" → is_space c = false.
Proof.
  revert a. induction s as [|d s IH]; intros a; simpl.
  - destruct a; discriminate.
  - destruct (rstrip s) as [|e r'] eqn:Hr.
    + destruct (is_space d) eqn:Hd; [destruct a; discriminate|].
      destruct a as [|x a]; rewrite ?app_nil_l, ?app_cons;
        intros E; inversion E; subst.
      * exact Hd.
      * destruct a; discriminate.
    + destruct a as [|x a]; rewrite ?app_nil_l, ?app_cons; intros E;
        [discriminate|].
      inversion E as [[Hx E']]. eapply IH, E'.
Qed.

Lemma strip_last (s a : string) (c : ascii) :
  strip s = a +:+ String c "" → is_space c = false.
Proof. unfold strip. apply rstrip_last. Qed.

End PyFacts.

(* ================================================================= *)
(** ** The store *)

Lemma foldr_max_ge (l : list Z) (k : Z) : k ∈ l → k ≤ foldr Z.max 0 l.
Proof.
  induction l as [|x l IH]; intros H.
  - inversion H.
  - apply elem_of_cons in H as [->|H]; simpl; [lia|].
    specialize (IH H). lia.
Qed.

(** The key of a new row is not in use. *)
Lemma next_id_fresh {A : Type} (m : gmap Z A) : m !! next_id m = None.
Proof.
  destruct (m !! next_id m) as [v|] eqn:E; [|reflexivity].
  exfalso. apply elem_of_map_to_list in E.
  assert (next_id m ∈ (map_to_list m).*1) as H.
  { apply list_elem_of_fmap. exists (next_id m, v). split; [reflexivity|exact E]. }
  apply foldr_max_ge in H. unfold next_id in H. lia.
Qed.

Lemma next_id_positive {A : Type} (m : gmap Z A) : 0 < next_id m.
Proof.
  unfold next_id.
  assert (0 ≤ foldr Z.max 0 (map_to_list m).*1); [|lia].
  induction ((map_to_list m).*1); simpl; lia.
Qed.

(** The reply to a key no row has, by the size of the key. *)
Lemma no_such_row_small (ident : Z) :
  ident < 2 ^ 63 → mkReply [] (no_such_row ident) = NotFound.
Proof.
  intros H. unfold no_such_row, NotFound.
  destruct (Z.leb_spec (2 ^ 63) ident); [lia | reflexivity].
Qed.

Lemma no_such_row_large (ident : Z) :
  2 ^ 63 ≤ ident → mkReply [] (no_such_row ident) = InternalError.
Proof.
  intros H. unfold no_such_row, InternalError.
  destruct (Z.leb_spec (2 ^ 63) ident); [reflexivity | lia].
Qed.

(** The rows in key order are the rows. *)
Lemma rows_by_id_perm {A : Type} (m : gmap Z A) : rows_by_id m ≡ₚ rows m.
Proof.
  unfold rows_by_id, rows. apply fmap_Permutation, merge_sort_Permutation.
Qed.

#[local] Instance by_key_total {A : Type} : Total (@by_key A).
Proof. intros a b. unfold by_key. lia. Qed.

#[local] Instance by_key_trans {A : Type} : Transitive (@by_key A).
Proof. intros a b c. unfold by_key. lia. Qed.

(** They come by ascending key. *)
Lemma rows_by_id_sorted {A : Type} (m : gmap Z A) :
  StronglySorted by_key (merge_sort by_key (map_to_list m)).
Proof. apply StronglySorted_merge_sort; apply _. Qed.

Lemma elem_of_rows_by_id {A : Type} (m : gmap Z A) (x : A) :
  x ∈ rows_by_id m ↔ ∃ k, m !! k = Some x.
Proof.
  rewrite rows_by_id_perm. unfold rows. rewrite list_elem_of_fmap. split.
  - intros ([k y] & -> & Hin). apply elem_of_map_to_list in Hin. eauto.
  - intros [k Hk]. exists (k, x). split; [reflexivity|].
    apply elem_of_map_to_list. exact Hk.
Qed.

Lemma filter_Permutation {A : Type} (p : A → bool) (l l' : list A) :
  l ≡ₚ l' → List.filter p l ≡ₚ List.filter p l'.
Proof.
  induction 1 as [|x l l' _ IH|x y l|l l' l'' _ IH1 _ IH2]; cbn.
  - reflexivity.
  - destruct (p x); [constructor|]; exact IH.
  - destruct (p x), (p y); try reflexivity. apply perm_swap.
  - etransitivity; eassumption.
Qed.

Section StoreFacts.

Lemma send_email_tickets s r b w : tickets (send_email s r b w) = tickets w.
Proof. unfold send_email. destruct r; reflexivity. Qed.

Lemma send_email_comments s r b w : comments (send_email s r b w) = comments w.
Proof. unfold send_email. destruct r; reflexivity. Qed.

Lemma send_email_users s r b w : users (send_email s r b w) = users w.
Proof. unfold send_email. destruct r; reflexivity. Qed.

Lemma send_email_uploads s r b w : uploads (send_email s r b w) = uploads w.
Proof. unfold send_email. destruct r; reflexivity. Qed.

Lemma commit_ticket_lookup clock old new w :
  tickets w !! Ticket.id old = Some old →
  ∃ t', tickets (commit_ticket clock old new w) !! Ticket.id old = Some t'
        ∧ (t' = new
           ∨ t' = Ticket.set_updated_at new
                    (replace_tzinfo (DT.now PK_TZ clock) None)).
Proof.
  intros H. unfold commit_ticket. destruct (decide (new = old)) as [->|Hne].
  - exists old. auto.
  - eexists. split; [|right; reflexivity]. simpl. apply lookup_insert_eq.
Qed.

Lemma commit_ticket_changed clock old new w :
  new ≠ old →
  tickets (commit_ticket clock old new w) !! Ticket.id old
  = Some (Ticket.set_updated_at new (replace_tzinfo (DT.now PK_TZ clock) None)).
Proof.
  intros Hne. unfold commit_ticket. destruct (decide (new = old)); [done|].
  simpl. apply lookup_insert_eq.
Qed.

Lemma commit_ticket_same clock old w : commit_ticket clock old old w = w.
Proof. unfold commit_ticket. destruct (decide (old = old)); done. Qed.

Lemma commit_ticket_other clock old new w k :
  k ≠ Ticket.id old →
  tickets (commit_ticket clock old new w) !! k = tickets w !! k.
Proof.
  intros Hk. unfold commit_ticket. destruct (decide (new = old)); [done|].
  simpl. apply lookup_insert_ne. congruence.
Qed.

Lemma commit_ticket_frame clock old new w :
  users (commit_ticket clock old new w) = users w
  ∧ comments (commit_ticket clock old new w) = comments w
  ∧ uploads (commit_ticket clock old new w) = uploads w
  ∧ outbox (commit_ticket clock old new w) = outbox w.
Proof. unfold commit_ticket. destruct (decide (new = old)); done. Qed.

Lemma commit_ticket_keyed clock old new w :
  keyed w → Ticket.id new = Ticket.id old →
  keyed (commit_ticket clock old new w).
Proof.
  intros Hk Hid k t. unfold commit_ticket.
  destruct (decide (new = old)); [apply Hk|]. simpl.
  destruct (decide (Ticket.id old = k)) as [<-|Hne].
  - rewrite lookup_insert_eq. intros [= <-]. exact Hid.
  - rewrite lookup_insert_ne by exact Hne. apply Hk.
Qed.

End StoreFacts.

(* ================================================================= *)
(** ** Creating a ticket *)

Section CreateFacts.

Variable MAIL_USERNAME : string.
Variable secure_filename : string -> string.

Local Abbreviation create_ticket :=
  (create_ticket MAIL_USERNAME secure_filename).
Local Abbreviation recorded_name := (recorded_name secure_filename).
Local Abbreviation created_row := (created_row secure_filename).

Lemma fields_present_truthy (request : Request) :
  fields_present request →
  forallb Py.truthy
    [form request !! "practice_name"; form request !! "provider_name";
     form request !! "subject"; form request !! "description";
     form request !! "priority"] = true.
Proof.
  intros H.
  assert (∀ name, name ∈ REQUIRED_FIELDS →
                  Py.truthy (form request !! name) = true) as T.
  { intros name Hn. destruct (H name Hn) as (v & -> & Hv).
    simpl. apply PyFacts.nonempty_true. exact Hv. }
  cbn [forallb].
  rewrite !T; [reflexivity | apply list_elem_of_In; simpl; tauto ..].
Qed.

(** With its preconditions met, [create_ticket] inserts exactly one row,
    under a fresh key. *)
Lemma create_ticket_inserts cu request clock w :
  User.role cu = "staff" → method request = "POST" →
  fields_present request → attachment_accepted request →
  tickets (create_ticket cu request clock w).1
  = <[next_id (tickets w) := created_row cu request clock w]> (tickets w).
Proof.
  intros Hrole Hpost Hfields Hatt.
  unfold create_ticket. rewrite Hrole, Hpost.
  rewrite !PyFacts.eqb_refl_str. cbn [negb]. cbv zeta.
  rewrite (fields_present_truthy _ Hfields). cbn [negb].
  unfold created_row, recorded_name, creation_offset, submitted, stored.
  unfold attachment_accepted in Hatt.
  assert (∀ c p,
    (if String.eqb p "Urgent" then DT.add c (timedelta_hours 2)
     else if String.eqb p "7 Days" then DT.add c (timedelta_days 7)
     else DT.add c (timedelta_days 3))
    = DT.add c (if String.eqb p "Urgent" then timedelta_hours 2
                else if String.eqb p "7 Days" then timedelta_days 7
                else timedelta_days 3)) as Hdue.
  { intros c p. destruct (String.eqb p "Urgent"), (String.eqb p "7 Days");
      reflexivity. }
  rewrite Hdue.
  destruct (files request !! "attachment") as [f|].
  - destruct (Py.nonempty (filename f)) eqn:Hne.
    + destruct Hatt as [He | Hok].
      { apply PyFacts.nonempty_true in Hne. contradiction. }
      rewrite Hok. cbn [fst]. rewrite !send_email_tickets. reflexivity.
    + cbn [fst]. rewrite !send_email_tickets. reflexivity.
  - cbn [fst]. rewrite !send_email_tickets. reflexivity.
Qed.

Lemma create_ticket_row cu request clock w :
  User.role cu = "staff" → method request = "POST" →
  fields_present request → attachment_accepted request →
  tickets w !! next_id (tickets w) = None
  ∧ tickets (create_ticket cu request clock w).1 !! next_id (tickets w)
    = Some (created_row cu request clock w).
Proof.
  intros Hrole Hpost Hfields Hatt. split; [apply next_id_fresh|].
  rewrite create_ticket_inserts by assumption. apply lookup_insert_eq.
Qed.

(** A refused attachment leaves the world as it was, whatever else the
    request holds. *)
Lemma create_ticket_refused_world cu request clock w f :
  files request !! "attachment" = Some f →
  filename f ≠ "" → allowed_file (filename f) = false →
  (create_ticket cu request clock w).1 = w.
Proof.
  intros Hf Hne Hbad. unfold create_ticket. cbv zeta.
  destruct (negb (String.eqb (User.role cu) "staff")); [reflexivity|].
  destruct (String.eqb (method request) "POST"); [|reflexivity].
  destruct (negb (forallb _ _)); [reflexivity|].
  rewrite Hf, Hbad. apply PyFacts.nonempty_true in Hne. rewrite Hne.
  reflexivity.
Qed.

Lemma create_ticket_refused_reply cu request clock w f :
  User.role cu = "staff" → method request = "POST" →
  fields_present request →
  files request !! "attachment" = Some f →
  filename f ≠ "" → allowed_file (filename f) = false →
  create_ticket cu request clock w = (w, InvalidAttachment).
Proof.
  intros Hrole Hpost Hfields Hf Hne Hbad.
  unfold create_ticket. rewrite Hrole, Hpost.
  rewrite !PyFacts.eqb_refl_str. cbn [negb]. cbv zeta.
  rewrite (fields_present_truthy _ Hfields). cbn [negb].
  rewrite Hf, Hbad. apply PyFacts.nonempty_true in Hne. rewrite Hne.
  reflexivity.
Qed.

(** [allowed_file] accepts a name exactly when it has a dot and what
    follows its last dot is, in lower case, on the list. *)
Lemma allowed_file_spec (name : string) :
  allowed_file name = true ↔
  ∃ stem ext, name = stem +:+ String "." ext
              ∧ Py.contains "." ext = false
              ∧ Py.lower ext ∈ ALLOWED_EXTENSIONS.
Proof.
  unfold allowed_file. split.
  - intros H. apply andb_true_iff in H as [Hdot Hext].
    destruct (PyFacts.rsplit1_cases "." name)
      as [[Hno _] | (a & b & _ & Hr & Hs & Hb)]; [congruence|].
    rewrite Hr in Hext. cbn in Hext. apply bool_decide_eq_true in Hext.
    exists a, b. auto.
  - intros (stem & ext & -> & Hno & Hin).
    rewrite PyFacts.contains_app, PyFacts.rsplit1_unique by exact Hno.
    cbn. apply bool_decide_eq_true. exact Hin.
Qed.

Lemma allowed_file_no_dot (name : string) :
  Py.contains "." name = false → allowed_file name = false.
Proof. intros H. unfold allowed_file. rewrite H. reflexivity. Qed.

(** A name is refused when nothing that follows a last dot in it is on
    the list. *)
Lemma allowed_file_refuses (name : string) :
  (∀ stem ext, name = stem +:+ String "." ext → Py.contains "." ext = false →
               Py.lower ext ∉ ALLOWED_EXTENSIONS) ↔
  allowed_file name = false.
Proof.
  split.
  - intros H. destruct (allowed_file name) eqn:E; [|reflexivity].
    apply allowed_file_spec in E as (stem & ext & Hn & Hd & Hin).
    destruct (H stem ext Hn Hd Hin).
  - intros E stem ext Hn Hd Hin.
    assert (allowed_file name = true) as T by (apply allowed_file_spec; eauto).
    congruence.
Qed.




(** C7: a Create call whose attachment has an extension outside the
    allow-list (compared in lower case; a name without any extension
    included) leaves the world -- tickets, uploads, outbox -- as it was,
    and, the other preconditions of Create being met, is answered with the
    invalid-attachment reply. *)
Theorem create_ticket_rejects_extension cu request clock w f :
  files request !! "attachment" = Some f → filename f ≠ "" →
  (∀ stem ext, filename f = stem +:+ String "." ext →
               Py.contains "." ext = false →
               Py.lower ext ∉ ALLOWED_EXTENSIONS) →
  (create_ticket cu request clock w).1 = w
  ∧ (User.role cu = "staff" → method request = "POST" →
     fields_present request →
     create_ticket cu request clock w = (w, InvalidAttachment)).
Proof.
  intros Hf Hne Hext. apply allowed_file_refuses in Hext. split.
  - apply create_ticket_refused_world with f; assumption.
  - intros Hrole Hpost Hfields.
    apply create_ticket_refused_reply with f; assumption.
Qed.


(** C9: an attachment part with an empty file name counts as no
    attachment -- the ticket is created with a null [attachment_filename]
    and nothing is uploaded -- while an attachment whose non-empty name has
    no dot is refused as an invalid attachment. *)
Theorem create_ticket_attachment_names cu request clock w f :
  User.role cu = "staff" → method request = "POST" →
  fields_present request →
  files request !! "attachment" = Some f →
  (filename f = "" →
   ∃ t, tickets w !! Ticket.id t = None
      ∧ tickets (create_ticket cu request clock w).1 !! Ticket.id t = Some t
      ∧ Ticket.attachment_filename t = None
      ∧ uploads (create_ticket cu request clock w).1 = uploads w)
  ∧ (filename f ≠ "" → Py.contains "." (filename f) = false →
     create_ticket cu request clock w = (w, InvalidAttachment)).
Proof.
  intros Hrole Hpost Hfields Hf. split.
  - intros Hempty.
    assert (attachment_accepted request) as Hatt.
    { unfold attachment_accepted. rewrite Hf. left. exact Hempty. }
    destruct (create_ticket_row cu request clock w Hrole Hpost Hfields Hatt)
      as [Hfresh Hrow].
    exists (created_row cu request clock w).
    repeat split; try assumption.
    + cbn. unfold recorded_name. rewrite Hf, Hempty. reflexivity.
    + unfold create_ticket. rewrite Hrole, Hpost.
      rewrite !PyFacts.eqb_refl_str. cbn [negb]. cbv zeta.
      rewrite (fields_present_truthy _ Hfields). cbn [negb].
      rewrite Hf, Hempty. cbn [Py.nonempty String.eqb negb fst].
      rewrite !send_email_uploads. reflexivity.
  - intros Hne Hdot.
    apply create_ticket_refused_reply with f; try assumption.
    apply allowed_file_no_dot. exact Hdot.
Qed.

End CreateFacts.

(* ================================================================= *)
(** ** Approve-and-close and reopen *)

Section StaffActionFacts.

Variable MAIL_USERNAME : string.

Local Abbreviation staff_action := (staff_action MAIL_USERNAME).

Lemma field_is_true (o : option string) (v : string) :
  field_is o v = true ↔ o = Some v.
Proof.
  destruct o as [s|]; simpl; [|split; discriminate].
  rewrite String.eqb_eq. split; congruence.
Qed.

Lemma may_close_test request t :
  field_is (form request !! "action") "approve_close"
  && Py.str_in (Ticket.status t) ["Solved"; "In Progress"; "Open"] = true
  ↔ may_close request t.
Proof.
  unfold may_close.
  rewrite andb_true_iff, field_is_true, PyFacts.str_in_elem_of.
  rewrite !elem_of_cons. tauto.
Qed.

Lemma may_reopen_test request t :
  field_is (form request !! "action") "reopen"
  && Py.str_in (Ticket.status t) ["Solved"; "Closed"] = true
  ↔ may_reopen request t.
Proof.
  unfold may_reopen.
  rewrite andb_true_iff, field_is_true, PyFacts.str_in_elem_of. tauto.
Qed.

Lemma may_close_not_reopen request t : may_close request t → ¬ may_reopen request t.
Proof. intros [H _] [H' _]. congruence. Qed.

(** What the owner's request does, by cases on the two tests. *)
Lemma staff_action_owner cu ticket_id request clock w t :
  tickets w !! ticket_id = Some t →
  User.role cu = "staff" → Ticket.staff_id t = User.id cu →
  staff_action cu ticket_id request clock w
  = if field_is (form request !! "action") "approve_close"
       && Py.str_in (Ticket.status t) ["Solved"; "In Progress"; "Open"]
    then
      (send_email
         (fstr ["[Ticket Closed] #"; Py.str_of_int (Ticket.id t);
                " Approved & Closed"])
         [MAIL_USERNAME] (closed_body t cu)
         (commit_ticket clock t (Ticket.set_status t "Closed") w),
       TicketClosed (Ticket.id t))
    else if field_is (form request !! "action") "reopen"
            && Py.str_in (Ticket.status t) ["Solved"; "Closed"]
    then
      (send_email
         (fstr ["[Ticket Reopened] #"; Py.str_of_int (Ticket.id t)])
         [MAIL_USERNAME] (reopened_body t cu)
         (commit_ticket clock t
            (Ticket.set_due_time (Ticket.set_status t "In Progress")
               (calculate_due_time (Ticket.priority t) clock)) w),
       TicketReopened (Ticket.id t))
    else (w, InvalidAction (Ticket.id t)).
Proof.
  intros Ht Hrole Hown. unfold staff_action. rewrite Ht, Hrole, Hown.
  rewrite PyFacts.eqb_refl_str, Z.eqb_refl. cbn [negb orb]. cbv zeta.
  reflexivity.
Qed.

Lemma set_status_changes (t : Ticket.t) (s : string) :
  Ticket.status t ≠ s → Ticket.set_status t s ≠ t.
Proof. intros H E. apply H. rewrite <- E at 1. reflexivity. Qed.

Lemma reopen_changes (t : Ticket.t) (d : datetime) :
  Ticket.status t ≠ "In Progress" →
  Ticket.set_due_time (Ticket.set_status t "In Progress") d ≠ t.
Proof. intros H E. apply H. rewrite <- E at 1. reflexivity. Qed.

(** Closing: the row now reads Closed, with its deadline untouched. *)
Lemma staff_action_close cu ticket_id request clock w t :
  keyed w → tickets w !! ticket_id = Some t →
  User.role cu = "staff" → Ticket.staff_id t = User.id cu →
  may_close request t →
  (staff_action cu ticket_id request clock w).2 = TicketClosed ticket_id
  ∧ ∃ t', tickets (staff_action cu ticket_id request clock w).1 !! ticket_id
          = Some t'
        ∧ Ticket.status t' = "Closed"
        ∧ Ticket.due_time t' = Ticket.due_time t.
Proof.
  intros Hk Ht Hrole Hown Hc.
  rewrite (staff_action_owner _ _ _ _ _ _ Ht Hrole Hown).
  rewrite (proj2 (may_close_test request t) Hc).
  pose proof (Hk _ _ Ht) as Hid. cbn [fst snd].
  split; [rewrite Hid; reflexivity|].
  rewrite send_email_tickets.
  assert (Ticket.status t ≠ "Closed") as Hs.
  { destruct Hc as [_ Hc]. rewrite !elem_of_cons in Hc.
    destruct Hc as [-> | [-> | [-> | Hc]]]; [discriminate ..|inversion Hc]. }
  eexists. split.
  - rewrite <- Hid. apply commit_ticket_changed, set_status_changes, Hs.
  - split; reflexivity.
Qed.

(** Reopening: the row now reads In Progress and has the deadline
    [calculate_due_time] gives its priority. *)
Lemma staff_action_reopen cu ticket_id request clock w t :
  keyed w → tickets w !! ticket_id = Some t →
  User.role cu = "staff" → Ticket.staff_id t = User.id cu →
  may_reopen request t →
  (staff_action cu ticket_id request clock w).2 = TicketReopened ticket_id
  ∧ ∃ t', tickets (staff_action cu ticket_id request clock w).1 !! ticket_id
          = Some t'
        ∧ Ticket.status t' = "In Progress"
        ∧ Ticket.priority t' = Ticket.priority t
        ∧ Ticket.due_time t' = calculate_due_time (Ticket.priority t) clock.
Proof.
  intros Hk Ht Hrole Hown Hr.
  rewrite (staff_action_owner _ _ _ _ _ _ Ht Hrole Hown).
  destruct (field_is _ "approve_close" && _) eqn:Hc.
  { apply may_close_test in Hc. destruct (may_close_not_reopen _ _ Hc Hr). }
  rewrite (proj2 (may_reopen_test request t) Hr).
  pose proof (Hk _ _ Ht) as Hid. cbn [fst snd].
  split; [rewrite Hid; reflexivity|].
  rewrite send_email_tickets.
  assert (Ticket.status t ≠ "In Progress") as Hs.
  { destruct Hr as [_ Hr]. rewrite !elem_of_cons in Hr.
    destruct Hr as [-> | [-> | Hr]]; [discriminate ..|inversion Hr]. }
  eexists. split.
  - rewrite <- Hid. apply commit_ticket_changed, reopen_changes, Hs.
  - repeat split; reflexivity.
Qed.

Lemma staff_action_invalid cu ticket_id request clock w t :
  keyed w → tickets w !! ticket_id = Some t →
  User.role cu = "staff" → Ticket.staff_id t = User.id cu →
  ¬ may_close request t → ¬ may_reopen request t →
  staff_action cu ticket_id request clock w = (w, InvalidAction ticket_id).
Proof.
  intros Hk Ht Hrole Hown Hc Hr.
  rewrite (staff_action_owner _ _ _ _ _ _ Ht Hrole Hown).
  destruct (field_is _ "approve_close" && _) eqn:Ec.
  { apply may_close_test in Ec. contradiction. }
  destruct (field_is _ "reopen" && _) eqn:Er.
  { apply may_reopen_test in Er. contradiction. }
  rewrite (Hk _ _ Ht). reflexivity.
Qed.

#[local] Instance may_close_dec request t : Decision (may_close request t).
Proof. unfold may_close. apply _. Defined.

#[local] Instance may_reopen_dec request t : Decision (may_reopen request t).
Proof. unfold may_reopen. apply _. Defined.

Lemma calculate_due_time_table (p : string) (clock : Z) :
  let now := replace_tzinfo (DT.now PK_TZ clock) None in
  (p = "Urgent" → calculate_due_time p clock = DT.add now (timedelta_hours 2))
  ∧ (p = "7 Days" → calculate_due_time p clock = DT.add now (timedelta_days 7))
  ∧ (p = "15 Days" →
     calculate_due_time p clock = DT.add now (timedelta_days 15))
  ∧ (p ∉ ["Urgent"; "7 Days"; "15 Days"] →
     calculate_due_time p clock = DT.add now (timedelta_days 7)).
Proof.
  cbv zeta. unfold calculate_due_time. repeat split.
  - intros ->. reflexivity.
  - intros ->. reflexivity.
  - intros ->. reflexivity.
  - intros H. rewrite !not_elem_of_cons in H. destruct H as (H1 & H2 & H3 & _).
    rewrite !PyFacts.eqb_neq_str by assumption. reflexivity.
Qed.

(** C1, as the code has it: for every ticket in status Solved or Closed,
    the owner's reopen sets the status to In Progress and recomputes
    [due_time] from the priority and the current time: 2 hours for
    "Urgent", 7 days for "7 Days", 15 days for "15 Days", and 7 days for any
    other value. *)
Theorem reopen_recomputes_due_time cu ticket_id request clock w t :
  keyed w → tickets w !! ticket_id = Some t →
  User.role cu = "staff" → Ticket.staff_id t = User.id cu →
  form request !! "action" = Some "reopen" →
  Ticket.status t ∈ ["Solved"; "Closed"] →
  let now := replace_tzinfo (DT.now PK_TZ clock) None in
  ∃ t', tickets (staff_action cu ticket_id request clock w).1 !! ticket_id
        = Some t'
      ∧ Ticket.status t' = "In Progress"
      ∧ Ticket.priority t' = Ticket.priority t
      ∧ (Ticket.priority t = "Urgent" →
         Ticket.due_time t' = DT.add now (timedelta_hours 2))
      ∧ (Ticket.priority t = "7 Days" →
         Ticket.due_time t' = DT.add now (timedelta_days 7))
      ∧ (Ticket.priority t = "15 Days" →
         Ticket.due_time t' = DT.add now (timedelta_days 15))
      ∧ (Ticket.priority t ∉ ["Urgent"; "7 Days"; "15 Days"] →
         Ticket.due_time t' = DT.add now (timedelta_days 7)).
Proof.
  intros Hk Ht Hrole Hown Hact Hst now.
  destruct (staff_action_reopen cu ticket_id request clock w t
              Hk Ht Hrole Hown (conj Hact Hst))
    as (_ & t' & Hlook & Hs & Hp & Hd).
  destruct (calculate_due_time_table (Ticket.priority t) clock)
    as (T1 & T2 & T3 & T4).
  exists t'. rewrite Hd. repeat split; assumption.
Qed.

(** C4: under the owning staff principal, approve_close succeeds exactly
    when the status is Open, In Progress or Solved, and sets it to Closed;
    reopen succeeds exactly when the status is Solved or Closed, and sets
    it to In Progress; every other pair of status and action is answered
    with the invalid-action reply and changes nothing. *)
Theorem staff_action_state_machine cu ticket_id request clock w t :
  keyed w → tickets w !! ticket_id = Some t →
  User.role cu = "staff" → Ticket.staff_id t = User.id cu →
  let r := staff_action cu ticket_id request clock w in
  (may_close request t ↔ r.2 = TicketClosed ticket_id)
  ∧ (may_close request t →
     ∃ t', tickets r.1 !! ticket_id = Some t' ∧ Ticket.status t' = "Closed")
  ∧ (may_reopen request t ↔ r.2 = TicketReopened ticket_id)
  ∧ (may_reopen request t →
     ∃ t', tickets r.1 !! ticket_id = Some t'
         ∧ Ticket.status t' = "In Progress")
  ∧ (¬ may_close request t ∧ ¬ may_reopen request t
     ↔ r.2 = InvalidAction ticket_id)
  ∧ (¬ may_close request t → ¬ may_reopen request t → r.1 = w).
Proof.
  intros Hk Ht Hrole Hown r.
  pose proof (staff_action_close cu ticket_id request clock w t
                Hk Ht Hrole Hown) as Hclose.
  pose proof (staff_action_reopen cu ticket_id request clock w t
                Hk Ht Hrole Hown) as Hreopen.
  pose proof (staff_action_invalid cu ticket_id request clock w t
                Hk Ht Hrole Hown) as Hinvalid.
  fold r in Hclose, Hreopen, Hinvalid.
  destruct (decide (may_close request t)) as [Hc | Hc];
    [pose proof (may_close_not_reopen _ _ Hc) as Hr
    |destruct (decide (may_reopen request t)) as [Hr | Hr]].
  - destruct (Hclose Hc) as (Hreply & t' & Hl & Hs & _).
    split_and!;
      first [tauto | split; [tauto | rewrite Hreply; discriminate] | eauto].
  - destruct (Hreopen Hr) as (Hreply & t' & Hl & Hs & _).
    split_and!;
      first [tauto | split; [tauto | rewrite Hreply; discriminate] | eauto].
  - pose proof (Hinvalid Hc Hr) as E.
    assert (r.2 = InvalidAction ticket_id) as Hreply by (rewrite E; reflexivity).
    assert (r.1 = w) as Hworld by (rewrite E; reflexivity).
    split_and!;
      first [tauto | split; [tauto | rewrite Hreply; discriminate]].
Qed.

End StaffActionFacts.

(** C1, as the specification has it, fails: reopening a Closed ticket of
    priority "15 Days" at time [T] gives a deadline of [T] + 15 days, which
    is not [T] + 7 days. *)
Lemma reopen_15_days_counterexample :
  let w := sample_world (sample_ticket "Closed" "15 Days") in
  let T := replace_tzinfo (DT.now PK_TZ 1000) None in
  ∃ t', tickets (staff_action OPS alice 1 (post [("action", "reopen")] [])
                   1000 w).1 !! 1 = Some t'
      ∧ Ticket.status t' = "In Progress"
      ∧ Ticket.due_time t' = DT.add T (timedelta_days 15)
      ∧ Ticket.due_time t' ≠ DT.add T (timedelta_days 7).
Proof.
  cbv zeta. eexists. split; [vm_compute; reflexivity|].
  repeat split; vm_compute; discriminate.
Qed.

(* ================================================================= *)
(** ** The admin's status change *)

Section AdminFacts.

Variable MAIL_USERNAME : string.

Local Abbreviation admin_update_status := (admin_update_status MAIL_USERNAME).

Lemma field_in_false (o : option string) (l : list string) :
  field_in o l = false ↔ ∀ s, o = Some s → s ∉ l.
Proof.
  destruct o as [s|]; simpl.
  - rewrite PyFacts.str_in_false. split.
    + intros H s' [= <-]. exact H.
    + intros H. apply H. reflexivity.
  - split; [intros _ s; discriminate | reflexivity].
Qed.

(** The change itself, for contrast with the failures below. *)
Lemma admin_update_status_ok cu ticket_id request clock w t s staff :
  keyed w → User.role cu = "admin" → tickets w !! ticket_id = Some t →
  form request !! "status" = Some s → s ∈ ["Open"; "In Progress"; "Solved"] →
  users w !! Ticket.staff_id t = Some staff →
  (admin_update_status cu ticket_id request clock w).2 = StatusUpdated
  ∧ ∃ t', tickets (admin_update_status cu ticket_id request clock w).1
            !! ticket_id = Some t'
        ∧ Ticket.status t' = s.
Proof.
  intros Hk Hrole Ht Hs Hin Hstaff. unfold admin_update_status.
  rewrite Hrole, PyFacts.eqb_refl_str, Ht, Hs.
  cbn [negb field_in default from_option id].
  rewrite (proj2 (PyFacts.str_in_elem_of _ _) Hin). cbn [negb]. cbv zeta.
  rewrite (proj1 (commit_ticket_frame clock t (Ticket.set_status t s) w)).
  rewrite Hstaff. cbn [fst snd]. split; [reflexivity|].
  rewrite send_email_tickets.
  destruct (commit_ticket_lookup clock t (Ticket.set_status t s) w)
    as (t' & Hl & [-> | ->]).
  - rewrite (Hk _ _ Ht). exact Ht.
  - rewrite (Hk _ _ Ht) in Hl. eauto.
  - rewrite (Hk _ _ Ht) in Hl. eauto.
Qed.

(** C5: ChangeStatus makes its checks in the order role, ticket, status
    value, and the first check that fails decides the answer.  A principal
    whose role is not admin (the ticket's owner included) is refused as not
    authorized, whatever the ticket id and the status submitted.  An admin
    is answered not-found when no ticket has the id, an id that fits a
    signed 64-bit integer, whatever the status submitted.  An admin who
    names an existing ticket is answered invalid-status when the submitted
    status is absent or not one of Open, In Progress, Solved.  Each of
    these failures leaves the world, and so the ticket, unchanged; so does
    the request of an admin for any id that no ticket has. *)
Theorem admin_update_status_failures cu ticket_id request clock w :
  (User.role cu ≠ "admin" →
   admin_update_status cu ticket_id request clock w = (w, NotAuthorized))
  ∧ (User.role cu = "admin" → tickets w !! ticket_id = None →
     (admin_update_status cu ticket_id request clock w).1 = w
     ∧ (ticket_id < 2 ^ 63 →
        admin_update_status cu ticket_id request clock w = (w, NotFound)))
  ∧ (User.role cu = "admin" → is_Some (tickets w !! ticket_id) →
     (∀ s, form request !! "status" = Some s →
           s ∉ ["Open"; "In Progress"; "Solved"]) →
     admin_update_status cu ticket_id request clock w = (w, InvalidStatus)).
Proof.
  unfold admin_update_status. split_and!.
  - intros Hrole. rewrite (PyFacts.eqb_neq_str _ _ Hrole). reflexivity.
  - intros Hrole Hnone. rewrite Hrole, PyFacts.eqb_refl_str, Hnone.
    cbn [negb fst]. split; [reflexivity|].
    intros Hsmall. rewrite (no_such_row_small _ Hsmall). reflexivity.
  - intros Hrole [t Ht] Hbad.
    rewrite Hrole, PyFacts.eqb_refl_str, Ht. cbn [negb]. cbv zeta.
    rewrite (proj2 (field_in_false _ _) Hbad). reflexivity.
Qed.

(** C10: an admin's AssignTo stores the submitted value stripped of
    surrounding white space -- the value is the stored string between two
    runs of white space -- whatever it is: a blank or missing value stores
    the empty string.  No other column of the ticket changes except
    [updated_at]; no other ticket and no other part of the world changes. *)
Theorem admin_update_assigned_frame cu ticket_id request clock w t :
  keyed w → User.role cu = "admin" → tickets w !! ticket_id = Some t →
  let w' := (admin_update_assigned cu ticket_id request clock w).1 in
  let value := default "" (form request !! "assigned_to") in
  ∃ t', tickets w' !! ticket_id = Some t'
      ∧ Ticket.assigned_to t' = Py.strip value
      ∧ (∃ a b, value = a +:+ Ticket.assigned_to t' +:+ b
                ∧ Py.all_space a = true ∧ Py.all_space b = true)
      ∧ (Py.all_space value = true → Ticket.assigned_to t' = "")
      ∧ Ticket.set_updated_at
          (Ticket.set_assigned_to t' (Ticket.assigned_to t))
          (Ticket.updated_at t) = t
      ∧ (∀ k, k ≠ ticket_id → tickets w' !! k = tickets w !! k)
      ∧ users w' = users w ∧ comments w' = comments w
      ∧ uploads w' = uploads w ∧ outbox w' = outbox w.
Proof.
  intros Hk Hrole Ht w' value. subst w'. unfold admin_update_assigned.
  rewrite Hrole, PyFacts.eqb_refl_str, Ht. cbn [negb fst]. cbv zeta.
  fold value. pose proof (Hk _ _ Ht) as Hid.
  set (new := Ticket.set_assigned_to t (Py.strip value)).
  destruct (commit_ticket_frame clock t new w) as (F1 & F2 & F3 & F4).
  destruct (commit_ticket_lookup clock t new w) as (t' & Hl & Ht');
    [rewrite Hid; exact Ht|].
  rewrite Hid in Hl. exists t'. split_and!; try assumption.
  - destruct Ht' as [-> | ->]; reflexivity.
  - replace (Ticket.assigned_to t') with (Py.strip value)
      by (destruct Ht' as [-> | ->]; reflexivity).
    apply PyFacts.strip_split.
  - intros Hblank. rewrite <- (PyFacts.strip_blank _ Hblank).
    destruct Ht' as [-> | ->]; reflexivity.
  - destruct Ht' as [-> | ->]; destruct t; reflexivity.
  - intros k Hne. apply commit_ticket_other. rewrite Hid. exact Hne.
Qed.

End AdminFacts.

(* ================================================================= *)
(** ** Who may read and who may comment *)

(** A staff member who does not own the ticket is turned away by
    [view_ticket] ... *)
Lemma view_ticket_other_staff cu ticket_id w t :
  tickets w !! ticket_id = Some t →
  User.role cu = "staff" → Ticket.staff_id t ≠ User.id cu →
  view_ticket cu ticket_id w = ViewRefused.
Proof.
  intros Ht Hrole Hne. unfold view_ticket. rewrite Ht, Hrole. cbv zeta.
  rewrite PyFacts.eqb_refl_str. cbn [Ticket.staff_id Ticket.set_due_time
    Ticket.set_created_at andb negb].
  rewrite (proj2 (Z.eqb_neq _ _) Hne). reflexivity.
Qed.

(** ... and by [download_attachment] ... *)
Lemma download_attachment_other_staff cu ticket_id w t name :
  tickets w !! ticket_id = Some t →
  Ticket.attachment_filename t = Some name → name ≠ "" →
  User.role cu = "staff" → Ticket.staff_id t ≠ User.id cu →
  download_attachment cu ticket_id w
  = flash_redirect "Not authorized." "danger" "staff_dashboard" [].
Proof.
  intros Ht Hname Hnonempty Hrole Hne. unfold download_attachment.
  rewrite Ht, Hname, Hrole. cbn [Py.truthy].
  rewrite (proj2 (PyFacts.nonempty_true _) Hnonempty).
  rewrite PyFacts.eqb_refl_str, (proj2 (Z.eqb_neq _ _) Hne). reflexivity.
Qed.

(** ... but [add_comment] looks at neither role nor owner: whoever is
    logged in can add a comment to any ticket that exists. *)
Lemma add_comment_unchecked cu ticket_id request clock w t :
  keyed w → tickets w !! ticket_id = Some t →
  Py.strip (default "" (form request !! "message")) ≠ "" →
  (add_comment cu ticket_id request clock w).2 = CommentPosted ticket_id
  ∧ comments w !! next_id (comments w) = None
  ∧ ∃ c, comments (add_comment cu ticket_id request clock w).1
           !! next_id (comments w) = Some c
       ∧ Comment.ticket_id c = ticket_id
       ∧ Comment.user_id c = User.id cu
       ∧ Comment.message c = Py.strip (default "" (form request !! "message")).
Proof.
  intros Hk Ht Hmsg. unfold add_comment. rewrite Ht. cbv zeta.
  rewrite (proj2 (PyFacts.nonempty_true _) Hmsg). cbn [negb fst snd].
  rewrite (Hk _ _ Ht). split_and!; [reflexivity | apply next_id_fresh |].
  eexists. split; [apply lookup_insert_eq|]. repeat split.
Qed.

(** C2, at a failing input: bob, a staff member, is refused the view of
    alice's ticket 1, yet his comment on it is accepted and stored under
    his name. *)
Theorem add_comment_other_staff_stored :
  let w := sample_world (sample_ticket "Open" "Urgent") in
  let r := add_comment bob 1 (post [("message", "hello")] []) 1000 w in
  User.role bob = "staff"
  ∧ (∃ t, tickets w !! 1 = Some t ∧ Ticket.staff_id t ≠ User.id bob)
  ∧ view_ticket bob 1 w = ViewRefused
  ∧ r.2 = CommentPosted 1
  ∧ comments w = ∅
  ∧ ∃ c, comments r.1 !! 1 = Some c
       ∧ Comment.ticket_id c = 1
       ∧ Comment.user_id c = User.id bob
       ∧ Comment.message c = "hello".
Proof.
  cbv zeta. split_and!; try (vm_compute; reflexivity).
  - eexists. split; [vm_compute; reflexivity | vm_compute; discriminate].
  - eexists. split_and!; vm_compute; reflexivity.
Qed.

(* ================================================================= *)
(** ** Overdue tickets: the dashboards and the reminder job *)

Section OverdueFacts.

Variable MAIL_USERNAME : string.

(** Normalising the Karachi clock reading only drops its zone. *)
Lemma make_naive_now (clock : Z) :
  make_naive (DT.now PK_TZ clock) = replace_tzinfo (DT.now PK_TZ clock) None.
Proof.
  unfold make_naive, DT.now, astimezone, replace_tzinfo. cbn. f_equal. lia.
Qed.

(** A value read back from the store is naive and is left alone. *)
Lemma make_naive_naive (dt : datetime) : tzinfo dt = None → make_naive dt = dt.
Proof. intros H. unfold make_naive. rewrite H. reflexivity. Qed.

Lemma counts_overdue_spec (now : datetime) (t : Ticket.t) :
  counts_overdue now t = true ↔ spec_overdue now t.
Proof.
  unfold counts_overdue, spec_overdue, DT.ltb.
  rewrite andb_true_iff, negb_true_iff, Z.ltb_lt, PyFacts.str_in_false.
  tauto.
Qed.

Lemma reminder_due_spec (now : datetime) (t : Ticket.t) :
  reminder_due now t = true
  ↔ Ticket.status t ∈ ["Open"; "In Progress"; "Solved"]
    ∧ wall (Ticket.due_time t) ≤ wall now.
Proof.
  unfold reminder_due, DT.leb.
  rewrite andb_true_iff, Z.leb_le, PyFacts.str_in_elem_of. tauto.
Qed.

(** One reminder goes out for each selected row, in order, as long as the
    staff accounts exist. *)
Lemma send_reminders_outbox (ts : list Ticket.t) (w : World) :
  (∀ t, t ∈ ts → is_Some (users w !! Ticket.staff_id t)) →
  users (send_reminders MAIL_USERNAME ts w) = users w
  ∧ tickets (send_reminders MAIL_USERNAME ts w) = tickets w
  ∧ outbox (send_reminders MAIL_USERNAME ts w)
    = (outbox w ++ omap (reminder_for MAIL_USERNAME (users w)) ts)%list.
Proof.
  revert w. induction ts as [|t ts IH]; intros w Hstaff.
  - cbn. rewrite app_nil_r. auto.
  - destruct (Hstaff t) as [staff Hs]; [left|].
    cbn [send_reminders omap list_omap]. unfold reminder_for at 1.
    rewrite Hs.
    set (w1 := send_email _ _ _ w).
    assert (users w1 = users w) as Hu by apply send_email_users.
    destruct (IH w1) as (I1 & I2 & I3).
    { intros t' Ht'. rewrite Hu. apply Hstaff. right. exact Ht'. }
    rewrite I1, I2, I3, Hu. split_and!; [reflexivity | apply send_email_tickets |].
    subst w1. cbn. rewrite <- app_assoc. reflexivity.
Qed.

(** The job reads the clock with [utcnow] and never touches a ticket. *)
Lemma check_ticket_deadlines_outbox (clock : Z) (w : World) :
  (∀ k t, tickets w !! k = Some t → is_Some (users w !! Ticket.staff_id t)) →
  tickets (check_ticket_deadlines MAIL_USERNAME clock w) = tickets w
  ∧ outbox (check_ticket_deadlines MAIL_USERNAME clock w)
    = (outbox w
       ++ omap (reminder_for MAIL_USERNAME (users w))
            (List.filter (reminder_due (utcnow clock))
               (rows_by_id (tickets w))))%list.
Proof.
  intros Hstaff. unfold check_ticket_deadlines. cbv zeta.
  destruct (send_reminders_outbox
              (List.filter (reminder_due (utcnow clock))
                 (rows_by_id (tickets w))) w)
    as (_ & H2 & H3); [|auto].
  intros t Ht. apply list_elem_of_In, filter_In in Ht as [Ht _].
  apply list_elem_of_In, elem_of_rows_by_id in Ht as [k Hk].
  eapply Hstaff, Hk.
Qed.

End OverdueFacts.

(** C6, at a failing input: alice's ticket fell due at 12:00 Karachi time
    and is still Open; at 13:00 Karachi time, which is 08:00 UTC, it is
    overdue in the specification's sense, and both dashboards count it as
    overdue, yet the reminder job, which holds the Karachi due time against
    [utcnow], does not select it and sends nothing.  The job selects it
    four hours later. *)
Theorem reminder_job_misses_overdue_ticket :
  let w := office_world in
  let clock := ONE_PM_KARACHI in
  let now := replace_tzinfo (DT.now PK_TZ clock) None in
  tickets w !! 1 = Some urgent_ticket
  ∧ wall now = wall (Ticket.due_time urgent_ticket) + timedelta_hours 1
  ∧ spec_overdue now urgent_ticket
  ∧ (∃ d, admin_dashboard carol (get []) clock w
          = mkReply [] (RenderAdminDashboard d)
        ∧ dash_now d = now ∧ dash_tickets d = [urgent_ticket]
        ∧ overdue_tickets d = 1)
  ∧ (∃ d, staff_dashboard alice (get []) clock w
          = mkReply [] (RenderStaffDashboard d None)
        ∧ dash_now d = now ∧ dash_tickets d = [urgent_ticket]
        ∧ overdue_tickets d = 1)
  ∧ reminder_due (utcnow clock) urgent_ticket = false
  ∧ check_ticket_deadlines OPS clock w = w
  ∧ length (outbox (check_ticket_deadlines OPS (clock + timedelta_hours 4) w))
    = 1%nat.
Proof.
  cbv zeta. split_and!; try (vm_compute; reflexivity).
  - apply counts_overdue_spec. vm_compute. reflexivity.
  - eexists. split; [vm_compute; reflexivity|].
    split_and!; vm_compute; reflexivity.
  - eexists. split; [vm_compute; reflexivity|].
    split_and!; vm_compute; reflexivity.
Qed.

(* ================================================================= *)
(** ** Tickets stay under their own key *)

Section Keyed.

Variable MAIL_USERNAME : string.
Variable secure_filename : string -> string.

Lemma keyed_same_tickets (w w' : World) :
  tickets w' = tickets w → keyed w → keyed w'.
Proof. unfold keyed. intros ->. auto. Qed.

Lemma keyed_no_tickets (w : World) : tickets w = ∅ → keyed w.
Proof. intros E k t. rewrite E, lookup_empty. discriminate. Qed.

Lemma keyed_insert (w : World) (t : Ticket.t) :
  keyed w → keyed (with_tickets w (<[Ticket.id t := t]> (tickets w))).
Proof.
  intros Hk k t'. cbn. destruct (decide (Ticket.id t = k)) as [<-|Hne].
  - rewrite lookup_insert_eq. intros [= <-]. reflexivity.
  - rewrite lookup_insert_ne by exact Hne. apply Hk.
Qed.

Lemma create_ticket_keyed cu request clock w :
  keyed w →
  keyed (create_ticket MAIL_USERNAME secure_filename cu request clock w).1.
Proof.
  intros Hk. unfold create_ticket. cbv zeta.
  destruct (negb (String.eqb (User.role cu) "staff")); [exact Hk|].
  destruct (String.eqb (method request) "POST"); [|exact Hk].
  destruct (negb (forallb _ _)); [exact Hk|].
  assert (∀ w0 t0 s1 r1 b1 s2 r2 b2,
            keyed w0 → Ticket.id t0 = next_id (tickets w0) →
            keyed (send_email s2 r2 b2
                     (send_email s1 r1 b1
                        (with_tickets w0
                           (<[next_id (tickets w0) := t0]> (tickets w0))))))
    as Hins.
  { intros w0 t0 s1 r1 b1 s2 r2 b2 Hk0 Hid.
    rewrite <- Hid.
    apply keyed_same_tickets
      with (w := with_tickets w0 (<[Ticket.id t0 := t0]> (tickets w0)));
      [rewrite !send_email_tickets; reflexivity | apply keyed_insert, Hk0]. }
  destruct (files request !! "attachment") as [f|].
  - destruct (Py.nonempty (filename f)).
    + destruct (allowed_file (filename f)); [|exact Hk].
      cbn [fst]. apply Hins; [exact Hk | reflexivity].
    + cbn [fst]. apply Hins; [exact Hk | reflexivity].
  - cbn [fst]. apply Hins; [exact Hk | reflexivity].
Qed.

Lemma staff_action_keyed cu ticket_id request clock w :
  keyed w → keyed (staff_action MAIL_USERNAME cu ticket_id request clock w).1.
Proof.
  intros Hk. unfold staff_action. cbv zeta.
  destruct (tickets w !! ticket_id) as [t|]; [|exact Hk].
  destruct (_ || _); [exact Hk|].
  destruct (_ && _).
  - cbn [fst]. eapply keyed_same_tickets; [apply send_email_tickets|].
    apply commit_ticket_keyed; [exact Hk | reflexivity].
  - destruct (_ && _); [|exact Hk].
    cbn [fst]. eapply keyed_same_tickets; [apply send_email_tickets|].
    apply commit_ticket_keyed; [exact Hk | reflexivity].
Qed.

Lemma admin_update_status_keyed cu ticket_id request clock w :
  keyed w →
  keyed (admin_update_status MAIL_USERNAME cu ticket_id request clock w).1.
Proof.
  intros Hk. unfold admin_update_status. cbv zeta.
  destruct (negb _); [exact Hk|].
  destruct (tickets w !! ticket_id) as [t|]; [|exact Hk].
  destruct (negb _); [exact Hk|].
  destruct (users _ !! _).
  - cbn [fst]. eapply keyed_same_tickets; [apply send_email_tickets|].
    apply commit_ticket_keyed; [exact Hk | reflexivity].
  - cbn [fst]. apply commit_ticket_keyed; [exact Hk | reflexivity].
Qed.

Lemma admin_update_assigned_keyed cu ticket_id request clock w :
  keyed w → keyed (admin_update_assigned cu ticket_id request clock w).1.
Proof.
  intros Hk. unfold admin_update_assigned. cbv zeta.
  destruct (negb _); [exact Hk|].
  destruct (tickets w !! ticket_id) as [t|]; [|exact Hk].
  cbn [fst]. apply commit_ticket_keyed; [exact Hk | reflexivity].
Qed.

Lemma add_comment_tickets cu ticket_id request clock w :
  tickets (add_comment cu ticket_id request clock w).1 = tickets w.
Proof.
  unfold add_comment. cbv zeta.
  destruct (tickets w !! ticket_id) as [t|]; [|reflexivity].
  destruct (negb _); reflexivity.
Qed.

Lemma send_reminders_tickets (ts : list Ticket.t) (w : World) :
  tickets (send_reminders MAIL_USERNAME ts w) = tickets w.
Proof.
  revert w. induction ts as [|t ts IH]; intros w; [reflexivity|].
  cbn [send_reminders]. destruct (users w !! Ticket.staff_id t); [|reflexivity].
  rewrite IH. apply send_email_tickets.
Qed.

(** The reminder job never changes a ticket. *)
Lemma check_ticket_deadlines_tickets (clock : Z) (w : World) :
  tickets (check_ticket_deadlines MAIL_USERNAME clock w) = tickets w.
Proof. apply send_reminders_tickets. Qed.

End Keyed.

(* ================================================================= *)
(** ** Worked examples *)

Lemma sample_world_keyed (t : Ticket.t) : keyed (sample_world t).
Proof. apply (keyed_insert empty_world t), keyed_no_tickets. reflexivity. Qed.

Lemma ticket_form_present (p : string) (parts : list (string * FileStorage)) :
  p ≠ "" → fields_present (post (ticket_form p) parts).
Proof.
  intros Hp name Hin. unfold REQUIRED_FIELDS in Hin.
  rewrite !elem_of_cons in Hin.
  destruct Hin as [-> | [-> | [-> | [-> | [-> | Hin]]]]];
    [eexists; split; [vm_compute; reflexivity | first [discriminate | exact Hp]] ..
    | inversion Hin].
Qed.


(** [malware.exe] is turned down and nothing is stored. *)
Lemma create_ticket_rejects_extension_witness :
  create_ticket OPS keep_name alice
    (post (ticket_form "Urgent") [("attachment", mkFile "malware.exe" "MZ")])
    1000 empty_world
  = (empty_world, InvalidAttachment).
Proof.
  destruct (create_ticket_rejects_extension OPS keep_name alice
              (post (ticket_form "Urgent")
                 [("attachment", mkFile "malware.exe" "MZ")])
              1000 empty_world (mkFile "malware.exe" "MZ"))
    as [_ H].
  - vm_compute. reflexivity.
  - discriminate.
  - apply allowed_file_refuses. vm_compute. reflexivity.
  - apply H.
    + reflexivity.
    + reflexivity.
    + apply ticket_form_present. discriminate.
Defined.


(** An empty file name is no attachment; [README] has no dot and is
    turned down. *)
Lemma create_ticket_attachment_names_witness :
  (∃ t, tickets (create_ticket OPS keep_name alice
                   (post (ticket_form "Urgent")
                      [("attachment", mkFile "" "")]) 1000 empty_world).1
          !! Ticket.id t = Some t
      ∧ Ticket.attachment_filename t = None)
  ∧ create_ticket OPS keep_name alice
      (post (ticket_form "Urgent") [("attachment", mkFile "README" "text")])
      1000 empty_world
    = (empty_world, InvalidAttachment).
Proof.
  split.
  - destruct (create_ticket_attachment_names OPS keep_name alice
                (post (ticket_form "Urgent") [("attachment", mkFile "" "")])
                1000 empty_world (mkFile "" ""))
      as [H _].
    + reflexivity.
    + reflexivity.
    + apply ticket_form_present. discriminate.
    + vm_compute. reflexivity.
    + destruct (H eq_refl) as (t & _ & Hl & Hn & _). exists t. auto.
  - destruct (create_ticket_attachment_names OPS keep_name alice
                (post (ticket_form "Urgent")
                   [("attachment", mkFile "README" "text")])
                1000 empty_world (mkFile "README" "text"))
      as [_ H].
    + reflexivity.
    + reflexivity.
    + apply ticket_form_present. discriminate.
    + vm_compute. reflexivity.
    + apply H; [discriminate | vm_compute; reflexivity].
Defined.

(** alice reopens her Solved "Urgent" ticket: two hours from now. *)
Lemma reopen_recomputes_due_time_witness :
  ∃ t', tickets (staff_action OPS alice 1 (post [("action", "reopen")] []) 1000
                   (sample_world (sample_ticket "Solved" "Urgent"))).1 !! 1
        = Some t'
      ∧ Ticket.status t' = "In Progress"
      ∧ Ticket.due_time t'
        = DT.add (replace_tzinfo (DT.now PK_TZ 1000) None) (timedelta_hours 2).
Proof.
  destruct (reopen_recomputes_due_time OPS alice 1
              (post [("action", "reopen")] []) 1000
              (sample_world (sample_ticket "Solved" "Urgent"))
              (sample_ticket "Solved" "Urgent"))
    as (t' & Hl & Hs & _ & H1 & _).
  - apply sample_world_keyed.
  - vm_compute. reflexivity.
  - reflexivity.
  - reflexivity.
  - vm_compute. reflexivity.
  - apply list_elem_of_In. simpl. tauto.
  - exists t'. split_and!; [exact Hl | exact Hs | apply H1; reflexivity].
Defined.

(** alice closes her Open ticket; a second approve_close is invalid. *)
Lemma staff_action_state_machine_witness :
  (∃ t', tickets (staff_action OPS alice 1
                    (post [("action", "approve_close")] []) 1000
                    (sample_world (sample_ticket "Open" "Urgent"))).1 !! 1
         = Some t'
       ∧ Ticket.status t' = "Closed")
  ∧ staff_action OPS alice 1 (post [("action", "approve_close")] []) 1000
      (sample_world (sample_ticket "Closed" "Urgent"))
    = (sample_world (sample_ticket "Closed" "Urgent"), InvalidAction 1).
Proof.
  split.
  - destruct (staff_action_state_machine OPS alice 1
                (post [("action", "approve_close")] []) 1000
                (sample_world (sample_ticket "Open" "Urgent"))
                (sample_ticket "Open" "Urgent"))
      as (_ & H & _).
    + apply sample_world_keyed.
    + vm_compute. reflexivity.
    + reflexivity.
    + reflexivity.
    + apply H. split; [vm_compute; reflexivity | apply list_elem_of_In; simpl; tauto].
  - destruct (staff_action_state_machine OPS alice 1
                (post [("action", "approve_close")] []) 1000
                (sample_world (sample_ticket "Closed" "Urgent"))
                (sample_ticket "Closed" "Urgent"))
      as (_ & _ & _ & _ & [Hr _] & Hw).
    + apply sample_world_keyed.
    + vm_compute. reflexivity.
    + reflexivity.
    + reflexivity.
    + assert (¬ may_close (post [("action", "approve_close")] [])
                (sample_ticket "Closed" "Urgent")) as Hc.
      { intros [_ Hc]. apply list_elem_of_In in Hc. simpl in Hc.
        intuition discriminate. }
      assert (¬ may_reopen (post [("action", "approve_close")] [])
                (sample_ticket "Closed" "Urgent")) as Hn.
      { intros [Hn _]. vm_compute in Hn. discriminate. }
      apply injective_projections; [apply Hw | apply Hr]; auto.
Defined.

(** alice may not change a status; carol, the admin, gets not-found for
    ticket 7 and invalid-status for "Closed". *)
Lemma admin_update_status_failures_witness :
  let w := sample_world (sample_ticket "Open" "Urgent") in
  admin_update_status OPS alice 1 (post [("status", "Solved")] []) 1000 w
  = (w, NotAuthorized)
  ∧ admin_update_status OPS carol 7 (post [("status", "Solved")] []) 1000 w
    = (w, NotFound)
  ∧ admin_update_status OPS carol 1 (post [("status", "Closed")] []) 1000 w
    = (w, InvalidStatus).
Proof.
  cbv zeta. split_and!.
  - apply (admin_update_status_failures OPS alice 1). discriminate.
  - refine (proj2 (proj1 (proj2 (admin_update_status_failures OPS carol 7
                                   _ 1000 _)) _ _) _).
    + reflexivity.
    + vm_compute. reflexivity.
    + reflexivity.
  - apply (admin_update_status_failures OPS carol 1).
    + reflexivity.
    + eexists. vm_compute. reflexivity.
    + intros s Hs. vm_compute in Hs. injection Hs as <-.
      intros Hin. apply list_elem_of_In in Hin. simpl in Hin.
      intuition discriminate.
Defined.

(** C5, as the specification has it, fails: "Closed" is not an allowed
    status, yet carol, the admin, who submits it for ticket 7, which does
    not exist, is answered not-found, and alice, the owner of ticket 1, who
    submits it for her ticket, is answered not-authorized; neither is
    answered invalid-status. *)
Lemma admin_update_status_order_counterexample :
  let w := sample_world (sample_ticket "Open" "Urgent") in
  let request := post [("status", "Closed")] [] in
  form request !! "status" = Some "Closed"
  ∧ ("Closed" ∉ ["Open"; "In Progress"; "Solved"])
  ∧ User.role carol = "admin" ∧ tickets w !! 7 = None
  ∧ admin_update_status OPS carol 7 request 1000 w = (w, NotFound)
  ∧ (admin_update_status OPS carol 7 request 1000 w).2 ≠ InvalidStatus
  ∧ User.role alice = "staff" ∧ tickets w !! 1 = Some (sample_ticket "Open" "Urgent")
  ∧ admin_update_status OPS alice 1 request 1000 w = (w, NotAuthorized)
  ∧ (admin_update_status OPS alice 1 request 1000 w).2 ≠ InvalidStatus.
Proof.
  cbv zeta. split_and!; try (vm_compute; reflexivity);
    try (vm_compute; discriminate).
  intros Hin. apply list_elem_of_In in Hin. simpl in Hin.
  intuition discriminate.
Qed.

(** carol submits two spaces: the assignment to dave is cleared. *)
Lemma admin_update_assigned_frame_witness :
  ∃ t', tickets (admin_update_assigned carol 1
                   (post [("assigned_to", "  ")] []) 1000
                   (sample_world (sample_ticket "Open" "Urgent"))).1 !! 1
        = Some t'
      ∧ Ticket.assigned_to t' = ""
      ∧ Ticket.status t' = "Open".
Proof.
  destruct (admin_update_assigned_frame carol 1
              (post [("assigned_to", "  ")] []) 1000
              (sample_world (sample_ticket "Open" "Urgent"))
              (sample_ticket "Open" "Urgent"))
    as (t' & Hl & _ & _ & Hblank & Hframe & _).
  - apply sample_world_keyed.
  - reflexivity.
  - vm_compute. reflexivity.
  - exists t'. split_and!; [exact Hl | apply Hblank; vm_compute; reflexivity |].
    apply (f_equal Ticket.status) in Hframe. exact Hframe.
Defined.

(* ================================================================= *)
(** * Further properties *)

(** ** File names and timestamps *)

Lemma lower_char_idem (c : ascii) :
  Py.lower_char (Py.lower_char c) = Py.lower_char c.
Proof. destruct c as [[] [] [] [] [] [] [] []]; reflexivity. Qed.

Lemma lower_char_dot (c : ascii) :
  Ascii.eqb (Py.lower_char c) "." = Ascii.eqb c ".".
Proof. destruct c as [[] [] [] [] [] [] [] []]; reflexivity. Qed.

Lemma lower_idem (s : string) : Py.lower (Py.lower s) = Py.lower s.
Proof.
  induction s as [|c s IH]; simpl; [reflexivity|].
  rewrite lower_char_idem, IH. reflexivity.
Qed.

Lemma contains_dot_lower (s : string) :
  Py.contains "." (Py.lower s) = Py.contains "." s.
Proof.
  induction s as [|c s IH]; simpl; [reflexivity|].
  rewrite lower_char_dot, IH. reflexivity.
Qed.

Lemma rsplit1_dot_lower (s : string) :
  Py.rsplit1 "." (Py.lower s) = Py.lower <$> Py.rsplit1 "." s.
Proof.
  induction s as [|c s IH]; simpl; [reflexivity|].
  rewrite IH, lower_char_dot.
  destruct (Py.rsplit1 "." s) as [|a [|b [|x l]]]; simpl;
    first [reflexivity | destruct (Ascii.eqb c "."); reflexivity].
Qed.

(** X1: [allowed_file] accepts a name exactly when the name contains a
    dot and the text after its last dot is, in lower case, one of the eight
    allowed extensions; what stands before the last dot plays no part. *)
Theorem allowed_file_last_extension (name : string) :
  allowed_file name = true ↔
  ∃ stem ext, name = stem +:+ String "." ext
              ∧ Py.contains "." ext = false
              ∧ Py.lower ext ∈ ALLOWED_EXTENSIONS.
Proof. apply allowed_file_spec. Qed.

(** X2: [allowed_file] does not look at letter case: a name and its
    lower-case form are accepted or refused together. *)
Theorem allowed_file_ignores_case (name : string) :
  allowed_file (Py.lower name) = allowed_file name.
Proof.
  unfold allowed_file.
  rewrite contains_dot_lower, rsplit1_dot_lower, list_lookup_fmap.
  destruct (Py.rsplit1 "." name !! 1%nat) as [ext|]; simpl; [|reflexivity].
  rewrite lower_idem. reflexivity.
Qed.

(** On aware datetimes of the era in which Karachi is five hours ahead
    of UTC, [make_naive] gives a naive Karachi wall-clock reading of the
    same instant, so comparing two results compares the instants, whatever
    zones the inputs were in. *)
Lemma make_naive_keeps_order (a b : datetime) (offa offb : Z) :
  tzinfo a = Some offa → tzinfo b = Some offb →
  pkt_era (wall a - offa) → pkt_era (wall b - offb) →
  tzinfo (make_naive a) = None
  ∧ wall (make_naive a) - PK_TZ = wall a - offa
  ∧ (DT.ltb (make_naive a) (make_naive b) = true
     ↔ wall a - offa < wall b - offb).
Proof.
  intros Ha Hb _ _. unfold make_naive, DT.ltb. rewrite Ha, Hb. cbn.
  rewrite Z.ltb_lt. split_and!; [reflexivity | lia | lia].
Qed.

(** X3: [make_naive] returns a naive datetime as it is, taking it to be
    Karachi time already.  For an instant from 2010 on, when Karachi is
    five hours ahead of UTC: [make_naive] turns an aware datetime into the
    naive Karachi wall-clock reading of the same instant, five hours ahead
    of its UTC reading, and [ensure_pk_time] agrees with it on aware
    datetimes; but [ensure_pk_time] takes a naive datetime to be UTC, so
    that [make_naive] after it moves the datetime five hours on. *)
Theorem normalisers_on_naive_and_aware (dt : datetime) :
  (tzinfo dt = None →
   make_naive dt = dt
   ∧ (pkt_era (wall dt) →
      tzinfo (ensure_pk_time dt) = Some PK_TZ
      ∧ make_naive (ensure_pk_time dt) = DT.add dt (timedelta_hours 5)))
  ∧ (∀ off, tzinfo dt = Some off → pkt_era (wall dt - off) →
       tzinfo (make_naive dt) = None
       ∧ wall (make_naive dt) - timedelta_hours 5 = wall dt - off
       ∧ tzinfo (ensure_pk_time dt) = Some PK_TZ
       ∧ make_naive (ensure_pk_time dt) = make_naive dt).
Proof.
  split.
  - intros H. unfold make_naive, ensure_pk_time, DT.add. rewrite H. cbn.
    split; [reflexivity|]. intros _. split; [reflexivity|].
    unfold replace_tzinfo. cbn. f_equal. unfold UTC, PK_TZ. lia.
  - intros off H _. unfold make_naive, ensure_pk_time. rewrite H. cbn.
    split_and!; [reflexivity | unfold PK_TZ; lia | reflexivity |].
    unfold replace_tzinfo. cbn. f_equal. lia.
Qed.

(** ** The reminder job *)

Lemma elem_of_rows {A : Type} (m : gmap Z A) (x : A) :
  x ∈ rows m ↔ ∃ k, m !! k = Some x.
Proof.
  unfold rows. rewrite list_elem_of_fmap. split.
  - intros ([k y] & -> & H). exists k. apply elem_of_map_to_list, H.
  - intros (k & H). exists (k, x). split; [reflexivity|].
    apply elem_of_map_to_list, H.
Qed.

Lemma elem_of_list_filter {A : Type} (p : A → bool) (l : list A) (x : A) :
  x ∈ List.filter p l ↔ x ∈ l ∧ p x = true.
Proof. rewrite !list_elem_of_In. apply filter_In. Qed.

Lemma omap_all_some {A B : Type} (f : A → option B) (l : list A) :
  (∀ x, x ∈ l → is_Some (f x)) →
  Forall2 (λ x y, f x = Some y) l (omap f l).
Proof.
  induction l as [|x l IH]; intros H; cbn; [constructor|].
  destruct (H x) as [y Hy]; [left|]. rewrite Hy. constructor; [exact Hy|].
  apply IH. intros x' Hx'. apply H. right. exact Hx'.
Qed.

Section JobFacts.

Variable MAIL_USERNAME : string.

Local Abbreviation check_ticket_deadlines :=
  (check_ticket_deadlines MAIL_USERNAME).
Local Abbreviation reminder_for := (reminder_for MAIL_USERNAME).

Lemma send_reminders_frame (ts : list Ticket.t) (w : World) :
  comments (send_reminders MAIL_USERNAME ts w) = comments w
  ∧ uploads (send_reminders MAIL_USERNAME ts w) = uploads w.
Proof.
  revert w. induction ts as [|t ts IH]; intros w; [split; reflexivity|].
  cbn [send_reminders].
  destruct (users w !! Ticket.staff_id t); [|split; reflexivity].
  destruct (IH (send_email (reminder_subject t)
                  [User.email t0; MAIL_USERNAME] (reminder_body t t0) w))
    as [-> ->].
  split; [apply send_email_comments | apply send_email_uploads].
Qed.

Lemma check_ticket_deadlines_users (clock : Z) (w : World) :
  users (check_ticket_deadlines clock w) = users w.
Proof.
  unfold check_ticket_deadlines. cbv zeta.
  generalize (List.filter (reminder_due (utcnow clock))
                (rows_by_id (tickets w))).
  intros ts. revert w. induction ts as [|t ts IH]; intros w; [reflexivity|].
  cbn [send_reminders]. destruct (users w !! Ticket.staff_id t); [|reflexivity].
  rewrite IH. apply send_email_users.
Qed.

Lemma reminder_due_later (c1 c2 : Z) (t : Ticket.t) :
  c1 ≤ c2 → reminder_due (utcnow c1) t = true →
  reminder_due (utcnow c2) t = true.
Proof.
  intros Hc. rewrite !reminder_due_spec. cbn. intros [H1 H2]. split; [exact H1|lia].
Qed.

(** X4: provided every ticket's staff account exists, a run of the
    reminder job changes no table and appends to the outbox exactly one
    mail for each ticket whose status is Open, In Progress or Solved and
    whose [due_time] is not after the job's UTC clock reading, the tickets
    taken in some order; the mail goes to the ticket's staff member and to
    the operational mailbox. *)
Theorem check_ticket_deadlines_reminders (clock : Z) (w : World) :
  (∀ k t, tickets w !! k = Some t → is_Some (users w !! Ticket.staff_id t)) →
  let w' := check_ticket_deadlines clock w in
  let selected :=
    List.filter (reminder_due (utcnow clock)) (rows (tickets w)) in
  users w' = users w ∧ tickets w' = tickets w
  ∧ comments w' = comments w ∧ uploads w' = uploads w
  ∧ (∀ t, t ∈ selected ↔
          (∃ k, tickets w !! k = Some t)
          ∧ Ticket.status t ∈ ["Open"; "In Progress"; "Solved"]
          ∧ wall (Ticket.due_time t) ≤ clock)
  ∧ ∃ order mails,
      order ≡ₚ selected
      ∧ outbox w' = (outbox w ++ mails)%list
      ∧ Forall2
          (λ t m, ∃ staff,
             users w !! Ticket.staff_id t = Some staff
             ∧ m = mkEmail (reminder_subject t)
                     [User.email staff; MAIL_USERNAME]
                     (reminder_body t staff))
          order mails.
Proof.
  intros Hstaff w' selected.
  set (order := List.filter (reminder_due (utcnow clock))
                  (rows_by_id (tickets w))).
  assert (order ≡ₚ selected) as Hperm
    by apply filter_Permutation, rows_by_id_perm.
  assert (∀ t, t ∈ order → is_Some (users w !! Ticket.staff_id t)) as Hsel.
  { intros t Ht. apply elem_of_list_filter in Ht as [Ht _].
    apply elem_of_rows_by_id in Ht as [k Hk]. eapply Hstaff, Hk. }
  destruct (send_reminders_outbox MAIL_USERNAME order w Hsel)
    as (Hu & Htk & Ho).
  destruct (send_reminders_frame order w) as [Hc Hup].
  split_and!; try assumption.
  - intros t. subst selected.
    rewrite elem_of_list_filter, elem_of_rows, reminder_due_spec. cbn. tauto.
  - exists order, (omap (reminder_for (users w)) order).
    split_and!; [exact Hperm | exact Ho |].
    eapply Forall2_impl.
    + apply omap_all_some. intros t Ht. destruct (Hsel t Ht) as [staff Hs].
      unfold reminder_for. rewrite Hs. eauto.
    + intros t m H. unfold reminder_for in H.
      destruct (users w !! Ticket.staff_id t) as [staff|]; [|discriminate].
      injection H as <-. exists staff. split; reflexivity.
Qed.

(** X5: the job keeps no record of what it has sent: a second run, at
    the same or a later clock reading, sends again every reminder of the
    first run (and possibly more).  The outbox then holds, after what it
    held, the reminders of the first run, one for each ticket that run
    selected, followed by those of the second run; within a run the
    reminders come in some order. *)
Theorem check_ticket_deadlines_repeats (c1 c2 : Z) (w : World) :
  (∀ k t, tickets w !! k = Some t → is_Some (users w !! Ticket.staff_id t)) →
  c1 ≤ c2 →
  let selected c :=
    List.filter (reminder_due (utcnow c)) (rows (tickets w)) in
  ∃ mails1 mails2,
    outbox (check_ticket_deadlines c2 (check_ticket_deadlines c1 w))
    = (outbox w ++ mails1 ++ mails2)%list
    ∧ mails1 ≡ₚ omap (reminder_for (users w)) (selected c1)
    ∧ mails2 ≡ₚ omap (reminder_for (users w)) (selected c2)
    ∧ length mails1 = length (selected c1)
    ∧ (∀ t, t ∈ selected c1 → t ∈ selected c2)
    ∧ (∀ m, m ∈ mails1 → m ∈ mails2).
Proof.
  intros Hstaff Hc selected.
  destruct (check_ticket_deadlines_outbox MAIL_USERNAME c1 w Hstaff)
    as [Ht1 Ho1].
  pose proof (check_ticket_deadlines_users c1 w) as Hu1.
  assert (∀ k t, tickets (check_ticket_deadlines c1 w) !! k = Some t →
                 is_Some (users (check_ticket_deadlines c1 w)
                            !! Ticket.staff_id t)) as Hstaff1.
  { intros k t. rewrite Hu1, Ht1. apply Hstaff. }
  destruct (check_ticket_deadlines_outbox MAIL_USERNAME c2 _ Hstaff1)
    as [_ Ho2].
  set (order c := List.filter (reminder_due (utcnow c))
                    (rows_by_id (tickets w))).
  assert (∀ c, order c ≡ₚ selected c) as Hperm
    by (intros c; apply filter_Permutation, rows_by_id_perm).
  assert (∀ t, t ∈ selected c1 → t ∈ selected c2) as Hsub.
  { intros t. unfold selected. rewrite !elem_of_list_filter.
    intros [Hin Hdue]. split; [exact Hin|]. eapply reminder_due_later; eauto. }
  exists (omap (reminder_for (users w)) (order c1)),
         (omap (reminder_for (users w)) (order c2)).
  split_and!.
  - rewrite Ho2, Ho1, Ht1, Hu1, <- app_assoc. reflexivity.
  - rewrite (Hperm c1). reflexivity.
  - rewrite (Hperm c2). reflexivity.
  - rewrite (Hperm c1). symmetry. eapply Forall2_length, omap_all_some.
    intros t Ht. apply elem_of_list_filter in Ht as [Ht _].
    apply elem_of_rows in Ht as [k Hk].
    destruct (Hstaff k t Hk) as [staff Hs].
    unfold reminder_for. rewrite Hs. eauto.
  - exact Hsub.
  - intros m. rewrite !list_elem_of_omap.
    intros (t & Ht & Hm). exists t. split; [|exact Hm].
    rewrite (Hperm c2). apply Hsub. rewrite <- (Hperm c1). exact Ht.
Qed.

(** X6: whatever the job selects, the dashboards count as overdue at the
    same moment -- but not the other way round: a pending ticket whose
    Karachi due time passed less than five hours ago is overdue on the
    dashboards and is passed over by the job. *)
Theorem reminder_lags_dashboard (sel : string) (ts : list Ticket.t)
  (clock : Z) (t : Ticket.t) :
  Ticket.status t ∈ ["Open"; "In Progress"; "Solved"] →
  tzinfo (Ticket.due_time t) = None →
  let now := dash_now (dashboard sel ts clock) in
  (reminder_due (utcnow clock) t = true → counts_overdue now t = true)
  ∧ (counts_overdue now t = true ∧ reminder_due (utcnow clock) t = false
     ↔ clock < wall (Ticket.due_time t) < clock + timedelta_hours 5).
Proof.
  intros Hst Htz now.
  assert (Py.lower (Ticket.status t) ∉ ["closed"; "approved"]) as Hlow.
  { rewrite !elem_of_cons in Hst.
    destruct Hst as [-> | [-> | [-> | H]]]; [| | |inversion H];
      intros H; apply list_elem_of_In in H; cbn in H; intuition discriminate. }
  assert (counts_overdue now t = true
          ↔ wall (Ticket.due_time t) < clock + timedelta_hours 5) as Hdash.
  { rewrite counts_overdue_spec. unfold spec_overdue.
    rewrite (make_naive_naive _ Htz). subst now. cbn [dash_now dashboard].
    rewrite make_naive_now. cbn. unfold PK_TZ. tauto. }
  assert (reminder_due (utcnow clock) t = true
          ↔ wall (Ticket.due_time t) ≤ clock) as Hjob.
  { rewrite reminder_due_spec. cbn. tauto. }
  assert (0 < timedelta_hours 5) by (unfold timedelta_hours; lia).
  split.
  - rewrite Hdash, Hjob. lia.
  - rewrite Hdash. destruct (reminder_due (utcnow clock) t).
    + split; [intros [_ ?]; discriminate|]. intros [? _].
      pose proof (proj1 Hjob eq_refl). lia.
    + split; [intros [? _]|intros [? ?]; split; [assumption|reflexivity]].
      split; [|assumption].
      destruct (Z_lt_le_dec clock (wall (Ticket.due_time t))); [assumption|].
      pose proof (proj2 Hjob ltac:(assumption)). discriminate.
Qed.

End JobFacts.

(** ** The dashboards *)

Lemma filter_disjoint_length {A : Type} (p q : A → bool) (l : list A) :
  (∀ x, p x = true → q x = true → False) →
  (length (List.filter p l) + length (List.filter q l) ≤ length l)%nat.
Proof.
  intros H. induction l as [|x l IH]; cbn; [lia|].
  destruct (p x) eqn:Hp, (q x) eqn:Hq; cbn; try lia.
  destruct (H x Hp Hq).
Qed.

Lemma counts_closed_not_overdue (now : datetime) (t : Ticket.t) :
  counts_closed t = true → counts_overdue now t = true → False.
Proof.
  unfold counts_closed, counts_overdue. intros ->.
  rewrite andb_false_r. discriminate.
Qed.

#[local] Instance not_older_total : Total not_older.
Proof. intros a b. unfold not_older. lia. Qed.

#[local] Instance not_older_trans : Transitive not_older.
Proof. intros a b c. unfold not_older. lia. Qed.

Lemma StronglySorted_lookup {A : Type} (R : relation A) (l : list A)
  (i j : nat) (x y : A) :
  StronglySorted R l → (i < j)%nat → l !! i = Some x → l !! j = Some y →
  R x y.
Proof.
  intros Hs. revert i j. induction Hs as [|z l Hs IH Hall]; intros i j Hij Hi Hj.
  - discriminate.
  - destruct j as [|j]; [lia|]. cbn in Hj. destruct i as [|i].
    + cbn in Hi. injection Hi as <-.
      rewrite Forall_forall in Hall. apply Hall.
      eapply list_elem_of_lookup_2, Hj.
    + cbn in Hi. apply (IH i j); [lia | assumption | assumption].
Qed.

Lemma newest_first_sorted (l : list Ticket.t) (i j : nat) (a b : Ticket.t) :
  (i ≤ j)%nat → newest_first l !! i = Some a → newest_first l !! j = Some b →
  wall (Ticket.created_at b) ≤ wall (Ticket.created_at a).
Proof.
  intros Hij Ha Hb. destruct (decide (i = j)) as [->|Hne].
  - rewrite Ha in Hb. injection Hb as <-. lia.
  - apply (StronglySorted_lookup not_older (newest_first l) i j a b);
      [apply StronglySorted_merge_sort; apply _ | lia | assumption | assumption].
Qed.

Lemma elem_of_newest_first (l : list Ticket.t) (t : Ticket.t) :
  t ∈ newest_first l ↔ t ∈ l.
Proof. unfold newest_first. rewrite merge_sort_Permutation. reflexivity. Qed.

Lemma elem_of_by_status (sel : string) (l : list Ticket.t) (t : Ticket.t) :
  t ∈ by_status sel l ↔ t ∈ l ∧ (sel = "All" ∨ Ticket.status t = sel).
Proof.
  unfold by_status. destruct (String.eqb sel "All") eqn:E.
  - apply String.eqb_eq in E. tauto.
  - apply String.eqb_neq in E.
    rewrite elem_of_list_filter, String.eqb_eq. tauto.
Qed.

(** X7: on both dashboards the three figures fit together: the total is
    the number of tickets listed, and since no ticket is counted both as
    closed and as overdue, closed and overdue together never exceed it. *)
Theorem dashboard_figures (cu : User.t) (request : Request) (clock : Z)
  (w : World) (d : Dashboard) :
  (∃ fl, response (staff_dashboard cu request clock w)
         = RenderStaffDashboard d fl)
  ∨ response (admin_dashboard cu request clock w) = RenderAdminDashboard d →
  total_tickets d = Z.of_nat (length (dash_tickets d))
  ∧ 0 ≤ closed_tickets d ∧ 0 ≤ overdue_tickets d
  ∧ closed_tickets d + overdue_tickets d ≤ total_tickets d
  ∧ (∀ t, counts_closed t = true → counts_overdue (dash_now d) t = false).
Proof.
  assert (∀ sel ts,
    let d := dashboard sel ts clock in
    total_tickets d = Z.of_nat (length (dash_tickets d))
    ∧ 0 ≤ closed_tickets d ∧ 0 ≤ overdue_tickets d
    ∧ closed_tickets d + overdue_tickets d ≤ total_tickets d
    ∧ (∀ t, counts_closed t = true → counts_overdue (dash_now d) t = false))
    as Hd.
  { intros sel ts d'. subst d'. cbn [dashboard total_tickets closed_tickets
      overdue_tickets dash_tickets dash_now].
    pose proof (filter_disjoint_length counts_closed
                  (counts_overdue (make_naive (DT.now PK_TZ clock))) ts
                  (λ x, counts_closed_not_overdue _ x)).
    split_and!; try lia.
    intros t Hc. destruct (counts_overdue _ t) eqn:Ho; [|reflexivity].
    destruct (counts_closed_not_overdue _ _ Hc Ho). }
  intros [[fl H] | H].
  - unfold staff_dashboard in H. cbv zeta in H.
    destruct (negb _) in H; [discriminate|].
    cbn in H. injection H as <- _. apply Hd.
  - unfold admin_dashboard in H. cbv zeta in H.
    destruct (negb _) in H; [discriminate|].
    cbn in H. injection H as <-. apply Hd.
Qed.

(** X8: the staff dashboard lists exactly the caller's own tickets --
    those with the chosen status when a status other than All is asked for
    -- and nobody else's; a caller who is not staff is sent to the admin
    dashboard. *)
Theorem staff_dashboard_own_tickets (cu : User.t) (request : Request)
  (clock : Z) (w : World) :
  let sel := default "All" (args request !! "status") in
  (User.role cu = "staff" →
   ∃ d, staff_dashboard cu request clock w
        = mkReply [] (RenderStaffDashboard d (args request !! "new_ticket"))
      ∧ selected_status d = sel
      ∧ ∀ t, t ∈ dash_tickets d ↔
             (∃ k, tickets w !! k = Some t)
             ∧ Ticket.staff_id t = User.id cu
             ∧ (sel = "All" ∨ Ticket.status t = sel))
  ∧ (User.role cu ≠ "staff" →
     staff_dashboard cu request clock w
     = mkReply [] (Redirect "admin_dashboard" [])).
Proof.
  intros sel. unfold staff_dashboard. cbv zeta. fold sel. split.
  - intros Hrole. rewrite Hrole, PyFacts.eqb_refl_str. cbn [negb].
    eexists. split; [reflexivity|]. split; [reflexivity|].
    intros t. cbn [dash_tickets dashboard].
    rewrite elem_of_newest_first, elem_of_by_status, elem_of_list_filter.
    rewrite elem_of_rows, Z.eqb_eq. tauto.
  - intros H. rewrite (PyFacts.eqb_neq_str _ _ H). reflexivity.
Qed.

(** X9: the admin dashboard lists every ticket in the store, whoever
    owns it, once each -- with a status chosen, every ticket of that status
    -- and its total is then the size of the ticket table; a caller who is
    not admin is sent to the staff dashboard. *)
Theorem admin_dashboard_all_tickets (cu : User.t) (request : Request)
  (clock : Z) (w : World) :
  let sel := default "All" (args request !! "status") in
  (User.role cu = "admin" →
   ∃ d, admin_dashboard cu request clock w = mkReply [] (RenderAdminDashboard d)
      ∧ (∀ t, t ∈ dash_tickets d ↔
              (∃ k, tickets w !! k = Some t)
              ∧ (sel = "All" ∨ Ticket.status t = sel))
      ∧ (sel = "All" →
         dash_tickets d ≡ₚ rows (tickets w)
         ∧ total_tickets d = Z.of_nat (size (tickets w))))
  ∧ (User.role cu ≠ "admin" →
     admin_dashboard cu request clock w
     = mkReply [] (Redirect "staff_dashboard" [])).
Proof.
  intros sel. unfold admin_dashboard. cbv zeta. fold sel. split.
  - intros Hrole. rewrite Hrole, PyFacts.eqb_refl_str. cbn [negb].
    eexists. split; [reflexivity|]. split.
    + intros t. cbn [dash_tickets dashboard].
      rewrite elem_of_newest_first, elem_of_by_status, elem_of_rows. tauto.
    + intros Hall. cbn [dash_tickets total_tickets dashboard].
      unfold by_status. rewrite Hall, PyFacts.eqb_refl_str.
      unfold newest_first. rewrite merge_sort_Permutation. split; [reflexivity|].
      unfold rows. rewrite length_fmap, length_map_to_list. reflexivity.
  - intros H. rewrite (PyFacts.eqb_neq_str _ _ H). reflexivity.
Qed.

(** X10: both dashboards list their tickets newest first: a ticket never
    stands above one created after it. *)
Theorem dashboards_newest_first (cu : User.t) (request : Request) (clock : Z)
  (w : World) (d : Dashboard) (i j : nat) (a b : Ticket.t) :
  (∃ fl, response (staff_dashboard cu request clock w)
         = RenderStaffDashboard d fl)
  ∨ response (admin_dashboard cu request clock w) = RenderAdminDashboard d →
  (i ≤ j)%nat → dash_tickets d !! i = Some a → dash_tickets d !! j = Some b →
  wall (Ticket.created_at b) ≤ wall (Ticket.created_at a).
Proof.
  intros [[fl H] | H] Hij Ha Hb.
  - unfold staff_dashboard in H. cbv zeta in H.
    destruct (negb _) in H; [discriminate|].
    cbn in H. injection H as <- _. cbn [dash_tickets dashboard] in Ha, Hb.
    eapply newest_first_sorted; eauto.
  - unfold admin_dashboard in H. cbv zeta in H.
    destruct (negb _) in H; [discriminate|].
    cbn in H. injection H as <-. cbn [dash_tickets dashboard] in Ha, Hb.
    eapply newest_first_sorted; eauto.
Qed.

(** ** Creating a ticket, continued *)

Section CreateMore.

Variable MAIL_USERNAME : string.
Variable secure_filename : string -> string.

Local Abbreviation create_ticket :=
  (create_ticket MAIL_USERNAME secure_filename).
Local Abbreviation created_row := (created_row secure_filename).

Lemma missing_field_falsy (request : Request) (name : string) :
  name ∈ REQUIRED_FIELDS →
  form request !! name = None ∨ form request !! name = Some "" →
  forallb Py.truthy
    [form request !! "practice_name"; form request !! "provider_name";
     form request !! "subject"; form request !! "description";
     form request !! "priority"] = false.
Proof.
  intros Hin Hmiss.
  assert (Py.truthy (form request !! name) = false) as F
    by (destruct Hmiss as [-> | ->]; reflexivity).
  unfold REQUIRED_FIELDS in Hin. rewrite !elem_of_cons in Hin. cbn [forallb].
  destruct Hin as [-> | [-> | [-> | [-> | [-> | Hin]]]]];
    [rewrite F, ?andb_false_r; reflexivity .. | inversion Hin].
Qed.


(** X11: [create_ticket] turns away, before anything else, a caller who is
    not staff; from staff it shows the form on GET, and on POST refuses a
    form in which one of the five fields is missing or empty.  None of
    these calls changes the world. *)
Theorem create_ticket_preconditions cu request clock w :
  (User.role cu ≠ "staff" →
   create_ticket cu request clock w
   = (w, flash_redirect "Only staff can create tickets." "danger"
           "staff_dashboard" []))
  ∧ (User.role cu = "staff" → method request ≠ "POST" →
     create_ticket cu request clock w = (w, mkReply [] RenderCreateTicket))
  ∧ (User.role cu = "staff" → method request = "POST" →
     (∃ name, name ∈ REQUIRED_FIELDS
              ∧ (form request !! name = None ∨ form request !! name = Some "")) →
     create_ticket cu request clock w
     = (w, flash_redirect "All fields including priority are required."
             "danger" "create_ticket" [])).
Proof.
  unfold create_ticket. split_and!.
  - intros H. rewrite (PyFacts.eqb_neq_str _ _ H). reflexivity.
  - intros Hrole H. rewrite Hrole, PyFacts.eqb_refl_str.
    rewrite (PyFacts.eqb_neq_str _ _ H). reflexivity.
  - intros Hrole Hpost (name & Hin & Hmiss).
    rewrite Hrole, Hpost, !PyFacts.eqb_refl_str. cbn [negb]. cbv zeta.
    rewrite (missing_field_falsy _ _ Hin Hmiss). reflexivity.
Qed.



End CreateMore.

(** ** Status changes, continued *)

Lemma commit_ticket_inv clock old new w k t' :
  tickets (commit_ticket clock old new w) !! k = Some t' →
  tickets w !! k = Some t'
  ∨ (k = Ticket.id old
     ∧ t' = Ticket.set_updated_at new
              (replace_tzinfo (DT.now PK_TZ clock) None)).
Proof.
  unfold commit_ticket. destruct (decide (new = old)); [auto|]. cbn.
  destruct (decide (Ticket.id old = k)) as [<-|Hne].
  - rewrite lookup_insert_eq. intros [= <-]. auto.
  - rewrite lookup_insert_ne by exact Hne. auto.
Qed.

Section StatusMore.

Variable MAIL_USERNAME : string.

Local Abbreviation admin_update_status := (admin_update_status MAIL_USERNAME).
Local Abbreviation staff_action := (staff_action MAIL_USERNAME).

(** X14: a status change by an admin alters, on that one ticket, the
    status and [updated_at] and nothing else -- the deadline stays, also
    when a Closed ticket is set back to Open -- leaves every other ticket
    and table alone, and hands over one mail, addressed to the ticket's
    staff member and to the operational mailbox. *)
Theorem admin_update_status_effects cu ticket_id request clock w t s staff :
  keyed w → User.role cu = "admin" → tickets w !! ticket_id = Some t →
  form request !! "status" = Some s → s ∈ ["Open"; "In Progress"; "Solved"] →
  users w !! Ticket.staff_id t = Some staff →
  let r := admin_update_status cu ticket_id request clock w in
  r.2 = StatusUpdated
  ∧ (∃ t', tickets r.1 !! ticket_id = Some t'
         ∧ Ticket.status t' = s
         ∧ Ticket.due_time t' = Ticket.due_time t
         ∧ Ticket.set_updated_at (Ticket.set_status t' (Ticket.status t))
             (Ticket.updated_at t) = t)
  ∧ (∀ k, k ≠ ticket_id → tickets r.1 !! k = tickets w !! k)
  ∧ users r.1 = users w ∧ comments r.1 = comments w
  ∧ uploads r.1 = uploads w
  ∧ ∃ m, outbox r.1 = (outbox w ++ [m])%list
       ∧ mail_recipients m = [User.email staff; MAIL_USERNAME].
Proof.
  intros Hk Hrole Ht Hs Hin Hstaff r. subst r. unfold admin_update_status.
  rewrite Hrole, PyFacts.eqb_refl_str, Ht, Hs.
  cbn [negb field_in default from_option id].
  rewrite (proj2 (PyFacts.str_in_elem_of _ _) Hin). cbn [negb]. cbv zeta.
  set (new := Ticket.set_status t s).
  destruct (commit_ticket_frame clock t new w) as (F1 & F2 & F3 & F4).
  rewrite F1, Hstaff. cbn [fst snd]. pose proof (Hk _ _ Ht) as Hid.
  rewrite send_email_tickets, send_email_users, send_email_comments,
    send_email_uploads.
  split_and!; try assumption; try reflexivity.
  - destruct (commit_ticket_lookup clock t new w) as (t' & Hl & Ht');
      [rewrite Hid; exact Ht|].
    rewrite Hid in Hl. exists t'. split; [exact Hl|].
    destruct Ht' as [-> | ->]; split_and!; try reflexivity; destruct t; reflexivity.
  - intros k Hne. apply commit_ticket_other. rewrite Hid. exact Hne.
  - eexists. cbn. rewrite F4. split; reflexivity.
Qed.

(** X15: whatever is submitted, and by whom, [admin_update_status]
    neither adds nor removes a ticket, never changes a deadline, and
    leaves each status either as it was or set to Open, In Progress or
    Solved: it cannot close a ticket. *)
Theorem admin_update_status_never_closes cu ticket_id request clock w :
  keyed w →
  let r := admin_update_status cu ticket_id request clock w in
  ∀ k, match tickets w !! k, tickets r.1 !! k with
       | Some t, Some t' =>
           Ticket.due_time t' = Ticket.due_time t
           ∧ (Ticket.status t' = Ticket.status t
              ∨ Ticket.status t' ∈ ["Open"; "In Progress"; "Solved"])
       | None, None => True
       | _, _ => False
       end.
Proof.
  intros Hk r k. subst r. unfold admin_update_status. cbv zeta.
  assert (∀ w0 : World, tickets w0 = tickets w →
            match tickets w !! k, tickets w0 !! k with
            | Some t, Some t' =>
                Ticket.due_time t' = Ticket.due_time t
                ∧ (Ticket.status t' = Ticket.status t
                   ∨ Ticket.status t' ∈ ["Open"; "In Progress"; "Solved"])
            | None, None => True
            | _, _ => False
            end) as Hsame.
  { intros w0 ->. destruct (tickets w !! k); auto. }
  destruct (negb (String.eqb _ "admin")); [apply Hsame; reflexivity|].
  destruct (tickets w !! ticket_id) as [t|] eqn:Ht; [|apply Hsame; reflexivity].
  destruct (field_in _ _) eqn:Hin; cbn [negb]; [|apply Hsame; reflexivity].
  destruct (form request !! "status") as [s|]; [|discriminate].
  cbn [field_in default from_option id] in *.
  apply PyFacts.str_in_elem_of in Hin.
  pose proof (Hk _ _ Ht) as Hid.
  assert (tickets (fst
            match users (commit_ticket clock t (Ticket.set_status t s) w)
                    !! Ticket.staff_id t with
            | Some staff =>
                (send_email
                   (fstr ["[Ticket Update] Ticket #";
                          Py.str_of_int (Ticket.id t); " is now "; s])
                   [User.email staff; MAIL_USERNAME]
                   (status_update_body t staff s)
                   (commit_ticket clock t (Ticket.set_status t s) w),
                 flash_redirect "Ticket status updated." "success"
                   "admin_dashboard" [])
            | None =>
                (commit_ticket clock t (Ticket.set_status t s) w,
                 mkReply [] ServerError)
            end)
          = tickets (commit_ticket clock t (Ticket.set_status t s) w)) as ->.
  { destruct (users _ !! _); cbn [fst]; [apply send_email_tickets|reflexivity]. }
  destruct (decide (k = ticket_id)) as [->|Hne].
  - rewrite Ht.
    destruct (commit_ticket_lookup clock t (Ticket.set_status t s) w)
      as (t' & Hl & Ht'); [rewrite Hid; exact Ht|].
    rewrite Hid in Hl. rewrite Hl.
    destruct Ht' as [-> | ->]; cbn; auto.
  - rewrite commit_ticket_other by (rewrite Hid; exact Hne).
    destruct (tickets w !! k); auto.
Qed.

(** X16: [staff_action] looks the ticket up first: when no ticket has
    the id it answers not-found, whoever asks, if the id fits a signed
    64-bit integer, and ends in a server error if it does not; for a ticket
    that exists it turns away every caller who is not staff -- an admin
    too -- or is not its owner.  None of these cases changes the world. *)
Theorem staff_action_guards cu ticket_id request clock w :
  (tickets w !! ticket_id = None →
   (ticket_id < 2 ^ 63 →
    staff_action cu ticket_id request clock w = (w, NotFound))
   ∧ (2 ^ 63 ≤ ticket_id →
      staff_action cu ticket_id request clock w = (w, InternalError)))
  ∧ (∀ t, tickets w !! ticket_id = Some t →
          User.role cu ≠ "staff" ∨ Ticket.staff_id t ≠ User.id cu →
          staff_action cu ticket_id request clock w = (w, NotAuthorized)).
Proof.
  unfold staff_action. split.
  - intros ->. split; intros H.
    + rewrite (no_such_row_small _ H). reflexivity.
    + rewrite (no_such_row_large _ H). reflexivity.
  - intros t -> [H | H].
    + rewrite (PyFacts.eqb_neq_str _ _ H). reflexivity.
    + rewrite (proj2 (Z.eqb_neq _ _) H), orb_true_r. reflexivity.
Qed.

(** What approve_close changes, and what it leaves alone. *)
Lemma approve_close_frame cu ticket_id request clock w t :
  keyed w → tickets w !! ticket_id = Some t →
  User.role cu = "staff" → Ticket.staff_id t = User.id cu →
  may_close request t →
  let r := staff_action cu ticket_id request clock w in
  (∃ t', tickets r.1 !! ticket_id = Some t'
       ∧ Ticket.status t' = "Closed"
       ∧ Ticket.set_updated_at (Ticket.set_status t' (Ticket.status t))
           (Ticket.updated_at t) = t)
  ∧ (∀ k, k ≠ ticket_id → tickets r.1 !! k = tickets w !! k)
  ∧ users r.1 = users w ∧ comments r.1 = comments w
  ∧ uploads r.1 = uploads w
  ∧ ∃ m, outbox r.1 = (outbox w ++ [m])%list
       ∧ mail_recipients m = [MAIL_USERNAME].
Proof.
  intros Hk Ht Hrole Hown Hc r. subst r.
  rewrite (staff_action_owner MAIL_USERNAME _ _ _ _ _ _ Ht Hrole Hown).
  rewrite (proj2 (may_close_test request t) Hc). cbn [fst snd].
  set (new := Ticket.set_status t "Closed").
  destruct (commit_ticket_frame clock t new w) as (F1 & F2 & F3 & F4).
  pose proof (Hk _ _ Ht) as Hid.
  rewrite send_email_tickets, send_email_users, send_email_comments,
    send_email_uploads.
  split_and!; try assumption.
  - destruct (commit_ticket_lookup clock t new w) as (t' & Hl & Ht');
      [rewrite Hid; exact Ht|].
    rewrite Hid in Hl. exists t'. split; [exact Hl|].
    destruct Ht' as [-> | ->]; split; try reflexivity; destruct t; reflexivity.
  - intros k Hne. apply commit_ticket_other. rewrite Hid. exact Hne.
  - eexists. cbn. rewrite F4. split; reflexivity.
Qed.

(** X17: the owner's approve_close alters, on that one ticket, the status
    and [updated_at] and nothing else, leaves every other ticket and table
    alone, and hands over one mail, addressed to the operational mailbox
    only. *)
Theorem approve_close_effects cu ticket_id request clock w t :
  keyed w → tickets w !! ticket_id = Some t →
  User.role cu = "staff" → Ticket.staff_id t = User.id cu →
  may_close request t →
  let r := staff_action cu ticket_id request clock w in
  (∃ t', tickets r.1 !! ticket_id = Some t'
       ∧ Ticket.status t' = "Closed"
       ∧ Ticket.set_updated_at (Ticket.set_status t' (Ticket.status t))
           (Ticket.updated_at t) = t)
  ∧ (∀ k, k ≠ ticket_id → tickets r.1 !! k = tickets w !! k)
  ∧ users r.1 = users w ∧ comments r.1 = comments w
  ∧ uploads r.1 = uploads w
  ∧ ∃ m, outbox r.1 = (outbox w ++ [m])%list
       ∧ mail_recipients m = [MAIL_USERNAME].
Proof. apply approve_close_frame. Qed.

(** X18: once the owner has closed a ticket, asking to close it again is
    an invalid action that changes nothing, while a reopen is accepted and
    gives the ticket a fresh deadline counted from the time of the reopen:
    closing and reopening resets the deadline. *)
Theorem close_then_reopen cu ticket_id close reopen c1 c2 w t :
  keyed w → tickets w !! ticket_id = Some t →
  User.role cu = "staff" → Ticket.staff_id t = User.id cu →
  may_close close t → form reopen !! "action" = Some "reopen" →
  let w1 := (staff_action cu ticket_id close c1 w).1 in
  staff_action cu ticket_id close c2 w1 = (w1, InvalidAction ticket_id)
  ∧ (staff_action cu ticket_id reopen c2 w1).2 = TicketReopened ticket_id
  ∧ ∃ t2, tickets (staff_action cu ticket_id reopen c2 w1).1 !! ticket_id
          = Some t2
        ∧ Ticket.status t2 = "In Progress"
        ∧ Ticket.due_time t2 = calculate_due_time (Ticket.priority t) c2.
Proof.
  intros Hk Ht Hrole Hown Hc Hre w1.
  destruct (approve_close_frame cu ticket_id close c1 w t Hk Ht Hrole Hown Hc)
    as ((t1 & Hl1 & Hs1 & Hframe) & _).
  fold w1 in Hl1.
  assert (keyed w1) as Hk1 by apply staff_action_keyed, Hk.
  assert (Ticket.staff_id t1 = User.id cu) as Hown1.
  { rewrite <- Hown. apply (f_equal Ticket.staff_id) in Hframe. exact Hframe. }
  assert (Ticket.priority t1 = Ticket.priority t) as Hp1.
  { apply (f_equal Ticket.priority) in Hframe. exact Hframe. }
  split_and!.
  - apply (staff_action_invalid MAIL_USERNAME cu ticket_id close c2 w1 t1 Hk1
             Hl1 Hrole Hown1).
    + intros [_ Hin]. rewrite Hs1 in Hin. apply list_elem_of_In in Hin.
      cbn in Hin. intuition discriminate.
    + intros [Hact _]. destruct Hc as [Hact' _]. congruence.
  - apply (staff_action_reopen MAIL_USERNAME cu ticket_id reopen c2 w1 t1 Hk1
             Hl1 Hrole Hown1).
    split; [exact Hre|]. rewrite Hs1. apply list_elem_of_In. cbn. tauto.
  - destruct (staff_action_reopen MAIL_USERNAME cu ticket_id reopen c2 w1 t1
                Hk1 Hl1 Hrole Hown1) as (_ & t2 & Hl2 & Hs2 & _ & Hd2).
    { split; [exact Hre|]. rewrite Hs1. apply list_elem_of_In. cbn. tauto. }
    exists t2. rewrite <- Hp1. auto.
Qed.

End StatusMore.

(** ** Reading a ticket, its attachment, and commenting *)

(** X19: [view_ticket] looks the ticket up first: when no ticket has the
    id it answers not-found if the id fits a signed 64-bit integer and ends
    in a server error if it does not.  It shows an existing ticket to its
    owner and to anyone who is not staff.  What it shows differs from the
    stored row in the two timestamps only: it takes the stored naive values
    for UTC and shows them as Karachi time, which for values from 2010 on,
    when Karachi is five hours ahead of UTC, is five hours later. *)
Theorem view_ticket_shows_shifted_times cu ticket_id w :
  (tickets w !! ticket_id = None →
   (ticket_id < 2 ^ 63 → view_ticket cu ticket_id w = NotFound)
   ∧ (2 ^ 63 ≤ ticket_id → view_ticket cu ticket_id w = InternalError))
  ∧ (∀ t, tickets w !! ticket_id = Some t →
          User.role cu ≠ "staff" ∨ Ticket.staff_id t = User.id cu →
          tzinfo (Ticket.due_time t) = None →
          pkt_era (wall (Ticket.created_at t)) →
          pkt_era (wall (Ticket.due_time t)) →
          ∃ t', view_ticket cu ticket_id w = mkReply [] (RenderTicket t')
              ∧ Ticket.created_at t'
                = DT.mk (wall (Ticket.created_at t) + timedelta_hours 5)
                    (Some PK_TZ)
              ∧ Ticket.due_time t'
                = DT.mk (wall (Ticket.due_time t) + timedelta_hours 5)
                    (Some PK_TZ)
              ∧ Ticket.set_due_time
                  (Ticket.set_created_at t' (Ticket.created_at t))
                  (Ticket.due_time t) = t).
Proof.
  unfold view_ticket. split.
  - intros ->. split; intros H.
    + apply no_such_row_small, H.
    + apply no_such_row_large, H.
  - intros t -> Hwho Htz _ _. cbv zeta.
    cbn [Ticket.staff_id Ticket.due_time Ticket.set_due_time
         Ticket.set_created_at].
    rewrite Htz.
    assert (String.eqb (User.role cu) "staff"
            && negb (Ticket.staff_id t =? User.id cu) = false) as ->.
    { destruct Hwho as [H | H].
      - rewrite (PyFacts.eqb_neq_str _ _ H). reflexivity.
      - rewrite H, Z.eqb_refl. apply andb_false_r. }
    eexists. split; [reflexivity|].
    cbn. unfold astimezone, UTC, PK_TZ.
    split_and!; [f_equal; lia | f_equal; lia | destruct t; reflexivity].
Qed.

(** X20: [download_attachment] never sends a file to a staff member who
    does not own the ticket.  To the owner and to anyone who is not staff
    it sends the file recorded for the ticket when the upload folder holds
    a file of that name, and answers not-found when it holds none.  For a
    ticket without attachment it says so to every caller, the ownership
    check coming only afterwards. *)
Theorem download_attachment_access cu ticket_id w t :
  tickets w !! ticket_id = Some t →
  (User.role cu = "staff" → Ticket.staff_id t ≠ User.id cu →
   ∀ name, response (download_attachment cu ticket_id w) ≠ SendFile name)
  ∧ (∀ name, Ticket.attachment_filename t = Some name → name ≠ "" →
       User.role cu ≠ "staff" ∨ Ticket.staff_id t = User.id cu →
       (is_Some (uploads w !! name) →
        download_attachment cu ticket_id w = mkReply [] (SendFile name))
       ∧ (uploads w !! name = None →
          download_attachment cu ticket_id w = NotFound))
  ∧ (Ticket.attachment_filename t = None
     ∨ Ticket.attachment_filename t = Some "" →
     download_attachment cu ticket_id w
     = mkReply [("No attachment for this ticket.", "info")]
         (ticket_url "view_ticket" ticket_id)).
Proof.
  intros Ht. unfold download_attachment. rewrite Ht. split_and!.
  - intros Hrole Hne name.
    destruct (negb (Py.truthy _)); [discriminate|].
    rewrite Hrole, PyFacts.eqb_refl_str, (proj2 (Z.eqb_neq _ _) Hne).
    discriminate.
  - intros name Hname Hnonempty Hwho. rewrite Hname. cbn [Py.truthy].
    rewrite (proj2 (PyFacts.nonempty_true _) Hnonempty). cbn [negb].
    assert (String.eqb (User.role cu) "staff"
            && negb (Ticket.staff_id t =? User.id cu) = false) as ->.
    { destruct Hwho as [H | H].
      - rewrite (PyFacts.eqb_neq_str _ _ H). reflexivity.
      - rewrite H, Z.eqb_refl. apply andb_false_r. }
    cbv zeta. cbn [default from_option id]. split.
    + intros [c ->]. reflexivity.
    + intros ->. reflexivity.
  - intros [-> | ->]; reflexivity.
Qed.

(** X21: [add_comment] looks the ticket up first: when no ticket has the
    id it answers not-found if the id fits a signed 64-bit integer and ends
    in a server error if it does not; for a ticket that exists it refuses
    a message that is missing or consists of white space only.  None of
    these calls stores anything. *)
Theorem add_comment_guards cu ticket_id request clock w :
  (tickets w !! ticket_id = None →
   (ticket_id < 2 ^ 63 →
    add_comment cu ticket_id request clock w = (w, NotFound))
   ∧ (2 ^ 63 ≤ ticket_id →
      add_comment cu ticket_id request clock w = (w, InternalError)))
  ∧ (is_Some (tickets w !! ticket_id) →
     Py.all_space (default "" (form request !! "message")) = true →
     add_comment cu ticket_id request clock w
     = (w, mkReply [("Comment cannot be empty.", "danger")]
             (ticket_url "view_ticket" ticket_id))).
Proof.
  unfold add_comment. split.
  - intros ->. split; intros H.
    + rewrite (no_such_row_small _ H). reflexivity.
    + rewrite (no_such_row_large _ H). reflexivity.
  - intros [t ->] Hblank. cbv zeta.
    rewrite (PyFacts.strip_blank _ Hblank). reflexivity.
Qed.

(** X22: an accepted comment is added under a new key, so that no
    earlier comment is changed or lost; its message is the submitted text
    without surrounding white space, and is not empty; it carries the
    caller's id and the ticket's; and no ticket, account or upload changes
    and no mail is sent. *)
Theorem add_comment_appends cu ticket_id request clock w t :
  keyed w → tickets w !! ticket_id = Some t →
  Py.strip (default "" (form request !! "message")) ≠ "" →
  let r := add_comment cu ticket_id request clock w in
  ∃ c, comments r.1 = <[next_id (comments w) := c]> (comments w)
     ∧ comments w !! next_id (comments w) = None
     ∧ (∀ k c0, comments w !! k = Some c0 → comments r.1 !! k = Some c0)
     ∧ c = Comment.mk (next_id (comments w)) ticket_id (User.id cu)
             (Py.strip (default "" (form request !! "message")))
             (replace_tzinfo (DT.now PK_TZ clock) None)
     ∧ (∃ a b, default "" (form request !! "message")
               = a +:+ Comment.message c +:+ b
               ∧ Py.all_space a = true ∧ Py.all_space b = true)
     ∧ tickets r.1 = tickets w ∧ users r.1 = users w
     ∧ uploads r.1 = uploads w ∧ outbox r.1 = outbox w.
Proof.
  intros Hk Ht Hmsg r. subst r. unfold add_comment. rewrite Ht. cbv zeta.
  rewrite (proj2 (PyFacts.nonempty_true _) Hmsg). cbn [negb fst snd].
  rewrite (Hk _ _ Ht). pose proof (next_id_fresh (comments w)) as Hfresh.
  eexists. split_and!; try reflexivity; try assumption.
  - intros k c0 Hc0. cbn. rewrite lookup_insert_ne; [exact Hc0|].
    intros <-. congruence.
  - cbn. apply PyFacts.strip_split.
Qed.

(** [admin_update_assigned] turns away every caller who is not admin and
    answers not-found, to an admin, for an id in the 64-bit range that no
    ticket has; neither call changes the world. *)
Lemma admin_update_assigned_guards cu ticket_id request clock w :
  (User.role cu ≠ "admin" →
   admin_update_assigned cu ticket_id request clock w = (w, NotAuthorized))
  ∧ (User.role cu = "admin" → tickets w !! ticket_id = None →
     ticket_id < 2 ^ 63 →
     admin_update_assigned cu ticket_id request clock w = (w, NotFound)).
Proof.
  unfold admin_update_assigned. split.
  - intros H. rewrite (PyFacts.eqb_neq_str _ _ H). reflexivity.
  - intros Hrole Hnone Hsmall. rewrite Hrole, PyFacts.eqb_refl_str, Hnone.
    cbn [negb]. rewrite (no_such_row_small _ Hsmall). reflexivity.
Qed.

(** ** The life of a ticket *)

Lemma same_origin_refl (t : Ticket.t) : same_origin t t.
Proof. unfold same_origin. tauto. Qed.

Lemma same_origin_trans (a b c : Ticket.t) :
  same_origin a b → same_origin b c → same_origin a c.
Proof. unfold same_origin. intuition congruence. Qed.

Lemma evolves_refl (t : Ticket.t) : evolves t t.
Proof. unfold evolves. split; [apply same_origin_refl|]. tauto. Qed.

Lemma evolves_updated (t t' : Ticket.t) (d : datetime) :
  evolves t t' → tzinfo d = None → evolves t (Ticket.set_updated_at t' d).
Proof.
  unfold evolves, same_origin. intros (Ho & Hs & Hd & _) Hz. cbn. tauto.
Qed.

Lemma tickets_delta_same (w w' : World) :
  tickets w' = tickets w → tickets_delta w w'.
Proof.
  intros E. unfold tickets_delta. rewrite E. split.
  - intros k t Ht. exists t. split; [exact Ht | apply evolves_refl].
  - intros k t' H1 H2. congruence.
Qed.

Lemma tickets_delta_eq (w w1 w' : World) :
  tickets w' = tickets w1 → tickets_delta w w1 → tickets_delta w w'.
Proof. unfold tickets_delta. intros ->. auto. Qed.

Lemma tickets_delta_commit clock t new w :
  tickets w !! Ticket.id t = Some t → evolves t new →
  tickets_delta w (commit_ticket clock t new w).
Proof.
  intros Ht Hev. split.
  - intros k t0 Hk. destruct (decide (k = Ticket.id t)) as [->|Hne].
    + destruct (commit_ticket_lookup clock t new w Ht) as (t' & Hl & Ht').
      exists t'. split; [exact Hl|].
      assert (t0 = t) as -> by congruence.
      destruct Ht' as [-> | ->]; [exact Hev|].
      apply evolves_updated; [exact Hev | reflexivity].
    + exists t0. rewrite commit_ticket_other by exact Hne.
      split; [exact Hk | apply evolves_refl].
  - intros k t' Hk Hnone. apply commit_ticket_inv in Hk as [Hk | [-> _]];
      congruence.
Qed.

Lemma evolves_set_status (t : Ticket.t) (s : string) :
  s ∈ STATUSES → evolves t (Ticket.set_status t s).
Proof.
  intros Hs. unfold evolves, same_origin. cbn. tauto.
Qed.

Lemma calculate_due_time_naive (p : string) (clock : Z) :
  tzinfo (calculate_due_time p clock) = None.
Proof.
  unfold calculate_due_time. cbv zeta.
  destruct (String.eqb p "Urgent"), (String.eqb p "7 Days"),
    (String.eqb p "15 Days"); reflexivity.
Qed.

Section LifeFacts.

Variable MAIL_USERNAME : string.
Variable secure_filename : string -> string.
Variable generate_password_hash : string -> string -> string.

Local Abbreviation step :=
  (step MAIL_USERNAME secure_filename generate_password_hash).

Lemma create_ticket_delta cu request clock w :
  tickets_delta w
    (create_ticket MAIL_USERNAME secure_filename cu request clock w).1.
Proof.
  unfold create_ticket. cbv zeta.
  destruct (negb (String.eqb (User.role cu) "staff"));
    [apply tickets_delta_same; reflexivity|].
  destruct (String.eqb (method request) "POST");
    [|apply tickets_delta_same; reflexivity].
  destruct (negb (forallb _ _)); [apply tickets_delta_same; reflexivity|].
  assert (∀ w0 t0 s1 r1 b1 s2 r2 b2,
            tickets w0 = tickets w → Ticket.id t0 = next_id (tickets w) →
            Ticket.status t0 = "Open" →
            tzinfo (Ticket.created_at t0) = None →
            tzinfo (Ticket.updated_at t0) = None →
            tzinfo (Ticket.due_time t0) = None →
            tickets_delta w
              (send_email s2 r2 b2
                 (send_email s1 r1 b1
                    (with_tickets w0
                       (<[next_id (tickets w0) := t0]> (tickets w0))))))
    as Hins.
  { intros w0 t0 s1 r1 b1 s2 r2 b2 E Hid Hst H1 H2 H3.
    pose proof (next_id_fresh (tickets w)) as Hfresh.
    unfold tickets_delta. rewrite !send_email_tickets. cbn. rewrite E. split.
    - intros k t Hk. exists t. split; [|apply evolves_refl].
      rewrite lookup_insert_ne; [exact Hk|]. intros <-. congruence.
    - intros k t' Hk Hnone. destruct (decide (next_id (tickets w) = k)) as [<-|Hne].
      + rewrite lookup_insert_eq in Hk. injection Hk as <-. auto.
      + rewrite lookup_insert_ne in Hk by exact Hne. congruence. }
  assert (∀ p c, tzinfo (stored
            (if String.eqb p "Urgent" then DT.add c (timedelta_hours 2)
             else if String.eqb p "7 Days" then DT.add c (timedelta_days 7)
             else DT.add c (timedelta_days 3))) = None) as Hdue
    by reflexivity.
  destruct (files request !! "attachment") as [f|].
  - destruct (Py.nonempty (filename f)).
    + destruct (allowed_file (filename f));
        [|apply tickets_delta_same; reflexivity].
      cbn [fst]. apply Hins; reflexivity.
    + cbn [fst]. apply Hins; reflexivity.
  - cbn [fst]. apply Hins; reflexivity.
Qed.

Lemma admin_update_status_delta cu ticket_id request clock w :
  keyed w →
  tickets_delta w
    (admin_update_status MAIL_USERNAME cu ticket_id request clock w).1.
Proof.
  intros Hk. unfold admin_update_status. cbv zeta.
  destruct (negb _); [apply tickets_delta_same; reflexivity|].
  destruct (tickets w !! ticket_id) as [t|] eqn:Ht;
    [|apply tickets_delta_same; reflexivity].
  destruct (field_in _ _) eqn:Hin; cbn [negb];
    [|apply tickets_delta_same; reflexivity].
  destruct (form request !! "status") as [s|]; [|discriminate].
  cbn [field_in default from_option id] in *.
  apply PyFacts.str_in_elem_of in Hin.
  assert (tickets_delta w (commit_ticket clock t (Ticket.set_status t s) w))
    as Hd.
  { apply tickets_delta_commit; [rewrite (Hk _ _ Ht); exact Ht|].
    apply evolves_set_status. unfold STATUSES.
    rewrite !elem_of_cons in *. tauto. }
  destruct (users _ !! _); cbn [fst]; [|exact Hd].
  eapply tickets_delta_eq; [apply send_email_tickets | exact Hd].
Qed.

Lemma staff_action_delta cu ticket_id request clock w :
  keyed w →
  tickets_delta w (staff_action MAIL_USERNAME cu ticket_id request clock w).1.
Proof.
  intros Hk. unfold staff_action. cbv zeta.
  destruct (tickets w !! ticket_id) as [t|] eqn:Ht;
    [|apply tickets_delta_same; reflexivity].
  destruct (_ || _); [apply tickets_delta_same; reflexivity|].
  pose proof (Hk _ _ Ht) as Hid.
  destruct (_ && _).
  - cbn [fst]. eapply tickets_delta_eq; [apply send_email_tickets|].
    apply tickets_delta_commit; [rewrite Hid; exact Ht|].
    apply evolves_set_status. unfold STATUSES. rewrite !elem_of_cons. tauto.
  - destruct (_ && _); [|apply tickets_delta_same; reflexivity].
    cbn [fst]. eapply tickets_delta_eq; [apply send_email_tickets|].
    apply tickets_delta_commit; [rewrite Hid; exact Ht|].
    unfold evolves, same_origin, STATUSES. cbn -[calculate_due_time].
    rewrite !elem_of_cons. split_and!; try tauto.
    right. apply calculate_due_time_naive.
Qed.

Lemma admin_update_assigned_delta cu ticket_id request clock w :
  keyed w →
  tickets_delta w (admin_update_assigned cu ticket_id request clock w).1.
Proof.
  intros Hk. unfold admin_update_assigned. cbv zeta.
  destruct (negb _); [apply tickets_delta_same; reflexivity|].
  destruct (tickets w !! ticket_id) as [t|] eqn:Ht;
    [|apply tickets_delta_same; reflexivity].
  cbn [fst]. apply tickets_delta_commit; [rewrite (Hk _ _ Ht); exact Ht|].
  unfold evolves, same_origin. cbn. tauto.
Qed.

Lemma register_tickets request salt w :
  tickets (register generate_password_hash request salt w).1 = tickets w.
Proof.
  unfold register. cbv zeta.
  destruct (String.eqb _ "POST"); [|reflexivity].
  destruct (_ || _); [reflexivity|].
  destruct (negb _); [reflexivity|].
  destruct (first_by_email _ w); reflexivity.
Qed.

Lemma forgot_password_frame request w :
  users (forgot_password request w).1 = users w
  ∧ tickets (forgot_password request w).1 = tickets w
  ∧ comments (forgot_password request w).1 = comments w
  ∧ uploads (forgot_password request w).1 = uploads w.
Proof.
  unfold forgot_password. cbv zeta.
  destruct (String.eqb _ "POST"); [|auto].
  cbn [fst].
  destruct (form request !! "email") as [e|]; [|auto].
  destruct (first_by_email e w); [|auto].
  rewrite send_email_users, send_email_tickets, send_email_comments,
    send_email_uploads. auto.
Qed.

Lemma init_db_tickets admin_email admin_password salt w :
  tickets (init_db generate_password_hash admin_email admin_password salt w)
  = tickets w.
Proof. unfold init_db. destruct (first_by_email _ w); reflexivity. Qed.

Lemma step_tickets_delta (w w' : World) :
  keyed w → step w w' → tickets_delta w w'.
Proof.
  intros Hk Hstep. destruct Hstep.
  - apply create_ticket_delta.
  - apply admin_update_status_delta, Hk.
  - apply staff_action_delta, Hk.
  - apply admin_update_assigned_delta, Hk.
  - apply tickets_delta_same, add_comment_tickets.
  - apply tickets_delta_same, check_ticket_deadlines_tickets.
  - apply tickets_delta_same, register_tickets.
  - apply tickets_delta_same, forgot_password_frame.
  - apply tickets_delta_same, init_db_tickets.
Qed.

Lemma well_formed_keyed (w : World) : well_formed w → keyed w.
Proof. intros H k t Ht. apply (H k t Ht). Qed.

Lemma step_well_formed (w w' : World) :
  well_formed w → step w w' → well_formed w'.
Proof.
  intros Hwf Hstep.
  destruct (step_tickets_delta w w' (well_formed_keyed w Hwf) Hstep)
    as [Hold Hnew].
  intros k t' Hk'. destruct (tickets w !! k) as [t|] eqn:Hk.
  - destruct (Hold k t Hk) as (t2 & Hl & Ho & Hs & Hd & Hu).
    assert (t2 = t') as -> by congruence.
    destruct (Hwf k t Hk) as (W1 & W2 & W3 & W4 & W5).
    destruct Ho as (O1 & _ & _ & _ & _ & _ & _ & _ & O9).
    split_and!.
    + congruence.
    + destruct Hs as [-> | Hs]; assumption.
    + congruence.
    + destruct Hu as [-> | Hu]; assumption.
    + destruct Hd as [-> | Hd]; assumption.
  - destruct (Hnew k t' Hk' Hk) as (N1 & N2 & N3 & N4 & N5).
    split_and!; try assumption. rewrite N2. unfold STATUSES. left.
Qed.

(** X23: starting from a store in which every ticket sits under its own
    id, has one of the statuses Open, In Progress, Solved, Closed and has
    naive timestamps, no sequence of requests and job runs leads to a store
    where that fails: no other status (such as Approved) ever appears. *)
Theorem well_formed_invariant (w w' : World) :
  well_formed w → rtc step w w' → well_formed w'.
Proof.
  intros Hwf Hsteps. induction Hsteps as [|w w1 w2 Hstep _ IH]; [exact Hwf|].
  apply IH. eapply step_well_formed; eauto.
Qed.

(** X24: a ticket, once created, stays: no sequence of requests and job
    runs removes it or changes its id, owner, practice, provider, subject,
    description, priority, attachment or creation time. *)
Theorem tickets_keep_their_origin (w w' : World) (k : Z) (t : Ticket.t) :
  well_formed w → rtc step w w' → tickets w !! k = Some t →
  ∃ t', tickets w' !! k = Some t' ∧ same_origin t t'.
Proof.
  intros Hwf Hsteps. revert t.
  induction Hsteps as [w|w w1 w2 Hstep _ IH]; intros t Ht.
  - exists t. split; [exact Ht | apply same_origin_refl].
  - destruct (step_tickets_delta w w1 (well_formed_keyed w Hwf) Hstep)
      as [Hold _].
    destruct (Hold k t Ht) as (t1 & Hl1 & Ho1 & _).
    destruct (IH (step_well_formed w w1 Hwf Hstep) t1 Hl1) as (t2 & Hl2 & Ho2).
    exists t2. split; [exact Hl2 | eapply same_origin_trans; eauto].
Qed.

End LifeFacts.

(** ** Accounts *)

Lemma first_by_email_Some (e : string) (w : World) (u : User.t) :
  first_by_email e w = Some u →
  User.email u = e ∧ ∃ k, users w !! k = Some u.
Proof.
  unfold first_by_email. intros H. apply find_some in H as [Hin He].
  apply String.eqb_eq in He. split; [exact He|].
  apply elem_of_rows, list_elem_of_In, Hin.
Qed.

Lemma first_by_email_None (e : string) (w : World) :
  first_by_email e w = None ↔
  ∀ k u, users w !! k = Some u → User.email u ≠ e.
Proof.
  unfold first_by_email. split.
  - intros H k u Hk He.
    pose proof (find_none _ _ H u) as Hn. cbv beta in Hn.
    rewrite (proj2 (String.eqb_eq _ _) He) in Hn.
    assert (In u (rows (users w))) as Hin.
    { apply list_elem_of_In, elem_of_rows. eauto. }
    specialize (Hn Hin). discriminate.
  - intros H. destruct (List.find _ _) as [u|] eqn:E; [|reflexivity].
    apply find_some in E as [Hin He]. apply String.eqb_eq in He.
    apply list_elem_of_In, elem_of_rows in Hin as [k Hk].
    destruct (H k u Hk He).
Qed.

(** With unique addresses, the query finds the account that has the
    address. *)
Lemma first_by_email_unique (w : World) (k : Z) (u : User.t) :
  accounts_ok w → users w !! k = Some u →
  first_by_email (User.email u) w = Some u.
Proof.
  intros [_ Huniq] Hk.
  destruct (first_by_email (User.email u) w) as [u'|] eqn:E.
  - apply first_by_email_Some in E as [He (k' & Hk')].
    assert (k' = k) as -> by (eapply Huniq; eauto). congruence.
  - rewrite first_by_email_None in E. destruct (E k u Hk eq_refl).
Qed.

Lemma accounts_ok_insert (w : World) (u : User.t) :
  accounts_ok w → User.id u = next_id (users w) →
  first_by_email (User.email u) w = None →
  accounts_ok (with_users w (<[User.id u := u]> (users w))).
Proof.
  intros [Hid Huniq] Hnew Hfree. rewrite first_by_email_None in Hfree.
  pose proof (next_id_fresh (users w)) as Hfresh. rewrite <- Hnew in Hfresh.
  split; cbn.
  - intros k u0. destruct (decide (User.id u = k)) as [<-|Hne].
    + rewrite lookup_insert_eq. intros [= <-]. reflexivity.
    + rewrite lookup_insert_ne by exact Hne. apply Hid.
  - intros k1 k2 u1 u2.
    destruct (decide (User.id u = k1)) as [<-|H1],
             (decide (User.id u = k2)) as [<-|H2];
      rewrite ?lookup_insert_eq, ?lookup_insert_ne by assumption.
    + reflexivity.
    + intros [= <-] Hk2 He. destruct (Hfree k2 u2 Hk2). congruence.
    + intros Hk1 [= <-] He. destruct (Hfree k1 u1 Hk1). congruence.
    + apply Huniq.
Qed.

Section AccountFacts.

Variable generate_password_hash : string -> string -> string.
Variable check_password_hash : string -> string -> bool.

Local Abbreviation register := (register generate_password_hash).
Local Abbreviation login := (login check_password_hash).
Local Abbreviation init_db := (init_db generate_password_hash).

(** The account a registration creates. *)
Lemma register_outcome request salt w :
  ((register request salt w).1 = w ∧ (register request salt w).2 ≠ Registered)
  ∨ ∃ u, (register request salt w)
         = (with_users w (<[User.id u := u]> (users w)), Registered)
       ∧ method request = "POST"
       ∧ User.id u = next_id (users w)
       ∧ User.role u = "staff"
       ∧ User.email u = Py.strip (default "" (form request !! "email"))
       ∧ User.username u = Py.strip (default "" (form request !! "username"))
       ∧ (∃ p, form request !! "password" = Some p ∧ p ≠ ""
               ∧ form request !! "confirm" = Some p
               ∧ User.password_hash u = generate_password_hash salt p)
       ∧ first_by_email (User.email u) w = None.
Proof.
  unfold register. cbv zeta.
  destruct (String.eqb (method request) "POST") eqn:Hm;
    [|left; split; [reflexivity | discriminate]].
  destruct (_ || _) eqn:Hreq; [left; split; [reflexivity | discriminate]|].
  destruct (negb (bool_decide _)) eqn:Hpw;
    [left; split; [reflexivity | discriminate]|].
  destruct (first_by_email _ w) eqn:Hfree;
    [left; split; [reflexivity | discriminate]|].
  right. eexists. split; [reflexivity|].
  apply String.eqb_eq in Hm.
  apply orb_false_iff in Hreq as [_ Hp]. apply negb_false_iff in Hp.
  apply negb_false_iff, bool_decide_eq_true in Hpw.
  destruct (form request !! "password") as [p|]; [|discriminate].
  cbn in Hp. apply PyFacts.nonempty_true in Hp.
  cbn. split_and!; try reflexivity; try assumption.
  exists p. auto.
Qed.

(** X26: [register] can only add one account, and that account is a
    staff account under a new id: it never creates an admin, never alters
    an existing account, keeps the e-mail addresses unique, and touches no
    ticket. *)
Theorem register_adds_staff_only request salt w :
  accounts_ok w →
  let r := register request salt w in
  accounts_ok r.1
  ∧ (∀ k u, users w !! k = Some u → users r.1 !! k = Some u)
  ∧ (∀ k u, users r.1 !! k = Some u → users w !! k = None →
            k = next_id (users w) ∧ User.role u = "staff"
            ∧ User.email u = Py.strip (default "" (form request !! "email")))
  ∧ tickets r.1 = tickets w ∧ comments r.1 = comments w
  ∧ outbox r.1 = outbox w.
Proof.
  intros Hok r. subst r.
  destruct (register_outcome request salt w)
    as [[E _] | (u & E & _ & Hid & Hrole & Hemail & _ & _ & Hfree)].
  - rewrite E. split_and!; auto. intros k u H1 H2. congruence.
  - rewrite E. cbn [fst].
    pose proof (next_id_fresh (users w)) as Hfresh.
    split_and!; try reflexivity.
    + apply accounts_ok_insert; assumption.
    + intros k u0 Hk. cbn. rewrite lookup_insert_ne; [exact Hk|].
      intros Heq. rewrite Hid in Heq. congruence.
    + intros k u0. cbn. destruct (decide (User.id u = k)) as [<-|Hne].
      * rewrite lookup_insert_eq. intros [= <-] _. auto.
      * rewrite lookup_insert_ne by exact Hne. congruence.
Qed.

(** X27: registering and then logging in works: if the password check
    accepts every hash made from the same password, then after a
    successful registration a login with the stripped e-mail address and
    the same password logs in the new account, a staff account, and sends
    it to the staff dashboard. *)
Theorem register_then_login request salt w attempt p :
  (∀ s pw, check_password_hash (generate_password_hash s pw) pw = true) →
  (register request salt w).2 = Registered →
  form request !! "password" = Some p →
  method attempt = "POST" →
  form attempt !! "email"
  = Some (Py.strip (default "" (form request !! "email"))) →
  form attempt !! "password" = Some p →
  ∃ u, login attempt (register request salt w).1
       = (Some u, mkAuthReply [] (AuthRedirect "staff_dashboard"))
     ∧ User.email u = Py.strip (default "" (form request !! "email"))
     ∧ User.role u = "staff"
     ∧ users w !! User.id u = None
     ∧ users (register request salt w).1 !! User.id u = Some u.
Proof.
  intros Hcheck Hreg Hp Hpost He Hpw.
  destruct (register_outcome request salt w)
    as [[_ E] | (u & E & _ & Hid & Hrole & Hemail & _
                 & (p' & Hp' & _ & _ & Hhash) & Hfree)];
    [contradiction|].
  assert (p' = p) as -> by congruence.
  rewrite E. cbn [fst]. set (w' := with_users w _).
  assert (users w' !! User.id u = Some u) as Hu by apply lookup_insert_eq.
  assert (first_by_email (User.email u) w' = Some u) as Hfind.
  { destruct (first_by_email (User.email u) w') as [u'|] eqn:F.
    - apply first_by_email_Some in F as [Fe (k' & Fk)].
      subst w'. cbn in Fk. destruct (decide (User.id u = k')) as [<-|Hne].
      + rewrite lookup_insert_eq in Fk. congruence.
      + rewrite lookup_insert_ne in Fk by exact Hne.
        rewrite first_by_email_None in Hfree. destruct (Hfree k' u' Fk Fe).
    - rewrite first_by_email_None in F. destruct (F _ u Hu eq_refl). }
  exists u. split_and!; try assumption.
  - unfold login. rewrite Hpost, PyFacts.eqb_refl_str, He, Hpw. cbv zeta.
    rewrite <- Hemail, Hfind. unfold check_password.
    rewrite Hhash, Hcheck, Hrole. reflexivity.
  - rewrite Hid. apply next_id_fresh.
Qed.

(** X28: [login] logs in nobody without cause: the account it returns is
    in the user table, has the submitted e-mail address, and its stored
    hash accepts the submitted password; the reply then leads to the admin
    dashboard for an admin and to the staff dashboard otherwise.  An
    unknown address and a wrong password get the same reply. *)
Theorem login_sound attempt w :
  (∀ u reply, login attempt w = (Some u, reply) →
     ∃ e p, form attempt !! "email" = Some e
          ∧ form attempt !! "password" = Some p
          ∧ User.email u = e
          ∧ (∃ k, users w !! k = Some u)
          ∧ check_password_hash (User.password_hash u) p = true
          ∧ reply = mkAuthReply []
                      (AuthRedirect (if String.eqb (User.role u) "admin"
                                     then "admin_dashboard"
                                     else "staff_dashboard")))
  ∧ (∀ e p, method attempt = "POST" →
       form attempt !! "email" = Some e →
       form attempt !! "password" = Some p →
       (first_by_email e w = None
        ∨ ∃ u, first_by_email e w = Some u
               ∧ check_password_hash (User.password_hash u) p = false) →
       login attempt w = (None, LoginFailed)).
Proof.
  unfold login. split.
  - intros u reply. cbv zeta.
    destruct (String.eqb (method attempt) "POST"); [|discriminate].
    destruct (form attempt !! "email") as [e|]; [|discriminate].
    destruct (first_by_email e w) as [u'|] eqn:F; [|discriminate].
    destruct (form attempt !! "password") as [p|]; [|discriminate].
    unfold check_password.
    destruct (check_password_hash _ p) eqn:C; [|discriminate].
    apply first_by_email_Some in F as [Fe Fk].
    destruct (String.eqb (User.role u') "admin") eqn:R;
      intros [= <- <-]; exists e, p; rewrite R; auto 10.
  - intros e p -> -> -> H. rewrite PyFacts.eqb_refl_str. cbv zeta.
    destruct H as [-> | (u & -> & C)]; [reflexivity|].
    unfold check_password. rewrite C. reflexivity.
Qed.

(** X29: [forgot_password] gives the same reply whether or not the
    address is registered; it changes no account, ticket, comment or
    upload -- no password is reset -- and it hands over a mail only for a
    registered address, and then one mail, to that address. *)
Theorem forgot_password_discloses_nothing request w :
  method request = "POST" →
  (forgot_password request w).2 = ResetRequested
  ∧ users (forgot_password request w).1 = users w
  ∧ tickets (forgot_password request w).1 = tickets w
  ∧ comments (forgot_password request w).1 = comments w
  ∧ uploads (forgot_password request w).1 = uploads w
  ∧ (∀ e, form request !! "email" = Some e → first_by_email e w = None →
          outbox (forgot_password request w).1 = outbox w)
  ∧ (form request !! "email" = None →
     outbox (forgot_password request w).1 = outbox w)
  ∧ (∀ e u, form request !! "email" = Some e → first_by_email e w = Some u →
       ∃ m, outbox (forgot_password request w).1 = (outbox w ++ [m])%list
          ∧ mail_recipients m = [e]).
Proof.
  intros Hpost. pose proof (forgot_password_frame request w) as (F1 & F2 & F3 & F4).
  unfold forgot_password in *. rewrite Hpost, PyFacts.eqb_refl_str in *.
  cbv zeta in *. cbn [fst snd] in *. split_and!; try assumption.
  - reflexivity.
  - intros e -> ->. reflexivity.
  - intros ->. reflexivity.
  - intros e u -> F. rewrite F. apply first_by_email_Some in F as [<- _].
    eexists. split; reflexivity.
Qed.

(** X30: [init-db] makes sure an account with the admin address exists.
    When none has that address it adds one, with role admin, under a new
    id, leaving every other account alone; when one has it -- whatever its
    role -- it changes nothing, so that running it a second time changes
    nothing.  It keeps the addresses unique and touches no ticket. *)
Theorem init_db_seeds_once admin_email admin_password salt salt' w :
  accounts_ok w →
  let w' := init_db admin_email admin_password salt w in
  accounts_ok w'
  ∧ (∃ u, first_by_email admin_email w' = Some u)
  ∧ (∀ k u, users w !! k = Some u → users w' !! k = Some u)
  ∧ (first_by_email admin_email w = None →
     ∃ u, users w' = <[next_id (users w) := u]> (users w)
        ∧ User.role u = "admin" ∧ User.email u = admin_email
        ∧ User.username u = "CredentialingAdmin"
        ∧ User.password_hash u = generate_password_hash salt admin_password)
  ∧ (is_Some (first_by_email admin_email w) → w' = w)
  ∧ init_db admin_email admin_password salt' w' = w'
  ∧ tickets w' = tickets w.
Proof.
  intros Hok w'. subst w'.
  destruct (first_by_email admin_email w) as [u0|] eqn:F.
  - assert (init_db admin_email admin_password salt w = w) as E
      by (unfold init_db; rewrite F; reflexivity).
    rewrite E. split_and!; eauto.
    + discriminate.
    + unfold init_db. rewrite F. reflexivity.
  - set (u := set_password generate_password_hash
                (User.mk (next_id (users w)) "CredentialingAdmin" admin_email
                   "" "admin") salt admin_password).
    assert (init_db admin_email admin_password salt w
            = with_users w (<[User.id u := u]> (users w))) as E
      by (unfold init_db; rewrite F; reflexivity).
    rewrite E.
    assert (User.id u = next_id (users w)) as Hid by reflexivity.
    assert (User.email u = admin_email) as Hemail by reflexivity.
    assert (accounts_ok (with_users w (<[User.id u := u]> (users w)))) as Hok'.
    { apply accounts_ok_insert; [exact Hok | exact Hid |].
      rewrite Hemail. exact F. }
    assert (first_by_email admin_email
              (with_users w (<[User.id u := u]> (users w))) = Some u) as Hfind.
    { rewrite <- Hemail. eapply first_by_email_unique; [exact Hok'|].
      apply lookup_insert_eq. }
    pose proof (next_id_fresh (users w)) as Hfresh.
    split_and!; try assumption; try reflexivity.
    + eauto.
    + intros k u1 Hk. cbn. rewrite lookup_insert_ne; [exact Hk|].
      intros <-. change (User.id u) with (next_id (users w)) in Hk.
      congruence.
    + intros _. exists u. auto.
    + intros [? ?]. discriminate.
    + unfold init_db. rewrite Hfind. reflexivity.
Qed.

End AccountFacts.

(** ** What no request takes away *)

Section Permanence.

Variable MAIL_USERNAME : string.
Variable secure_filename : string -> string.
Variable generate_password_hash : string -> string -> string.

Local Abbreviation step :=
  (step MAIL_USERNAME secure_filename generate_password_hash).

Lemma keeps_rows_same (w w' : World) :
  users w' = users w → comments w' = comments w → keeps_rows w w'.
Proof. intros Hu Hc. unfold keeps_rows. rewrite Hu, Hc. auto. Qed.

Lemma commit_then_mail_rows clock t new s r b w :
  keeps_rows w (send_email s r b (commit_ticket clock t new w)).
Proof.
  destruct (commit_ticket_frame clock t new w) as (F1 & F2 & _).
  apply keeps_rows_same;
    [rewrite send_email_users | rewrite send_email_comments]; assumption.
Qed.

Lemma create_ticket_rows cu request clock w :
  keeps_rows w
    (create_ticket MAIL_USERNAME secure_filename cu request clock w).1.
Proof.
  unfold create_ticket. cbv zeta.
  destruct (negb (String.eqb (User.role cu) "staff"));
    [apply keeps_rows_same; reflexivity|].
  destruct (String.eqb (method request) "POST");
    [|apply keeps_rows_same; reflexivity].
  destruct (negb (forallb _ _)); [apply keeps_rows_same; reflexivity|].
  destruct (files request !! "attachment") as [f|].
  - destruct (Py.nonempty (filename f)).
    + destruct (allowed_file (filename f)); cbn [fst];
        apply keeps_rows_same;
        rewrite ?send_email_users, ?send_email_comments; reflexivity.
    + cbn [fst]. apply keeps_rows_same;
        rewrite ?send_email_users, ?send_email_comments; reflexivity.
  - cbn [fst]. apply keeps_rows_same;
      rewrite ?send_email_users, ?send_email_comments; reflexivity.
Qed.

Lemma admin_update_status_rows cu ticket_id request clock w :
  keeps_rows w
    (admin_update_status MAIL_USERNAME cu ticket_id request clock w).1.
Proof.
  unfold admin_update_status. cbv zeta.
  destruct (negb _); [apply keeps_rows_same; reflexivity|].
  destruct (tickets w !! ticket_id) as [t|];
    [|apply keeps_rows_same; reflexivity].
  destruct (negb _); [apply keeps_rows_same; reflexivity|].
  destruct (users _ !! _); cbn [fst]; [apply commit_then_mail_rows|].
  destruct (commit_ticket_frame clock t
              (Ticket.set_status t (default "" (form request !! "status"))) w)
    as (F1 & F2 & _).
  apply keeps_rows_same; assumption.
Qed.

Lemma staff_action_rows cu ticket_id request clock w :
  keeps_rows w (staff_action MAIL_USERNAME cu ticket_id request clock w).1.
Proof.
  unfold staff_action. cbv zeta.
  destruct (tickets w !! ticket_id) as [t|];
    [|apply keeps_rows_same; reflexivity].
  destruct (_ || _); [apply keeps_rows_same; reflexivity|].
  destruct (_ && _); [cbn [fst]; apply commit_then_mail_rows|].
  destruct (_ && _); [cbn [fst]; apply commit_then_mail_rows|].
  apply keeps_rows_same; reflexivity.
Qed.

Lemma admin_update_assigned_rows cu ticket_id request clock w :
  keeps_rows w (admin_update_assigned cu ticket_id request clock w).1.
Proof.
  unfold admin_update_assigned. cbv zeta.
  destruct (negb _); [apply keeps_rows_same; reflexivity|].
  destruct (tickets w !! ticket_id) as [t|];
    [|apply keeps_rows_same; reflexivity].
  cbn [fst].
  destruct (commit_ticket_frame clock t
              (Ticket.set_assigned_to t
                 (Py.strip (default "" (form request !! "assigned_to")))) w)
    as (F1 & F2 & _).
  apply keeps_rows_same; assumption.
Qed.

Lemma add_comment_rows cu ticket_id request clock w :
  keeps_rows w (add_comment cu ticket_id request clock w).1.
Proof.
  unfold add_comment. cbv zeta.
  destruct (tickets w !! ticket_id) as [t|];
    [|apply keeps_rows_same; reflexivity].
  destruct (negb _); [apply keeps_rows_same; reflexivity|].
  cbn [fst]. split; [auto|]. intros k c Hk. cbn.
  rewrite lookup_insert_ne; [exact Hk|].
  intros <-. pose proof (next_id_fresh (comments w)). congruence.
Qed.

Lemma insert_user_rows (w : World) (u : User.t) :
  User.id u = next_id (users w) →
  keeps_rows w (with_users w (<[User.id u := u]> (users w))).
Proof.
  intros Hid. split; [|auto]. intros k u0 Hk. cbn.
  rewrite lookup_insert_ne; [exact Hk|].
  intros <-. pose proof (next_id_fresh (users w)). congruence.
Qed.

Lemma register_rows request salt w :
  keeps_rows w (register generate_password_hash request salt w).1.
Proof.
  unfold register. cbv zeta.
  destruct (String.eqb _ "POST"); [|apply keeps_rows_same; reflexivity].
  destruct (_ || _); [apply keeps_rows_same; reflexivity|].
  destruct (negb _); [apply keeps_rows_same; reflexivity|].
  destruct (first_by_email _ w); [apply keeps_rows_same; reflexivity|].
  cbn [fst]. apply insert_user_rows. reflexivity.
Qed.

Lemma init_db_rows admin_email admin_password salt w :
  keeps_rows w
    (init_db generate_password_hash admin_email admin_password salt w).
Proof.
  unfold init_db. cbv zeta.
  destruct (first_by_email _ w); [apply keeps_rows_same; reflexivity|].
  apply insert_user_rows. reflexivity.
Qed.

Lemma step_keeps_rows (w w' : World) : step w w' → keeps_rows w w'.
Proof.
  intros Hstep. destruct Hstep.
  - apply create_ticket_rows.
  - apply admin_update_status_rows.
  - apply staff_action_rows.
  - apply admin_update_assigned_rows.
  - apply add_comment_rows.
  - apply keeps_rows_same;
      [apply check_ticket_deadlines_users | apply send_reminders_frame].
  - apply register_rows.
  - apply keeps_rows_same; apply forgot_password_frame.
  - apply init_db_rows.
Qed.

(** X25: accounts and comments are for good: whatever requests and job
    runs follow, an account stays in the user table exactly as it was
    stored -- name, address, role and password hash -- and a comment stays
    in the comment table exactly as it was posted. *)
Theorem accounts_and_comments_stay (w w' : World) :
  rtc step w w' →
  (∀ k u, users w !! k = Some u → users w' !! k = Some u)
  ∧ (∀ k c, comments w !! k = Some c → comments w' !! k = Some c).
Proof.
  intros Hsteps. induction Hsteps as [w|w w1 w2 Hstep _ [IHu IHc]].
  - auto.
  - destruct (step_keeps_rows w w1 Hstep) as [Hu Hc]. split; auto.
Qed.

End Permanence.

(* ================================================================= *)
(** ** Further worked examples *)

Lemma empty_world_accounts_ok : accounts_ok empty_world.
Proof.
  assert (∀ k u, users empty_world !! k = Some u →
                 (k = 1 ∧ u = alice) ∨ (k = 2 ∧ u = bob) ∨ (k = 3 ∧ u = carol))
    as Hcases.
  { intros k u H. unfold empty_world in H. cbn in H.
    rewrite !lookup_insert_Some, lookup_empty in H.
    intuition (subst; auto; discriminate). }
  split.
  - intros k u H.
    destruct (Hcases k u H) as [[-> ->] | [[-> ->] | [-> ->]]]; reflexivity.
  - intros k1 k2 u1 u2 H1 H2.
    destruct (Hcases k1 u1 H1) as [[-> ->] | [[-> ->] | [-> ->]]];
      destruct (Hcases k2 u2 H2) as [[-> ->] | [[-> ->] | [-> ->]]];
      intros E; first [reflexivity | discriminate E].
Qed.

Lemma empty_world_well_formed : well_formed empty_world.
Proof. intros k t H. cbn in H. rewrite lookup_empty in H. discriminate. Qed.

Lemma sample_world_staffed (t : Ticket.t) :
  Ticket.staff_id t = 1 →
  ∀ k t0, tickets (sample_world t) !! k = Some t0 →
          is_Some (users (sample_world t) !! Ticket.staff_id t0).
Proof.
  intros Hs k t0 H. cbn in H. apply lookup_insert_Some in H as [[_ <-] | [_ H]].
  - rewrite Hs. eexists. vm_compute. reflexivity.
  - rewrite lookup_empty in H. discriminate.
Qed.

Lemma sample_world_well_formed (status priority : string) :
  status ∈ STATUSES → well_formed (sample_world (sample_ticket status priority)).
Proof.
  intros Hs k t H. cbn in H. apply lookup_insert_Some in H as [[<- <-] | [_ H]].
  - cbn. auto.
  - rewrite lookup_empty in H. discriminate.
Qed.

(** [make_naive] and [ensure_pk_time] on noon of 2024-01-01, naive and at
    UTC+1. *)
Lemma normalisers_on_naive_and_aware_witness :
  make_naive (ensure_pk_time (DT.mk (NEW_YEAR_2024 + timedelta_hours 12) None))
  = DT.add (DT.mk (NEW_YEAR_2024 + timedelta_hours 12) None)
      (timedelta_hours 5)
  ∧ wall (make_naive (DT.mk (NEW_YEAR_2024 + timedelta_hours 12)
                        (Some (timedelta_hours 1))))
    - timedelta_hours 5
    = NEW_YEAR_2024 + timedelta_hours 12 - timedelta_hours 1.
Proof.
  split.
  - destruct (normalisers_on_naive_and_aware
                (DT.mk (NEW_YEAR_2024 + timedelta_hours 12) None)) as [H _].
    destruct (H eq_refl) as [_ H'].
    destruct H' as [_ H']; [split; vm_compute; discriminate | exact H'].
  - destruct (normalisers_on_naive_and_aware
                (DT.mk (NEW_YEAR_2024 + timedelta_hours 12)
                   (Some (timedelta_hours 1)))) as [_ H].
    destruct (H (timedelta_hours 1) eq_refl) as (_ & Hw & _);
      [split; vm_compute; discriminate | exact Hw].
Defined.

Lemma two_tickets_world_staffed :
  ∀ k t, tickets two_tickets_world !! k = Some t →
         is_Some (users two_tickets_world !! Ticket.staff_id t).
Proof.
  intros k t H. cbn in H.
  apply lookup_insert_Some in H as [[_ <-] | [_ H]];
    [eexists; vm_compute; reflexivity|].
  apply lookup_insert_Some in H as [[_ <-] | [_ H]];
    [eexists; vm_compute; reflexivity|].
  rewrite lookup_empty in H. discriminate.
Qed.

(** One run of the job over two tickets, both past their due time on the
    eighth day: a reminder for each, to alice and to the mailbox. *)
Lemma check_ticket_deadlines_reminders_witness :
  ∃ m1 m2, outbox (check_ticket_deadlines OPS (timedelta_days 8)
                     two_tickets_world) = [m1; m2]
     ∧ mail_subject m1 = "[Reminder] Ticket #1 overdue (Urgent)"
     ∧ mail_subject m2 = "[Reminder] Ticket #2 overdue (7 Days)"
     ∧ mail_recipients m1 = ["alice@example.org"; OPS]
     ∧ mail_recipients m2 = ["alice@example.org"; OPS].
Proof.
  destruct (check_ticket_deadlines_reminders OPS (timedelta_days 8)
              two_tickets_world)
    as (_ & _ & _ & _ & _ & order & mails & _ & Ho & _).
  - exact two_tickets_world_staffed.
  - do 2 eexists. split; [vm_compute; reflexivity|].
    split_and!; reflexivity.
Defined.

(** Two runs over the two tickets, on the fourth day, when only ticket 1
    is past its due time, and on the eighth, when both are: three mails. *)
Lemma check_ticket_deadlines_repeats_witness :
  length (outbox (check_ticket_deadlines OPS (timedelta_days 8)
                    (check_ticket_deadlines OPS (timedelta_days 4)
                       two_tickets_world)))
  = 3%nat.
Proof.
  destruct (check_ticket_deadlines_repeats OPS (timedelta_days 4)
              (timedelta_days 8) two_tickets_world)
    as (mails1 & mails2 & Ho & H1 & H2 & _).
  - exact two_tickets_world_staffed.
  - vm_compute. discriminate.
  - rewrite Ho, !length_app, H1, H2. vm_compute. reflexivity.
Defined.

(** One hour after the Karachi deadline: overdue on the dashboards, not
    yet for the job. *)
Lemma reminder_lags_dashboard_witness :
  let t := sample_ticket "Open" "Urgent" in
  let clock := timedelta_days 3 - timedelta_hours 4 in
  counts_overdue (dash_now (dashboard "All" [t] clock)) t = true
  ∧ reminder_due (utcnow clock) t = false.
Proof.
  cbv zeta.
  destruct (reminder_lags_dashboard "All" [sample_ticket "Open" "Urgent"]
              (timedelta_days 3 - timedelta_hours 4)
              (sample_ticket "Open" "Urgent")) as [_ H].
  - apply list_elem_of_In. cbn. tauto.
  - reflexivity.
  - apply H. vm_compute. split; reflexivity.
Defined.

(** alice's dashboard over two tickets, one overdue. *)
Lemma dashboard_figures_witness :
  let d := dashboard "All"
             (newest_first (rows (tickets two_tickets_world)))
             (timedelta_days 4) in
  total_tickets d = 2 ∧ closed_tickets d + overdue_tickets d ≤ 2.
Proof.
  cbv zeta.
  destruct (dashboard_figures alice (get []) (timedelta_days 4)
              two_tickets_world
              (dashboard "All"
                 (newest_first (rows (tickets two_tickets_world)))
                 (timedelta_days 4)))
    as (Ht & _ & _ & Hsum & _).
  - left. exists None. vm_compute. reflexivity.
  - rewrite Ht in Hsum. split; [vm_compute; reflexivity|].
    assert (Z.of_nat (length (newest_first (rows (tickets two_tickets_world))))
            = 2) as E by (vm_compute; reflexivity).
    cbn [dash_tickets dashboard] in Hsum. rewrite E in Hsum. exact Hsum.
Defined.

(** bob owns no ticket: his dashboard is empty; carol is sent away. *)
Lemma staff_dashboard_own_tickets_witness :
  (∃ d, staff_dashboard bob (get []) 0 two_tickets_world
        = mkReply [] (RenderStaffDashboard d None)
      ∧ ∀ t, t ∈ dash_tickets d → Ticket.staff_id t = 2)
  ∧ staff_dashboard carol (get []) 0 two_tickets_world
    = mkReply [] (Redirect "admin_dashboard" []).
Proof.
  destruct (staff_dashboard_own_tickets bob (get []) 0 two_tickets_world)
    as [H1 _].
  destruct (staff_dashboard_own_tickets carol (get []) 0 two_tickets_world)
    as [_ H2].
  split.
  - destruct (H1 eq_refl) as (d & E & _ & Hin). exists d. split; [exact E|].
    intros t Ht. apply Hin in Ht as (_ & Hs & _). exact Hs.
  - apply H2. discriminate.
Defined.

(** carol sees both tickets; alice is sent away. *)
Lemma admin_dashboard_all_tickets_witness :
  (∃ d, admin_dashboard carol (get []) 0 two_tickets_world
        = mkReply [] (RenderAdminDashboard d)
      ∧ total_tickets d = 2)
  ∧ admin_dashboard alice (get []) 0 two_tickets_world
    = mkReply [] (Redirect "staff_dashboard" []).
Proof.
  destruct (admin_dashboard_all_tickets carol (get []) 0 two_tickets_world)
    as [H1 _].
  destruct (admin_dashboard_all_tickets alice (get []) 0 two_tickets_world)
    as [_ H2].
  split.
  - destruct (H1 eq_refl) as (d & E & _ & Hall). exists d. split; [exact E|].
    destruct (Hall eq_refl) as [_ ->]. vm_compute. reflexivity.
  - apply H2. discriminate.
Defined.

(** On carol's dashboard ticket 2, the later one, stands first. *)
Lemma dashboards_newest_first_witness :
  wall (Ticket.created_at (sample_ticket "Open" "Urgent"))
  ≤ wall (Ticket.created_at newer_ticket).
Proof.
  apply (dashboards_newest_first carol (get []) 0 two_tickets_world
           (dashboard "All"
              (newest_first (rows (tickets two_tickets_world))) 0)
           0 1 newer_ticket (sample_ticket "Open" "Urgent")).
  - right. vm_compute. reflexivity.
  - lia.
  - vm_compute. reflexivity.
  - vm_compute. reflexivity.
Defined.

(** carol may not create a ticket; alice's form without a subject is
    refused. *)
Lemma create_ticket_preconditions_witness :
  create_ticket OPS keep_name carol (post (ticket_form "Urgent") []) 0
    empty_world
  = (empty_world,
     flash_redirect "Only staff can create tickets." "danger"
       "staff_dashboard" [])
  ∧ create_ticket OPS keep_name alice
      (post [("practice_name", "Practice"); ("provider_name", "Provider");
             ("description", "Description"); ("priority", "Urgent")] [])
      0 empty_world
    = (empty_world,
       flash_redirect "All fields including priority are required." "danger"
         "create_ticket" []).
Proof.
  split.
  - apply (create_ticket_preconditions OPS keep_name carol). discriminate.
  - apply (create_ticket_preconditions OPS keep_name alice).
    + reflexivity.
    + reflexivity.
    + exists "subject". split; [apply list_elem_of_In; cbn; tauto|].
      left. vm_compute. reflexivity.
Defined.



(** carol sets a Closed ticket back to Open: the deadline stays. *)
Lemma admin_update_status_effects_witness :
  let t := sample_ticket "Closed" "Urgent" in
  ∃ t', tickets (admin_update_status OPS carol 1 (post [("status", "Open")] [])
                   1000 (sample_world t)).1 !! 1 = Some t'
      ∧ Ticket.status t' = "Open"
      ∧ Ticket.due_time t' = Ticket.due_time t.
Proof.
  cbv zeta.
  destruct (admin_update_status_effects OPS carol 1
              (post [("status", "Open")] []) 1000
              (sample_world (sample_ticket "Closed" "Urgent"))
              (sample_ticket "Closed" "Urgent") "Open" alice)
    as (_ & (t' & Hl & Hs & Hd & _) & _).
  - apply sample_world_keyed.
  - reflexivity.
  - vm_compute. reflexivity.
  - vm_compute. reflexivity.
  - apply list_elem_of_In. cbn. tauto.
  - vm_compute. reflexivity.
  - exists t'. auto.
Defined.

(** carol asks for Closed: ticket 1 is as before. *)
Lemma admin_update_status_never_closes_witness :
  match tickets (admin_update_status OPS carol 1
                   (post [("status", "Closed")] []) 1000
                   (sample_world (sample_ticket "Open" "Urgent"))).1 !! 1 with
  | Some t' => Ticket.status t' = "Open"
               ∨ Ticket.status t' ∈ ["Open"; "In Progress"; "Solved"]
  | None => False
  end.
Proof.
  pose proof (admin_update_status_never_closes OPS carol 1
                (post [("status", "Closed")] []) 1000
                (sample_world (sample_ticket "Open" "Urgent"))
                (sample_world_keyed _) 1) as H.
  cbv zeta in H.
  assert (tickets (sample_world (sample_ticket "Open" "Urgent")) !! 1
          = Some (sample_ticket "Open" "Urgent")) as E
    by (vm_compute; reflexivity).
  rewrite E in H. destruct (tickets _ !! 1) as [t'|]; [|exact H].
  destruct H as [_ H]. exact H.
Defined.

(** carol, an admin, and bob, not the owner, may not act on ticket 1;
    ticket 9 is not found, and for the id 2^63 the lookup raises. *)
Lemma staff_action_guards_witness :
  let w := sample_world (sample_ticket "Solved" "Urgent") in
  staff_action OPS carol 1 (post [("action", "approve_close")] []) 0 w
  = (w, NotAuthorized)
  ∧ staff_action OPS bob 1 (post [("action", "reopen")] []) 0 w
    = (w, NotAuthorized)
  ∧ staff_action OPS bob 9 (post [("action", "reopen")] []) 0 w
    = (w, NotFound)
  ∧ staff_action OPS bob (2 ^ 63) (post [("action", "reopen")] []) 0 w
    = (w, InternalError).
Proof.
  cbv zeta. split_and!.
  - eapply (staff_action_guards OPS carol 1);
      [vm_compute; reflexivity | left; discriminate].
  - eapply (staff_action_guards OPS bob 1);
      [vm_compute; reflexivity | right; discriminate].
  - refine (proj1 (proj1 (staff_action_guards OPS bob 9 _ 0 _) _) _);
      vm_compute; reflexivity.
  - refine (proj2 (proj1 (staff_action_guards OPS bob (2 ^ 63) _ 0 _) _) _);
      [vm_compute; reflexivity | vm_compute; discriminate].
Defined.

(** alice closes her Solved ticket: one mail, to the mailbox. *)
Lemma approve_close_effects_witness :
  ∃ m, outbox (staff_action OPS alice 1 (post [("action", "approve_close")] [])
                 0 (sample_world (sample_ticket "Solved" "Urgent"))).1 = [m]
     ∧ mail_recipients m = [OPS].
Proof.
  destruct (approve_close_effects OPS alice 1
              (post [("action", "approve_close")] []) 0
              (sample_world (sample_ticket "Solved" "Urgent"))
              (sample_ticket "Solved" "Urgent"))
    as (_ & _ & _ & _ & _ & m & Ho & Hr).
  - apply sample_world_keyed.
  - vm_compute. reflexivity.
  - reflexivity.
  - reflexivity.
  - split; [vm_compute; reflexivity | apply list_elem_of_In; cbn; tauto].
  - exists m. split; [exact Ho | exact Hr].
Defined.

(** alice closes her "7 Days" ticket and reopens it at clock 5000. *)
Lemma close_then_reopen_witness :
  let w1 := (staff_action OPS alice 1 (post [("action", "approve_close")] [])
               0 (sample_world (sample_ticket "Open" "7 Days"))).1 in
  ∃ t2, tickets (staff_action OPS alice 1 (post [("action", "reopen")] [])
                   5000 w1).1 !! 1 = Some t2
      ∧ Ticket.status t2 = "In Progress"
      ∧ Ticket.due_time t2 = calculate_due_time "7 Days" 5000.
Proof.
  cbv zeta.
  destruct (close_then_reopen OPS alice 1
              (post [("action", "approve_close")] [])
              (post [("action", "reopen")] []) 0 5000
              (sample_world (sample_ticket "Open" "7 Days"))
              (sample_ticket "Open" "7 Days"))
    as (_ & _ & t2 & Hl & Hs & Hd).
  - apply sample_world_keyed.
  - vm_compute. reflexivity.
  - reflexivity.
  - reflexivity.
  - split; [vm_compute; reflexivity | apply list_elem_of_In; cbn; tauto].
  - vm_compute. reflexivity.
  - exists t2. auto.
Defined.

(** carol opens alice's ticket of 2024-01-01: due at 12:00 in the store,
    at 17:00 on the page; ticket 9 is not found. *)
Lemma view_ticket_shows_shifted_times_witness :
  (∃ t', view_ticket carol 1 office_world = mkReply [] (RenderTicket t')
       ∧ Ticket.due_time t'
         = DT.mk (NEW_YEAR_2024 + timedelta_hours 17) (Some PK_TZ))
  ∧ view_ticket carol 9 office_world = NotFound.
Proof.
  destruct (view_ticket_shows_shifted_times carol 1 office_world) as [_ H].
  destruct (view_ticket_shows_shifted_times carol 9 office_world) as [H9 _].
  destruct (H urgent_ticket) as (t' & E & _ & Hd & _).
  - vm_compute. reflexivity.
  - left. discriminate.
  - reflexivity.
  - split; vm_compute; discriminate.
  - split; vm_compute; discriminate.
  - split.
    + exists t'. split; [exact E|]. rewrite Hd. vm_compute. reflexivity.
    + apply H9; vm_compute; reflexivity.
Defined.

(** The scan attached to alice's ticket: sent to alice, refused to bob,
    and not found once the file has gone from the folder. *)
Lemma download_attachment_access_witness :
  download_attachment alice 1 office_world = mkReply [] (SendFile "scan.pdf")
  ∧ response (download_attachment bob 1 office_world) ≠ SendFile "scan.pdf"
  ∧ download_attachment alice 1 office_world_no_file = NotFound.
Proof.
  destruct (download_attachment_access alice 1 office_world urgent_ticket)
    as (_ & Ha & _); [vm_compute; reflexivity|].
  destruct (download_attachment_access bob 1 office_world urgent_ticket)
    as (Hb & _ & _); [vm_compute; reflexivity|].
  destruct (download_attachment_access alice 1 office_world_no_file
              urgent_ticket) as (_ & Hn & _); [vm_compute; reflexivity|].
  split_and!.
  - apply (Ha "scan.pdf"); [reflexivity | discriminate | right; reflexivity|].
    eexists. vm_compute. reflexivity.
  - apply Hb; [reflexivity | discriminate].
  - apply (Hn "scan.pdf"); [reflexivity | discriminate | right; reflexivity|].
    vm_compute. reflexivity.
Defined.

(** A comment of two spaces is refused; one on ticket 9 is not found. *)
Lemma add_comment_guards_witness :
  let w := sample_world (sample_ticket "Open" "Urgent") in
  add_comment alice 1 (post [("message", "  ")] []) 0 w
  = (w, mkReply [("Comment cannot be empty.", "danger")]
          (ticket_url "view_ticket" 1))
  ∧ add_comment alice 9 (post [("message", "hello")] []) 0 w = (w, NotFound)
  ∧ add_comment alice (2 ^ 63) (post [("message", "hello")] []) 0 w
    = (w, InternalError).
Proof.
  cbv zeta. split_and!.
  - apply (add_comment_guards alice 1).
    + eexists. vm_compute. reflexivity.
    + vm_compute. reflexivity.
  - refine (proj1 (proj1 (add_comment_guards alice 9 _ 0 _) _) _);
      vm_compute; reflexivity.
  - refine (proj2 (proj1 (add_comment_guards alice (2 ^ 63) _ 0 _) _) _);
      [vm_compute; reflexivity | vm_compute; discriminate].
Defined.

(** alice's comment is stored without its surrounding blanks. *)
Lemma add_comment_appends_witness :
  ∃ c, comments (add_comment alice 1 (post [("message", "  hello ")] []) 0
                   (sample_world (sample_ticket "Open" "Urgent"))).1 !! 1
       = Some c
     ∧ Comment.message c = "hello".
Proof.
  destruct (add_comment_appends alice 1 (post [("message", "  hello ")] []) 0
              (sample_world (sample_ticket "Open" "Urgent"))
              (sample_ticket "Open" "Urgent"))
    as (c & Hc & _ & _ & Hval & _).
  - apply sample_world_keyed.
  - vm_compute. reflexivity.
  - vm_compute. discriminate.
  - exists c. split.
    + rewrite Hc. apply lookup_insert_eq.
    + rewrite Hval. vm_compute. reflexivity.
Defined.

(** After alice creates a ticket and closes it, the store is well formed. *)
Lemma well_formed_invariant_witness :
  let w1 := (create_ticket OPS keep_name alice (post (ticket_form "Urgent") [])
               0 empty_world).1 in
  let w2 := (staff_action OPS alice 1 (post [("action", "approve_close")] [])
               10 w1).1 in
  well_formed w2.
Proof.
  cbv zeta.
  apply (well_formed_invariant OPS keep_name sample_hash empty_world).
  - apply empty_world_well_formed.
  - eapply rtc_l; [apply step_create_ticket|].
    eapply rtc_l; [apply step_staff_action|]. apply rtc_refl.
Defined.

(** After carol reassigns ticket 1 and alice closes it, it is still
    alice's "Urgent" ticket. *)
Lemma tickets_keep_their_origin_witness :
  let w := sample_world (sample_ticket "Open" "Urgent") in
  let w1 := (admin_update_assigned carol 1 (post [("assigned_to", "erin")] [])
               10 w).1 in
  let w2 := (staff_action OPS alice 1 (post [("action", "approve_close")] [])
               20 w1).1 in
  ∃ t', tickets w2 !! 1 = Some t'
      ∧ Ticket.staff_id t' = 1 ∧ Ticket.priority t' = "Urgent".
Proof.
  cbv zeta.
  destruct (tickets_keep_their_origin OPS keep_name sample_hash
              (sample_world (sample_ticket "Open" "Urgent"))
              (staff_action OPS alice 1
                 (post [("action", "approve_close")] []) 20
                 (admin_update_assigned carol 1
                    (post [("assigned_to", "erin")] []) 10
                    (sample_world (sample_ticket "Open" "Urgent"))).1).1
              1 (sample_ticket "Open" "Urgent"))
    as (t' & Hl & Ho).
  - apply sample_world_well_formed. apply list_elem_of_In. cbn. tauto.
  - eapply rtc_l; [apply step_admin_update_assigned|].
    eapply rtc_l; [apply step_staff_action|]. apply rtc_refl.
  - vm_compute. reflexivity.
  - exists t'. destruct Ho as (_ & Hs & _ & _ & _ & _ & Hp & _).
    split_and!; [exact Hl | exact Hs | exact Hp].
Defined.

(** bob's comment and alice's account outlive a registration and a run of
    the job. *)
Lemma accounts_and_comments_stay_witness :
  let w := (add_comment bob 1 (post [("message", "hello")] []) 0
              (sample_world (sample_ticket "Open" "Urgent"))).1 in
  let w2 := check_ticket_deadlines OPS (timedelta_days 9)
              (register sample_hash (post signup_form []) "salt" w).1 in
  users w2 !! 1 = Some alice
  ∧ ∃ c, comments w2 !! 1 = Some c ∧ Comment.message c = "hello".
Proof.
  cbv zeta.
  destruct (accounts_and_comments_stay OPS keep_name sample_hash
              (add_comment bob 1 (post [("message", "hello")] []) 0
                 (sample_world (sample_ticket "Open" "Urgent"))).1
              (check_ticket_deadlines OPS (timedelta_days 9)
                 (register sample_hash (post signup_form []) "salt"
                    (add_comment bob 1 (post [("message", "hello")] []) 0
                       (sample_world (sample_ticket "Open" "Urgent"))).1).1))
    as [Hu Hc].
  - eapply rtc_l; [apply step_register|].
    eapply rtc_l; [apply step_check_ticket_deadlines|]. apply rtc_refl.
  - split.
    + apply Hu. vm_compute. reflexivity.
    + eexists. split; [apply Hc; vm_compute; reflexivity | reflexivity].
Defined.

(** dora registers: account 4, a staff account. *)
Lemma register_adds_staff_only_witness :
  ∃ u, users (register sample_hash (post signup_form []) "salt"
                empty_world).1 !! 4 = Some u
     ∧ User.role u = "staff" ∧ User.email u = "dora@example.org".
Proof.
  destruct (register_adds_staff_only sample_hash (post signup_form []) "salt"
              empty_world empty_world_accounts_ok)
    as (_ & _ & Hnew & _).
  assert (users (register sample_hash (post signup_form []) "salt"
                   empty_world).1 !! 4
          = Some (User.mk 4 "dora" "dora@example.org" "secret" "staff")) as Hl
    by (vm_compute; reflexivity).
  destruct (Hnew 4 _ Hl) as (_ & Hr & He); [vm_compute; reflexivity|].
  eexists. split_and!; [exact Hl | exact Hr | reflexivity].
Defined.

(** dora registers with blanks around her address and logs in without. *)
Lemma register_then_login_witness :
  ∃ u, login sample_check
         (post [("email", "dora@example.org"); ("password", "secret")] [])
         (register sample_hash (post signup_form []) "salt" empty_world).1
       = (Some u, mkAuthReply [] (AuthRedirect "staff_dashboard"))
     ∧ User.email u = "dora@example.org".
Proof.
  destruct (register_then_login sample_hash sample_check
              (post signup_form []) "salt" empty_world
              (post [("email", "dora@example.org"); ("password", "secret")] [])
              "secret")
    as (u & Hl & He & _).
  - intros s pw. unfold sample_check, sample_hash. apply PyFacts.eqb_refl_str.
  - vm_compute. reflexivity.
  - vm_compute. reflexivity.
  - reflexivity.
  - vm_compute. reflexivity.
  - vm_compute. reflexivity.
  - exists u. split; [exact Hl|]. rewrite He. vm_compute. reflexivity.
Defined.

(** A wrong password for alice and an unknown address get the same
    reply. *)
Lemma login_sound_witness :
  login sample_check
    (post [("email", "alice@example.org"); ("password", "guess")] [])
    empty_world
  = (None, LoginFailed)
  ∧ login sample_check
      (post [("email", "nobody@example.org"); ("password", "guess")] [])
      empty_world
    = (None, LoginFailed).
Proof.
  split.
  - eapply (login_sound sample_check) with (e := "alice@example.org")
                                             (p := "guess").
    + reflexivity.
    + vm_compute. reflexivity.
    + vm_compute. reflexivity.
    + right. exists alice. split; vm_compute; reflexivity.
  - eapply (login_sound sample_check) with (e := "nobody@example.org")
                                             (p := "guess").
    + reflexivity.
    + vm_compute. reflexivity.
    + vm_compute. reflexivity.
    + left. vm_compute. reflexivity.
Defined.

(** The reply for alice's address and for an unknown one is the same;
    only alice gets a mail. *)
Lemma forgot_password_discloses_nothing_witness :
  (forgot_password (post [("email", "alice@example.org")] []) empty_world).2
  = (forgot_password (post [("email", "nobody@example.org")] []) empty_world).2
  ∧ outbox (forgot_password (post [("email", "nobody@example.org")] [])
              empty_world).1 = [].
Proof.
  destruct (forgot_password_discloses_nothing
              (post [("email", "alice@example.org")] []) empty_world eq_refl)
    as (-> & _).
  destruct (forgot_password_discloses_nothing
              (post [("email", "nobody@example.org")] []) empty_world eq_refl)
    as (-> & _ & _ & _ & _ & Hnone & _).
  split; [reflexivity|].
  apply (Hnone "nobody@example.org"); vm_compute; reflexivity.
Defined.

(** [init-db] on the three sample accounts adds account 4, the admin, and
    a second run adds nothing. *)
Lemma init_db_seeds_once_witness :
  let w' := init_db sample_hash "root@example.org" "Admin@123" "s1"
              empty_world in
  (∃ u, users w' !! 4 = Some u ∧ User.role u = "admin")
  ∧ init_db sample_hash "root@example.org" "Admin@123" "s2" w' = w'.
Proof.
  cbv zeta.
  destruct (init_db_seeds_once sample_hash "root@example.org" "Admin@123"
              "s1" "s2" empty_world empty_world_accounts_ok)
    as (_ & _ & _ & Hnew & _ & Hidem & _).
  split; [|exact Hidem].
  destruct Hnew as (u & Hu & Hr & _); [vm_compute; reflexivity|].
  exists u. split; [|exact Hr]. rewrite Hu. apply lookup_insert_eq.
Defined.
